(** * A shallow embedding of the go-postgres-mcp query gateway

    The repository ships three overlapping variants of the same server:

    - the monolithic pgxpool server (package-level [handleReadQuery],
      [executeQuery], [formatResult], [handleError], [updateMetrics], ...),
      embedded in module [Pooled];
    - the [Handlers] methods of handlers.go ([HandleReadQuery],
      [HandleUpdateQuery], [HandleGetStats], ...), embedded in module
      [Handlers].  Their utility methods are announced for a file utils.go
      that is not part of the tree; the package-level functions of the
      monolithic server that carry the same names are used for them;
    - the sqlx server ([HandleQuery], [DoQuery], [HandleExec],
      [HandleExplain], [MapToCSV] and the tool closures registered in
      [main]), embedded in module [Sqlx].

    Handlers are written in a small state-and-panic monad over an explicit
    world (metrics, statements sent to the database, clock reads, journal).
    The database, the wall clock and the connection pool are environments
    the handlers are parametric in. *)

From Stdlib Require Import ZArith Ascii PrimFloat Uint63 FloatOps SpecFloat.
From stdpp Require Import gmap strings list pretty.

Open Scope Z_scope.

Set Warnings "-clear-no-such-hyp".

(* ================================================================== *)
(** * Go runtime                                                       *)
(* ================================================================== *)

(** An [error] value is represented by its message. *)
Definition error : Type := string.

(** [(T, error)] results: exactly one side is populated in this code base. *)
Inductive Fallible (A : Type) : Type :=
  | Ok (a : A)
  | Err (err : error).
Arguments Ok {A} a.
Arguments Err {A} err.

(** ** Machine integers *)

Definition MinInt64 : Z := - 2 ^ 63.
Definition MaxInt64 : Z := 2 ^ 63 - 1.

(** Two's complement wrap-around of an [int64] result. *)
Definition int64_wrap (z : Z) : Z := (z + 2 ^ 63) mod 2 ^ 64 - 2 ^ 63.

(** [time.Time.Sub] saturates instead of wrapping. *)
Definition int64_saturate (z : Z) : Z :=
  if z <? MinInt64 then MinInt64 else if MaxInt64 <? z then MaxInt64 else z.

(** ** float64 *)

(** [float64(x)] for an [int64] x: the nearest binary64, ties to even.  The
    primitive conversion reads a 63 bit unsigned integer, so the sign and the
    single magnitude 2^63 are treated apart. *)
Definition float64_of_int64 (z : Z) : float :=
  if z =? MinInt64 then (-9223372036854775808)%float
  else if z <? 0 then PrimFloat.opp (PrimFloat.of_uint63 (Uint63.of_Z (- z)))
  else PrimFloat.of_uint63 (Uint63.of_Z z).

(** [int(f)] for a [float64] f: truncation toward zero.  The Go specification
    leaves the result open when the value does not fit; amd64 yields the
    "integer indefinite" value, which is what is written here. *)
Definition int_of_float64 (f : float) : Z :=
  match Prim2SF f with
  | S754_zero _ => 0
  | S754_finite sign m e =>
      let magnitude :=
        if 0 <=? e then Z.shiftl (Z.pos m) e else Z.shiftr (Z.pos m) (- e) in
      let z := if sign then - magnitude else magnitude in
      if (MinInt64 <=? z) && (z <=? MaxInt64) then z else MinInt64
  | S754_infinity _ | S754_nan => MinInt64
  end.

Definition float64_is_finite (f : float) : bool :=
  match Prim2SF f with
  | S754_zero _ | S754_finite _ _ _ => true
  | S754_infinity _ | S754_nan => false
  end.

(** ** Byte strings *)

Definition LF : string := String "010"%char "".
Definition quote_char : ascii := "034"%char.

(** [strings.HasPrefix] and [strings.Contains] compare bytes. *)
Fixpoint HasPrefix (s prefix : string) : bool :=
  match prefix with
  | EmptyString => true
  | String p prefix' =>
      match s with
      | EmptyString => false
      | String c s' => if Ascii.eqb c p then HasPrefix s' prefix' else false
      end
  end.

Fixpoint Contains (s substr : string) : bool :=
  HasPrefix s substr ||
  match s with
  | EmptyString => false
  | String _ s' => Contains s' substr
  end.

Fixpoint Repeat (s : string) (count : nat) : string :=
  match count with
  | O => ""
  | S n => s +:+ Repeat s n
  end.

Fixpoint Join (elems : list string) (sep : string) : string :=
  match elems with
  | [] => ""
  | [e] => e
  | e :: rest => e +:+ sep +:+ Join rest sep
  end.

(** [strconv.Itoa] / the [%d] verb. *)
Definition Itoa (z : Z) : string := pretty z.

(** The functions of the [strings], [unicode] and [utf8] packages whose result
    depends on the Unicode tables.  The handlers are verified for every
    implementation; the two laws are all they rely on. *)
Class Unicode : Type := {
  ToUpper : string → string;
  TrimSpace : string → string;
  RuneCountInString : string → nat;
  (** [unicode.IsSpace] of the first rune of a string *)
  LeadingSpace : string → bool;
  ToUpper_empty : ToUpper "" = "";
  TrimSpace_empty : TrimSpace "" = "";
}.

(** The instance for ASCII text, where the Go functions work byte by byte. *)
Definition ascii_upper (c : ascii) : ascii :=
  let n := nat_of_ascii c in
  if (97 <=? n)%nat && (n <=? 122)%nat then ascii_of_nat (n - 32) else c.

Fixpoint ascii_ToUpper (s : string) : string :=
  match s with
  | EmptyString => ""
  | String c s' => String (ascii_upper c) (ascii_ToUpper s')
  end.

Definition ascii_is_space (c : ascii) : bool :=
  let n := nat_of_ascii c in
  ((9 <=? n)%nat && (n <=? 13)%nat) || (n =? 32)%nat.

Fixpoint trim_left (s : string) : string :=
  match s with
  | EmptyString => ""
  | String c s' => if ascii_is_space c then trim_left s' else s
  end.

Fixpoint trim_right (s : string) : string :=
  match s with
  | EmptyString => ""
  | String c s' =>
      match trim_right s' with
      | EmptyString => if ascii_is_space c then "" else String c ""
      | rest => String c rest
      end
  end.

Definition ascii_TrimSpace (s : string) : string := trim_right (trim_left s).

Definition ascii_LeadingSpace (s : string) : bool :=
  match s with
  | EmptyString => false
  | String c _ => ascii_is_space c
  end.

#[export] Instance ascii_text : Unicode := {|
  ToUpper := ascii_ToUpper;
  TrimSpace := ascii_TrimSpace;
  RuneCountInString := String.length;
  LeadingSpace := ascii_LeadingSpace;
  ToUpper_empty := eq_refl;
  TrimSpace_empty := eq_refl;
|}.

(** ** [time.Duration.String] *)

Definition digit_char (d : Z) : ascii := ascii_of_nat (48 + Z.to_nat d).

(** [fmtFrac]: the fraction of [v / 10^prec] without trailing zeros, and the
    integer part.  Digits are produced from the least significant one. *)
Fixpoint fmtFrac (prec : nat) (v : Z) (print : bool) (tail : string) : string * Z :=
  match prec with
  | O => (if print then "." +:+ tail else tail, v)
  | S prec' =>
      let digit := v mod 10 in
      let print := print || negb (digit =? 0) in
      fmtFrac prec' (v / 10) print
        (if print then String (digit_char digit) tail else tail)
  end.

Definition Duration_String (d : Z) : string :=
  let u := Z.abs d in
  let body :=
    if u <? 1000000000 then
      if u =? 0 then "0s"
      else
        let '(prec, unit) :=
          if u <? 1000 then (0%nat, "ns")
          else if u <? 1000000 then
            (3%nat, String "194"%char (String "181"%char "s"))
          else (6%nat, "ms") in
        let '(frac, whole) := fmtFrac prec u false unit in
        Itoa whole +:+ frac
    else
      let '(frac, seconds) := fmtFrac 9 u false "s" in
      let minutes := seconds / 60 in
      let hours := minutes / 60 in
      (if 0 <? hours then Itoa hours +:+ "h" else "") +:+
      (if 0 <? minutes then Itoa (minutes mod 60) +:+ "m" else "") +:+
      Itoa (seconds mod 60) +:+ frac in
  if d <? 0 then "-" +:+ body else body.

(** [time.Duration.Seconds] *)
Definition Duration_Seconds (d : Z) : float :=
  PrimFloat.add (float64_of_int64 (Z.quot d 1000000000))
    (PrimFloat.div (float64_of_int64 (Z.rem d 1000000000)) 1000000000%float).

(** ** Control: state, panics and [defer] *)

Inductive Outcome (A : Type) : Type :=
  | Returned (a : A)
  | Panicked (reason : string).
Arguments Returned {A} a.
Arguments Panicked {A} reason.

Definition Go (W A : Type) : Type := W → Outcome A * W.

Definition ret {W A : Type} (a : A) : Go W A := fun w => (Returned a, w).

Definition bind {W A B : Type} (m : Go W A) (k : A → Go W B) : Go W B :=
  fun w =>
    match m w with
    | (Returned a, w') => k a w'
    | (Panicked reason, w') => (Panicked reason, w')
    end.

Definition panic {W A : Type} (reason : string) : Go W A :=
  fun w => (Panicked reason, w).

Definition gets {W A : Type} (f : W → A) : Go W A := fun w => (Returned (f w), w).

Definition modify {W : Type} (f : W → W) : Go W unit := fun w => (Returned tt, f w).

(** [defer d; body]: the deferred call runs when the body returns or panics. *)
Definition defer {W A : Type} (deferred : Go W unit) (body : Go W A) : Go W A :=
  fun w =>
    let '(r, w1) := body w in
    match deferred w1 with
    | (Returned _, w2) => (r, w2)
    | (Panicked reason, w2) => (Panicked reason, w2)
    end.

Notation "'do' x <- m ;; k" := (bind m (fun x => k))
  (at level 10, x name, m at level 99, k at level 200).
Notation "'exec' m ;; k" := (bind m (fun _ => k))
  (at level 10, m at level 99, k at level 200).

(** Panics are the run-time's own; the one this code can raise is an index
    out of range. *)
Definition index_out_of_range : string := "runtime error: index out of range".

(* ================================================================== *)
(** * Data shared by the three servers                                 *)
(* ================================================================== *)

(** ** Tool requests *)

(** The dynamic values of [request.Params.Arguments] (decoded JSON). *)
Inductive Argument : Type :=
  | ArgNil
  | ArgString (s : string)
  | ArgNumber (f : float)
  | ArgBool (b : bool)
  | ArgComposite.   (* arrays and objects; no handler looks inside *)

Record CallToolRequest : Type := { Params_Arguments : gmap string Argument }.

Definition getStringParam (request : CallToolRequest) (key defaultValue : string) : string :=
  match Params_Arguments request !! key with
  | Some (ArgString value) => value
  | _ => defaultValue
  end.

Definition getNumberParam (request : CallToolRequest) (key : string) (defaultValue : float) : float :=
  match Params_Arguments request !! key with
  | Some (ArgNumber value) => value
  | _ => defaultValue
  end.

Definition getBoolParam (request : CallToolRequest) (key : string) (defaultValue : bool) : bool :=
  match Params_Arguments request !! key with
  | Some (ArgBool value) => value
  | _ => defaultValue
  end.

(** [mcp.NewToolResultText]; every handler returns a [nil] Go error beside it. *)
Inductive CallToolResult : Type := NewToolResultText (text : string).

(** ** Database values *)

(** The dynamic values a driver hands back for one column of one record. *)
Inductive Cell : Type :=
  | CNil
  | CString (s : string)
  | CInt (z : Z)
  | CBool (b : bool)
  | CBytes (bytes : string)
  | COther (shown : string).   (* any other type, with its [%v] rendering *)

Definition string_bytes (s : string) : list Z :=
  (fun c => Z.of_nat (nat_of_ascii c)) <$> String.list_ascii_of_string s.

(** The [%v] verb; [pad] is the width flag, which [fmt] applies to each
    element of a byte slice. *)
Definition Sprint_v (pad : string → string) (value : Cell) : string :=
  match value with
  | CNil => pad "<nil>"
  | CString s => pad s
  | CInt z => pad (Itoa z)
  | CBool b => pad (if b then "true" else "false")
  | CBytes bytes => "[" +:+ Join ((fun b => pad (Itoa b)) <$> string_bytes bytes) " " +:+ "]"
  | COther shown => pad shown
  end.

(** The [%-20s] and [%-20v] flags: left-justified in a field of 20 runes. *)
Definition pad20 `{Unicode} (s : string) : string :=
  s +:+ Repeat " " (20 - RuneCountInString s).

(** Statements as they reach the database, oldest first. *)
Inductive Statement : Type :=
  | Queried (sql : string)
  | Executed (sql : string).

(** ** Configuration, metrics and results of the pooled servers *)

Record Config : Type := {
  DSN : string;
  ReadOnly : bool;
  ExplainCheck : bool;
  Transport : string;
  Port : Z;
  IPAddress : string;
  MaxConnections : Z;
  LogLevel : string;
  QueryTimeout : Z;
  EnableMetrics : bool;
  CacheSize : Z;
  PoolMaxIdleTime : Z;
}.

Record ServerMetrics : Type := {
  QueriesExecuted : Z;
  QueryErrors : Z;
  ConnectionsActive : Z;
  TotalResponseTime : Z;   (* time.Duration: nanoseconds *)
  StartTime : Z;           (* the clock reading at start-up *)
}.

Record QueryResult : Type := {
  Rows : list (gmap string Cell);
  Columns : list string;
  Count : Z;
  Timing : string;
}.

(** What pgxpool answers to [Query]: an error, or the field descriptions and,
    for each [rows.Next()], what [rows.Values()] returns. *)
Inductive QueryReply : Type :=
  | QueryFailed (err : error)
  | QueryRows (fields : list string) (records : list (Fallible (list Cell))).

Inductive ExecReply : Type :=
  | ExecFailed (err : error)
  | ExecDone (rowsAffected : Z).

Record PoolStat : Type := { AcquiredConns : Z; IdleConns : Z; TotalConns : Z }.

(** The pool as seen from the handlers.  A reply may depend on everything
    sent before. *)
Record Pool : Type := {
  Query : list Statement → string → QueryReply;
  Exec : list Statement → string → ExecReply;
  Stat : PoolStat;
}.

Record LogEntry : Type := { log_msg : string; log_err : error; log_query : option string }.

Record World : Type := {
  metrics : ServerMetrics;
  issued : list Statement;
  clock_reads : nat;
  journal : list LogEntry;
}.

Definition with_metrics (f : ServerMetrics → ServerMetrics) (w : World) : World :=
  {| metrics := f (metrics w); issued := issued w;
     clock_reads := clock_reads w; journal := journal w |}.

Definition count_error (m : ServerMetrics) : ServerMetrics :=
  {| QueriesExecuted := QueriesExecuted m;
     QueryErrors := int64_wrap (QueryErrors m + 1);
     ConnectionsActive := ConnectionsActive m;
     TotalResponseTime := TotalResponseTime m;
     StartTime := StartTime m |}.

Definition count_query (m : ServerMetrics) : ServerMetrics :=
  {| QueriesExecuted := int64_wrap (QueriesExecuted m + 1);
     QueryErrors := QueryErrors m;
     ConnectionsActive := ConnectionsActive m;
     TotalResponseTime := TotalResponseTime m;
     StartTime := StartTime m |}.

Definition add_response_time (d : Z) (m : ServerMetrics) : ServerMetrics :=
  {| QueriesExecuted := QueriesExecuted m;
     QueryErrors := QueryErrors m;
     ConnectionsActive := ConnectionsActive m;
     TotalResponseTime := int64_wrap (TotalResponseTime m + d);
     StartTime := StartTime m |}.

(** Values of the [stats] map of get_stats. *)
Inductive StatValue : Type :=
  | StatInt (z : Z)
  | StatFloat (f : float)
  | StatString (s : string)
  | StatBool (b : bool).

Definition stat_encodable (v : StatValue) : bool :=
  match v with
  | StatFloat f => float64_is_finite f
  | _ => true
  end.

Definition version : string := "1.0.0".

(** The names the tools are registered under. *)
Inductive MutatingTool : Type :=
  | write_query | update_query | delete_query
  | create_table | alter_table | create_index | drop_index
  | analyze_table.

Definition tool_name (t : MutatingTool) : string :=
  match t with
  | write_query => "write_query"
  | update_query => "update_query"
  | delete_query => "delete_query"
  | create_table => "create_table"
  | alter_table => "alter_table"
  | create_index => "create_index"
  | drop_index => "drop_index"
  | analyze_table => "analyze_table"
  end.

(* ================================================================== *)
(** * The monolithic pgxpool server                                    *)
(* ================================================================== *)

Module Pooled.
Section Server.
Context `{Unicode}.
Variable config : Config.
Variable dbPool : Pool.
(** [wall n] is what the clock shows the n-th time it is looked at. *)
Variable wall : nat → Z.
(** The text of [json.MarshalIndent(v, "", "  ")] for a result and for an
    encodable [stats] map. *)
Variable json_result : QueryResult → string.
Variable json_stats : gmap string StatValue → string.

(** ** Effects *)

Definition time_Now : Go World Z :=
  fun w =>
    (Returned (wall (clock_reads w)),
     {| metrics := metrics w; issued := issued w;
        clock_reads := S (clock_reads w); journal := journal w |}).

Definition time_Since (start : Z) : Go World Z :=
  do now <- time_Now ;;
  ret (int64_saturate (now - start)).

Definition log_error (msg : string) (err : error) (query : option string) : Go World unit :=
  modify (fun w =>
    {| metrics := metrics w; issued := issued w; clock_reads := clock_reads w;
       journal := journal w ++ [{| log_msg := msg; log_err := err; log_query := query |}] |}).

Definition send (s : Statement) : Go World unit :=
  modify (fun w =>
    {| metrics := metrics w; issued := issued w ++ [s];
       clock_reads := clock_reads w; journal := journal w |}).

Definition dbPool_Query (query : string) : Go World QueryReply :=
  do before <- gets issued ;;
  exec send (Queried query) ;;
  ret (Query dbPool before query).

Definition dbPool_Exec (query : string) : Go World ExecReply :=
  do before <- gets issued ;;
  exec send (Executed query) ;;
  ret (Exec dbPool before query).

Definition lift {A : Type} (o : Outcome A) : Go World A := fun w => (o, w).

(** ** Utility functions *)

Definition handleError (err : error) : Go World CallToolResult :=
  exec modify (with_metrics count_error) ;;
  exec log_error "Tool execution error" err None ;;
  ret (NewToolResultText ("Error: " +:+ err)).

Definition updateMetrics (start : Z) : Go World unit :=
  do elapsed <- time_Since start ;;
  modify (with_metrics (add_response_time elapsed)).

Definition isReadOnlyQuery (query : string) : bool :=
  let upperQuery := ToUpper (TrimSpace query) in
  HasPrefix upperQuery "SELECT" ||
  HasPrefix upperQuery "WITH" ||
  HasPrefix upperQuery "EXPLAIN".

(** [row[columnNames[i]] = value] for the values of one record. *)
Fixpoint fill_row (columnNames : list string) (i : nat) (values : list Cell)
    (row : gmap string Cell) : Outcome (gmap string Cell) :=
  match values with
  | [] => Returned row
  | value :: values' =>
      match columnNames !! i with
      | Some name => fill_row columnNames (S i) values' (<[name := value]> row)
      | None => Panicked index_out_of_range
      end
  end.

(** The [for rows.Next()] loop. *)
Fixpoint scan_rows (columnNames : list string) (records : list (Fallible (list Cell)))
    (result : list (gmap string Cell)) : Outcome (Fallible (list (gmap string Cell))) :=
  match records with
  | [] => Returned (Ok result)
  | Err err :: _ => Returned (Err err)
  | Ok values :: records' =>
      match fill_row columnNames 0 values ∅ with
      | Returned row => scan_rows columnNames records' (result ++ [row])
      | Panicked reason => Panicked reason
      end
  end.

Definition executeQuery (query : string) : Go World (Fallible QueryResult) :=
  do startTime <- time_Now ;;
  do reply <- dbPool_Query query ;;
  match reply with
  | QueryFailed err =>
      exec modify (with_metrics count_error) ;;
      exec log_error "Query execution failed" err (Some query) ;;
      ret (Err err)
  | QueryRows columnNames records =>
      do scanned <- lift (scan_rows columnNames records []) ;;
      match scanned with
      | Err err => ret (Err err)
      | Ok result =>
          do timing <- time_Since startTime ;;
          let queryResult :=
            {| Rows := result; Columns := columnNames;
               Count := Z.of_nat (length result);
               Timing := Duration_String timing |} in
          do elapsed <- time_Since startTime ;;
          exec modify (with_metrics (fun m => add_response_time elapsed (count_query m))) ;;
          ret (Ok queryResult)
      end
  end.

Definition executeWriteQuery (query : string) (returnID : bool) : Go World (Fallible string) :=
  do startTime <- time_Now ;;
  do reply <- dbPool_Exec query ;;
  match reply with
  | ExecFailed err =>
      exec modify (with_metrics count_error) ;;
      exec log_error "Write query execution failed" err (Some query) ;;
      ret (Err err)
  | ExecDone rowsAffected =>
      do timing <- time_Since startTime ;;
      exec modify (with_metrics (fun m => add_response_time timing (count_query m))) ;;
      let response :=
        "Query executed successfully." +:+ LF +:+
        "Rows affected: " +:+ Itoa rowsAffected +:+ LF +:+
        "Execution time: " +:+ Duration_String timing in
      ret (Ok (if returnID && Contains (ToUpper query) "INSERT"
               then response +:+ LF +:+
                    "Note: To get inserted IDs, use RETURNING clause in your INSERT statement"
               else response))
  end.

Definition format_cell (row : gmap string Cell) (col : string) : string :=
  match row !! col with
  | None | Some CNil => Sprint_v pad20 (CString "NULL")
  | Some value => Sprint_v pad20 value
  end.

Definition formatResult (result : QueryResult) : string :=
  if (length (Rows result) =? 0)%nat then
    "No results found." +:+ LF +:+ "Execution time: " +:+ Timing result
  else
    "Results: " +:+ Itoa (Count result) +:+ " rows" +:+ LF +:+
    "Execution time: " +:+ Timing result +:+ LF +:+ LF +:+
    Join (pad20 <$> Columns result) " | " +:+ LF +:+
    Join ((fun _ => Repeat "-" 20) <$> Columns result) "-|-" +:+ LF +:+
    Join ((fun row => Join (format_cell row <$> Columns result) " | " +:+ LF)
            <$> Rows result) "".

(** ** Handlers *)

Definition handleReadQuery (request : CallToolRequest) : Go World CallToolResult :=
  do start <- time_Now ;;
  defer (updateMetrics start) (
    let query := getStringParam request "query" "" in
    if String.eqb query "" then handleError "query parameter is required"
    else if negb (isReadOnlyQuery query) then handleError "only SELECT queries are allowed"
    else
      let limit := getNumberParam request "limit" 1000%float in
      let formatJSON := getBoolParam request "format_json" false in
      let query :=
        if negb (Contains (ToUpper query) "LIMIT")
        then query +:+ " LIMIT " +:+ Itoa (int_of_float64 limit)
        else query in
      do r <- executeQuery query ;;
      match r with
      | Err err => handleError err
      | Ok result =>
          if formatJSON then ret (NewToolResultText (json_result result))
          else ret (NewToolResultText (formatResult result))
      end).

Definition read_only_mode : error := "server is in read-only mode".

Definition write_reply (r : Fallible string) : Go World CallToolResult :=
  match r with
  | Err err => handleError err
  | Ok result => ret (NewToolResultText result)
  end.

Definition handleWriteQuery (request : CallToolRequest) : Go World CallToolResult :=
  if ReadOnly config then handleError read_only_mode
  else
    do start <- time_Now ;;
    defer (updateMetrics start) (
      let query := getStringParam request "query" "" in
      let returnID := getBoolParam request "return_id" false in
      do r <- executeWriteQuery query returnID ;;
      write_reply r).

Definition handleUpdateQuery (request : CallToolRequest) : Go World CallToolResult :=
  if ReadOnly config then handleError read_only_mode
  else
    do start <- time_Now ;;
    defer (updateMetrics start) (
      let query := getStringParam request "query" "" in
      let force := getBoolParam request "force" false in
      if negb force && negb (Contains (ToUpper query) "WHERE") then
        handleError "UPDATE queries must include a WHERE clause. Use force=true to override"
      else
        do r <- executeWriteQuery query false ;;
        write_reply r).

Definition handleDeleteQuery (request : CallToolRequest) : Go World CallToolResult :=
  if ReadOnly config then handleError read_only_mode
  else
    do start <- time_Now ;;
    defer (updateMetrics start) (
      let query := getStringParam request "query" "" in
      let force := getBoolParam request "force" false in
      if negb force && negb (Contains (ToUpper query) "WHERE") then
        handleError "DELETE queries must include a WHERE clause. Use force=true to override"
      else
        do r <- executeWriteQuery query false ;;
        write_reply r).

(** [handleCreateTable], [handleAlterTable] and [handleCreateIndex] have the
    same body. *)
Definition handleDDL (request : CallToolRequest) : Go World CallToolResult :=
  if ReadOnly config then handleError read_only_mode
  else
    do start <- time_Now ;;
    defer (updateMetrics start) (
      let query := getStringParam request "query" "" in
      do r <- executeWriteQuery query false ;;
      write_reply r).

Definition handleCreateTable := handleDDL.
Definition handleAlterTable := handleDDL.
Definition handleCreateIndex := handleDDL.

Definition handleDropIndex (request : CallToolRequest) : Go World CallToolResult :=
  if ReadOnly config then handleError read_only_mode
  else
    do start <- time_Now ;;
    defer (updateMetrics start) (
      let indexName := getStringParam request "index_name" "" in
      let schema := getStringParam request "schema" "" in
      let query :=
        if negb (String.eqb schema "")
        then "DROP INDEX" +:+ " " +:+ schema +:+ "." +:+ indexName
        else "DROP INDEX" +:+ " " +:+ indexName in
      do r <- executeWriteQuery query false ;;
      write_reply r).

Definition handleAnalyzeTable (request : CallToolRequest) : Go World CallToolResult :=
  if ReadOnly config then handleError read_only_mode
  else
    do start <- time_Now ;;
    defer (updateMetrics start) (
      let tableName := getStringParam request "table_name" "" in
      let schema := getStringParam request "schema" "public" in
      let query := "ANALYZE " +:+ schema +:+ "." +:+ tableName in
      do r <- executeWriteQuery query false ;;
      write_reply r).

(** The [stats] map of [handleGetStats], read under the lock. *)
Definition handleGetStats_stats (m : ServerMetrics) (uptime : Z) : gmap string StatValue :=
  list_to_map [
    ("queries_executed", StatInt (QueriesExecuted m));
    ("query_errors", StatInt (QueryErrors m));
    ("connections_active", StatInt (AcquiredConns (Stat dbPool)));
    ("connections_idle", StatInt (IdleConns (Stat dbPool)));
    ("connections_total", StatInt (TotalConns (Stat dbPool)));
    ("uptime_seconds", StatFloat (Duration_Seconds uptime));
    ("avg_response_time_ms",
       StatFloat (PrimFloat.div
         (PrimFloat.div (float64_of_int64 (TotalResponseTime m))
                        (float64_of_int64 (QueriesExecuted m)))
         1000000%float));
    ("version", StatString version);
    ("read_only_mode", StatBool (ReadOnly config))
  ].

(** [jsonBytes, _ := json.MarshalIndent(stats, ...)]: the encoder refuses
    NaN and the infinities, the error is dropped and the text is empty. *)
Definition stats_text (stats : gmap string StatValue) : string :=
  if forallb (fun kv => stat_encodable kv.2) (map_to_list stats)
  then json_stats stats else "".

Definition handleGetStats (request : CallToolRequest) : Go World CallToolResult :=
  do start <- time_Now ;;
  defer (updateMetrics start) (
    do m <- gets metrics ;;
    do uptime <- time_Since (StartTime m) ;;
    ret (NewToolResultText (stats_text (handleGetStats_stats m uptime)))).

(** ** Registration *)

Definition schema_and_query_tools : list string :=
  ["list_databases"; "list_tables"; "list_columns"; "describe_table";
   "get_table_size"; "list_indexes"; "list_constraints";
   "read_query"; "count_query"; "explain_query"].

Definition write_tools : list string :=
  ["write_query"; "update_query"; "delete_query"; "create_table";
   "alter_table"; "create_index"; "drop_index"].

Definition monitoring_tools : list string :=
  ["get_stats"; "get_slow_queries"; "analyze_table"].

(** The names [createMCPServer] registers, in order. *)
Definition createMCPServer : list string :=
  schema_and_query_tools ++
  (if negb (ReadOnly config) then write_tools else []) ++
  monitoring_tools.

(** The handler [createMCPServer] attaches to each mutating tool. *)
Definition handler_of (t : MutatingTool) : CallToolRequest → Go World CallToolResult :=
  match t with
  | write_query => handleWriteQuery
  | update_query => handleUpdateQuery
  | delete_query => handleDeleteQuery
  | create_table => handleCreateTable
  | alter_table => handleAlterTable
  | create_index => handleCreateIndex
  | drop_index => handleDropIndex
  | analyze_table => handleAnalyzeTable
  end.

End Server.
End Pooled.

(* ================================================================== *)
(** * handlers.go: the methods of [Handlers]                           *)
(* ================================================================== *)

Module Handlers.
Section Methods.
Context `{Unicode}.
(** [h.server.config], [h.server.dbPool], the clock and the JSON encoder. *)
Variable config : Config.
Variable dbPool : Pool.
Variable wall : nat → Z.
Variable json_result : QueryResult → string.
Variable json_stats : gmap string StatValue → string.

(** The utility methods ([h.handleError], [h.updateMetrics],
    [h.isReadOnlyQuery], [h.executeQuery], [h.executeWriteQuery],
    [h.formatResult]; the parameter helpers are shared already): the
    package-level functions of the same names. *)
Definition handleError : error → Go World CallToolResult := Pooled.handleError.
Definition updateMetrics : Z → Go World unit := Pooled.updateMetrics wall.
Definition isReadOnlyQuery : string → bool := Pooled.isReadOnlyQuery.
Definition executeQuery : string → Go World (Fallible QueryResult) :=
  Pooled.executeQuery dbPool wall.
Definition executeWriteQuery : string → bool → Go World (Fallible string) :=
  Pooled.executeWriteQuery dbPool wall.
Definition formatResult : QueryResult → string := Pooled.formatResult.
Definition time_Now : Go World Z := Pooled.time_Now wall.
Definition time_Since : Z → Go World Z := Pooled.time_Since wall.

Definition read_only_mode : error := "server is in read-only mode".
Definition query_required : error := "query parameter is required".

Definition write_reply (r : Fallible string) : Go World CallToolResult :=
  match r with
  | Err err => handleError err
  | Ok result => ret (NewToolResultText result)
  end.

Definition HandleReadQuery (request : CallToolRequest) : Go World CallToolResult :=
  do start <- time_Now ;;
  defer (updateMetrics start) (
    let query := getStringParam request "query" "" in
    if String.eqb query "" then handleError query_required
    else if negb (isReadOnlyQuery query) then
      handleError "only SELECT queries are allowed in read_query"
    else
      let limit := getNumberParam request "limit" 1000%float in
      let formatJSON := getBoolParam request "format_json" false in
      let query :=
        if negb (Contains (ToUpper query) "LIMIT")
        then query +:+ " LIMIT " +:+ Itoa (int_of_float64 limit)
        else query in
      do r <- executeQuery query ;;
      match r with
      | Err err => handleError err
      | Ok result =>
          if formatJSON then ret (NewToolResultText (json_result result))
          else ret (NewToolResultText (formatResult result))
      end).

Definition HandleWriteQuery (request : CallToolRequest) : Go World CallToolResult :=
  if ReadOnly config then handleError read_only_mode
  else
    do start <- time_Now ;;
    defer (updateMetrics start) (
      let query := getStringParam request "query" "" in
      if String.eqb query "" then handleError query_required
      else
        let returnID := getBoolParam request "return_id" false in
        do r <- executeWriteQuery query returnID ;;
        write_reply r).

Definition HandleUpdateQuery (request : CallToolRequest) : Go World CallToolResult :=
  if ReadOnly config then handleError read_only_mode
  else
    do start <- time_Now ;;
    defer (updateMetrics start) (
      let query := getStringParam request "query" "" in
      if String.eqb query "" then handleError query_required
      else
        let force := getBoolParam request "force" false in
        if negb force && negb (Contains (ToUpper query) "WHERE") then
          handleError "UPDATE queries must include a WHERE clause. Use force=true to override"
        else
          do r <- executeWriteQuery query false ;;
          write_reply r).

Definition HandleDeleteQuery (request : CallToolRequest) : Go World CallToolResult :=
  if ReadOnly config then handleError read_only_mode
  else
    do start <- time_Now ;;
    defer (updateMetrics start) (
      let query := getStringParam request "query" "" in
      if String.eqb query "" then handleError query_required
      else
        let force := getBoolParam request "force" false in
        if negb force && negb (Contains (ToUpper query) "WHERE") then
          handleError "DELETE queries must include a WHERE clause. Use force=true to override"
        else
          do r <- executeWriteQuery query false ;;
          write_reply r).

(** [HandleCreateTable], [HandleAlterTable] and [HandleCreateIndex] have the
    same body. *)
Definition HandleDDL (request : CallToolRequest) : Go World CallToolResult :=
  if ReadOnly config then handleError read_only_mode
  else
    do start <- time_Now ;;
    defer (updateMetrics start) (
      let query := getStringParam request "query" "" in
      if String.eqb query "" then handleError query_required
      else
        do r <- executeWriteQuery query false ;;
        write_reply r).

Definition HandleCreateTable := HandleDDL.
Definition HandleAlterTable := HandleDDL.
Definition HandleCreateIndex := HandleDDL.

Definition HandleDropIndex (request : CallToolRequest) : Go World CallToolResult :=
  if ReadOnly config then handleError read_only_mode
  else
    do start <- time_Now ;;
    defer (updateMetrics start) (
      let indexName := getStringParam request "index_name" "" in
      if String.eqb indexName "" then handleError "index_name parameter is required"
      else
        let schema := getStringParam request "schema" "" in
        let query :=
          if negb (String.eqb schema "")
          then "DROP INDEX " +:+ schema +:+ "." +:+ indexName
          else "DROP INDEX " +:+ indexName in
        do r <- executeWriteQuery query false ;;
        write_reply r).

Definition HandleAnalyzeTable (request : CallToolRequest) : Go World CallToolResult :=
  if ReadOnly config then handleError read_only_mode
  else
    do start <- time_Now ;;
    defer (updateMetrics start) (
      let tableName := getStringParam request "table_name" "" in
      if String.eqb tableName "" then handleError "table_name parameter is required"
      else
        let schema := getStringParam request "schema" "public" in
        let query := "ANALYZE " +:+ schema +:+ "." +:+ tableName in
        do r <- executeWriteQuery query false ;;
        write_reply r).

(** The [stats] map of [HandleGetStats], read under the lock: the average
    is stored only behind the guard [QueriesExecuted > 0]. *)
Definition HandleGetStats_stats (m : ServerMetrics) (uptime : Z) : gmap string StatValue :=
  let stats : gmap string StatValue :=
    list_to_map [
      ("queries_executed", StatInt (QueriesExecuted m));
      ("query_errors", StatInt (QueryErrors m));
      ("connections_active", StatInt (AcquiredConns (Stat dbPool)));
      ("connections_idle", StatInt (IdleConns (Stat dbPool)));
      ("connections_total", StatInt (TotalConns (Stat dbPool)));
      ("uptime_seconds", StatFloat (Duration_Seconds uptime));
      ("version", StatString version);
      ("read_only_mode", StatBool (ReadOnly config));
      ("max_connections", StatInt (MaxConnections config));
      ("query_timeout", StatInt (QueryTimeout config))
    ] in
  if 0 <? QueriesExecuted m then
    <["avg_response_time_ms" :=
        StatFloat (PrimFloat.div
          (PrimFloat.div (float64_of_int64 (TotalResponseTime m))
                         (float64_of_int64 (QueriesExecuted m)))
          1000000%float)]> stats
  else stats.

Definition HandleGetStats (request : CallToolRequest) : Go World CallToolResult :=
  do start <- time_Now ;;
  defer (updateMetrics start) (
    do m <- gets metrics ;;
    do uptime <- time_Since (StartTime m) ;;
    ret (NewToolResultText
           (Pooled.stats_text json_stats (HandleGetStats_stats m uptime)))).

(** [PostgresMCPServer.createMCPServer]: the names registered, in order. *)
Definition createMCPServer : list string :=
  ["list_databases"; "list_tables"; "list_columns"; "describe_table";
   "get_table_size"; "list_indexes"; "list_constraints";
   "read_query"; "count_query"; "explain_query"] ++
  (if negb (ReadOnly config) then
     ["write_query"; "update_query"; "delete_query"; "create_table";
      "alter_table"; "create_index"; "drop_index"]
   else []) ++
  ["get_stats"; "get_slow_queries"; "analyze_table"].

Definition handler_of (t : MutatingTool) : CallToolRequest → Go World CallToolResult :=
  match t with
  | write_query => HandleWriteQuery
  | update_query => HandleUpdateQuery
  | delete_query => HandleDeleteQuery
  | create_table => HandleCreateTable
  | alter_table => HandleAlterTable
  | create_index => HandleCreateIndex
  | drop_index => HandleDropIndex
  | analyze_table => HandleAnalyzeTable
  end.

End Methods.
End Handlers.

(* ================================================================== *)
(** * The sqlx server                                                  *)
(* ================================================================== *)

Module Sqlx.

Definition StatementTypeNoExplainCheck : string := "".
Definition StatementTypeSelect : string := "SELECT".
Definition StatementTypeInsert : string := "INSERT".
Definition StatementTypeUpdate : string := "UPDATE".
Definition StatementTypeDelete : string := "DELETE".

(** What [db.Queryx] answers: an error, or what [rows.Columns()] returns
    and, for each [rows.Next()], what [rows.SliceScan()] returns. *)
Inductive QueryxReply : Type :=
  | QueryxFailed (err : error)
  | QueryxRows (columns : Fallible (list string)) (records : list (Fallible (list Cell))).

(** What [db.Exec] answers: an error, or a result with its
    [RowsAffected()]. *)
Inductive ExecxReply : Type :=
  | ExecxFailed (err : error)
  | ExecxResult (rowsAffected : Fallible Z).

Record Driver : Type := {
  (** [sqlx.Connect("pgx", dsn)]: the error, if any *)
  Connect : string → option error;
  Queryx : list Statement → string → QueryxReply;
  Execx : list Statement → string → ExecxReply;
}.

(** The package-level handle [DB] (is it set?) and the statements sent. *)
Record State : Type := { DB : bool; sent : list Statement }.

(** ** CSV output: [encoding/csv] with its default comma and line end *)

Definition CR : ascii := "013"%char.
Definition comma : ascii := ","%char.
Definition is_special (c : ascii) : bool :=
  Ascii.eqb c "010"%char || Ascii.eqb c CR || Ascii.eqb c quote_char || Ascii.eqb c comma.

Definition fieldNeedsQuotes `{Unicode} (field : string) : bool :=
  if String.eqb field "" then false
  else if String.eqb field "\." then true
  else if existsb is_special (String.list_ascii_of_string field) then true
  else LeadingSpace field.

(** Inside quotes only the quote itself is rewritten (doubled). *)
Fixpoint escape_quotes (field : string) : string :=
  match field with
  | EmptyString => ""
  | String c rest =>
      if Ascii.eqb c quote_char
      then String quote_char (String quote_char (escape_quotes rest))
      else String c (escape_quotes rest)
  end.

Definition csv_field `{Unicode} (field : string) : string :=
  if fieldNeedsQuotes field
  then String quote_char (escape_quotes field +:+ String quote_char "")
  else field.

(** [writer.Write(record)]; writing to a [strings.Builder] cannot fail. *)
Definition csv_Write `{Unicode} (record : list string) : string :=
  Join (csv_field <$> record) "," +:+ LF.

Definition csv_row (headers : list string) (item : gmap string Cell) : list string :=
  (fun header =>
     match item !! header with
     | None => ""
     | Some value => Sprint_v (fun s => s) value
     end) <$> headers.

Definition MapToCSV `{Unicode} (m : list (gmap string Cell)) (headers : list string)
    : Fallible string :=
  Ok (csv_Write headers +:+ Join ((fun item => csv_Write (csv_row headers item)) <$> m) "").

Section Server.
Context `{Unicode}.
Variable DSN : string.
Variable WithExplainCheck : bool.
Variable driver : Driver.

Definition lift {A : Type} (o : Outcome A) : Go State A := fun w => (o, w).

Definition db_Queryx (query : string) : Go State QueryxReply :=
  do before <- gets sent ;;
  exec modify (fun w => {| DB := DB w; sent := sent w ++ [Queried query] |}) ;;
  ret (Queryx driver before query).

Definition db_Exec (query : string) : Go State ExecxReply :=
  do before <- gets sent ;;
  exec modify (fun w => {| DB := DB w; sent := sent w ++ [Executed query] |}) ;;
  ret (Execx driver before query).

(** [GetDB]: [Ok] stands for the handle, [Err] for the connection error. *)
Definition GetDB : Go State (Fallible unit) :=
  do open <- gets DB ;;
  if open then ret (Ok tt)
  else
    match Connect driver DSN with
    | Some err => ret (Err ("failed to establish database connection: " +:+ err))
    | None =>
        exec modify (fun w => {| DB := true; sent := sent w |}) ;;
        ret (Ok tt)
    end.

(** [HandleExplain] returns the error, [None] for [nil]. *)
Definition HandleExplain (query expect : string) : Go State (option error) :=
  if negb WithExplainCheck then ret None
  else
    do db <- GetDB ;;
    match db with
    | Err err => ret (Some err)
    | Ok _ =>
        do reply <- db_Queryx ("EXPLAIN " +:+ query) ;;
        match reply with
        | QueryxFailed err => ret (Some err)
        | QueryxRows _ _ => ret None
        end
    end.

(** The gate in front of [db.Queryx] and [db.Exec]. *)
Definition explain_gate (query expect : string) : Go State (option error) :=
  if (0 <? String.length expect)%nat && WithExplainCheck
  then HandleExplain query expect
  else ret None.

(** [resultRow[col] = row[i]] over the columns, byte slices as strings. *)
Fixpoint fill_row (cols : list string) (i : nat) (row : list Cell)
    (resultRow : gmap string Cell) : Outcome (gmap string Cell) :=
  match cols with
  | [] => Returned resultRow
  | col :: cols' =>
      match row !! i with
      | Some (CBytes v) => fill_row cols' (S i) row (<[col := CString v]> resultRow)
      | Some v => fill_row cols' (S i) row (<[col := v]> resultRow)
      | None => Panicked index_out_of_range
      end
  end.

Fixpoint scan_rows (cols : list string) (records : list (Fallible (list Cell)))
    (result : list (gmap string Cell)) : Outcome (Fallible (list (gmap string Cell))) :=
  match records with
  | [] => Returned (Ok result)
  | Err err :: _ => Returned (Err err)
  | Ok row :: records' =>
      match fill_row cols 0 row ∅ with
      | Returned resultRow => scan_rows cols records' (result ++ [resultRow])
      | Panicked reason => Panicked reason
      end
  end.

Definition DoQuery (query expect : string)
    : Go State (Fallible (list (gmap string Cell) * list string)) :=
  do db <- GetDB ;;
  match db with
  | Err err => ret (Err err)
  | Ok _ =>
      do refused <- explain_gate query expect ;;
      match refused with
      | Some err => ret (Err err)
      | None =>
          do reply <- db_Queryx query ;;
          match reply with
          | QueryxFailed err => ret (Err err)
          | QueryxRows (Err err) _ => ret (Err err)
          | QueryxRows (Ok cols) records =>
              do scanned <- lift (scan_rows cols records []) ;;
              match scanned with
              | Err err => ret (Err err)
              | Ok result => ret (Ok (result, cols))
              end
          end
      end
  end.

Definition HandleQuery (query expect : string) : Go State (Fallible string) :=
  do r <- DoQuery query expect ;;
  match r with
  | Err err => ret (Err err)
  | Ok (result, headers) => ret (MapToCSV result headers)
  end.

Definition HandleExec (query expect : string) : Go State (Fallible string) :=
  do db <- GetDB ;;
  match db with
  | Err err => ret (Err err)
  | Ok _ =>
      do refused <- explain_gate query expect ;;
      match refused with
      | Some err => ret (Err err)
      | None =>
          do reply <- db_Exec query ;;
          match reply with
          | ExecxFailed err => ret (Err err)
          | ExecxResult (Err err) => ret (Err err)
          | ExecxResult (Ok ra) => ret (Ok (Itoa ra +:+ " rows affected"))
          end
      end
  end.

Definition tool_reply (r : Fallible string) : CallToolResult :=
  match r with
  | Err err => NewToolResultText ("Error: " +:+ err)
  | Ok result => NewToolResultText result
  end.

(** The closure registered for [readQueryTool]. *)
Definition readQueryTool (request : CallToolRequest) : Go State CallToolResult :=
  let query := getStringParam request "query" "" in
  let limit := getNumberParam request "limit" 1000%float in
  let upperQuery := ToUpper (TrimSpace query) in
  if negb (HasPrefix upperQuery "SELECT") && negb (HasPrefix upperQuery "WITH") then
    ret (NewToolResultText "Error: Only SELECT queries are allowed")
  else
    let query :=
      if negb (Contains upperQuery "LIMIT")
      then query +:+ " LIMIT " +:+ Itoa (int_of_float64 limit)
      else query in
    do r <- HandleQuery query StatementTypeSelect ;;
    ret (tool_reply r).

End Server.
End Sqlx.

(* ================================================================== *)
(** * The monolithic pgxpool server: configuration and the other tools  *)
(* ================================================================== *)

Module PooledTools.

(** [initConfig]: the configuration as unmarshalled, with the defaults put
    in place of zero values.  When unmarshalling fails the monolithic server
    ends the process ([log.Fatalf]) and [PostgresMCPServer.initConfig]
    returns the error; both are the [Err] here. *)
Definition initConfig (unmarshalled : Fallible Config) : Fallible Config :=
  match unmarshalled with
  | Err err => Err err
  | Ok config =>
      Ok {| DSN := DSN config;
            ReadOnly := ReadOnly config;
            ExplainCheck := ExplainCheck config;
            Transport := Transport config;
            Port := Port config;
            IPAddress := IPAddress config;
            MaxConnections :=
              if MaxConnections config =? 0 then 100 else MaxConnections config;
            LogLevel := LogLevel config;
            QueryTimeout :=
              if QueryTimeout config =? 0 then 30 else QueryTimeout config;
            EnableMetrics := EnableMetrics config;
            CacheSize := if CacheSize config =? 0 then 1000 else CacheSize config;
            PoolMaxIdleTime :=
              if PoolMaxIdleTime config =? 0 then 300 else PoolMaxIdleTime config |}
  end.

Section Server.
Context `{Unicode}.
Variable config : Config.
Variable dbPool : Pool.
(** [dbPool.Query(ctx, query, args...)] with bound arguments; every caller
    binds strings. *)
Variable Query_args : list Statement → string → list string → QueryReply.
Variable wall : nat → Z.
Variable json_result : QueryResult → string.
Variable json_stats : gmap string StatValue → string.

Definition dbPool_Query_args (query : string) (args : list string) : Go World QueryReply :=
  do before <- gets issued ;;
  exec Pooled.send (Queried query) ;;
  ret (Query_args before query args).

Definition executeQueryWithParams (query : string) (args : list string)
    : Go World (Fallible QueryResult) :=
  do startTime <- Pooled.time_Now wall ;;
  do reply <- dbPool_Query_args query args ;;
  match reply with
  | QueryFailed err =>
      exec modify (with_metrics count_error) ;;
      exec Pooled.log_error "Query execution failed" err (Some query) ;;
      ret (Err err)
  | QueryRows columnNames records =>
      do scanned <- Pooled.lift (Pooled.scan_rows columnNames records []) ;;
      match scanned with
      | Err err => ret (Err err)
      | Ok result =>
          do timing <- Pooled.time_Since wall startTime ;;
          let queryResult :=
            {| Rows := result; Columns := columnNames;
               Count := Z.of_nat (length result);
               Timing := Duration_String timing |} in
          do elapsed <- Pooled.time_Since wall startTime ;;
          exec modify (with_metrics (fun m => add_response_time elapsed (count_query m))) ;;
          ret (Ok queryResult)
      end
  end.

(** [if err != nil { return handleError(err) }] and the formatted table
    otherwise: the tail of most handlers. *)
Definition table_reply (r : Fallible QueryResult) : Go World CallToolResult :=
  match r with
  | Err err => Pooled.handleError err
  | Ok result => ret (NewToolResultText (Pooled.formatResult result))
  end.

Definition handleListDatabases (request : CallToolRequest) : Go World CallToolResult :=
  do start <- Pooled.time_Now wall ;;
  defer (Pooled.updateMetrics wall start) (
    let query := "SELECT datname, pg_database_size(datname) as size_bytes FROM pg_database WHERE datistemplate = false ORDER BY datname" in
    do r <- Pooled.executeQuery dbPool wall query ;;
    table_reply r).

Definition handleListTables (request : CallToolRequest) : Go World CallToolResult :=
  do start <- Pooled.time_Now wall ;;
  defer (Pooled.updateMetrics wall start) (
    let schema := getStringParam request "schema" "" in
    let whereClause :=
      if negb (String.eqb schema "")
      then "WHERE table_schema = '" +:+ schema +:+ "'"
      else "" in
    let query := ("
		SELECT
			table_schema,
			table_name,
			table_type,
			pg_size_pretty(pg_total_relation_size(quote_ident(table_schema)||'.'||quote_ident(table_name))) as size
		FROM information_schema.tables
		" +:+
  whereClause +:+
  "
		ORDER BY table_schema, table_name") in
    do r <- Pooled.executeQuery dbPool wall query ;;
    table_reply r).

Definition handleListColumns (request : CallToolRequest) : Go World CallToolResult :=
  do start <- Pooled.time_Now wall ;;
  defer (Pooled.updateMetrics wall start) (
    let tableName := getStringParam request "table_name" "" in
    let schema := getStringParam request "schema" "public" in
    let query := ("
		SELECT
			column_name,
			data_type,
			character_maximum_length,
			is_nullable,
			column_default,
			ordinal_position
		FROM information_schema.columns
		WHERE table_name = $1 AND table_schema = $2
		ORDER BY ordinal_position") in
    do r <- executeQueryWithParams query [tableName; schema] ;;
    table_reply r).

(** The loop of [handleDescribeTable] over the queries and their titles: the
    first failure ends it. *)
Fixpoint describe_sections (sections : list (string * string)) (results : list string)
    : Go World (Fallible (list string)) :=
  match sections with
  | [] => ret (Ok results)
  | (title, query) :: sections' =>
      do r <- Pooled.executeQuery dbPool wall query ;;
      match r with
      | Err err => ret (Err err)
      | Ok result =>
          describe_sections sections'
            (results ++ [title +:+ LF +:+ Pooled.formatResult result])
      end
  end.

Definition handleDescribeTable (request : CallToolRequest) : Go World CallToolResult :=
  do start <- Pooled.time_Now wall ;;
  defer (Pooled.updateMetrics wall start) (
    let tableName := getStringParam request "table_name" "" in
    let schema := getStringParam request "schema" "public" in
    let queries := [
      ("
			SELECT
				column_name,
				data_type,
				character_maximum_length,
				numeric_precision,
				numeric_scale,
				is_nullable,
				column_default,
				ordinal_position
			FROM information_schema.columns
			WHERE table_name = '" +:+
  tableName +:+
  "' AND table_schema = '" +:+
  schema +:+
  "'
			ORDER BY ordinal_position");
      ("
			SELECT
				constraint_name,
				constraint_type,
				column_name
			FROM information_schema.table_constraints tc
			JOIN information_schema.key_column_usage kcu ON tc.constraint_name = kcu.constraint_name
			WHERE tc.table_name = '" +:+
  tableName +:+
  "' AND tc.table_schema = '" +:+
  schema +:+
  "'
			ORDER BY constraint_type, ordinal_position");
      ("
			SELECT
				indexname,
				indexdef
			FROM pg_indexes
			WHERE tablename = '" +:+
  tableName +:+
  "' AND schemaname = '" +:+
  schema +:+
  "'")
    ] in
    let titles := ["COLUMNS:"; "CONSTRAINTS:"; "INDEXES:"] in
    do r <- describe_sections (zip titles queries) [] ;;
    match r with
    | Err err => Pooled.handleError err
    | Ok results => ret (NewToolResultText (Join results (LF +:+ LF)))
    end).

Definition handleGetTableSize (request : CallToolRequest) : Go World CallToolResult :=
  do start <- Pooled.time_Now wall ;;
  defer (Pooled.updateMetrics wall start) (
    let tableName := getStringParam request "table_name" "" in
    let schema := getStringParam request "schema" "public" in
    let query := ("
		SELECT
			schemaname,
			tablename,
			attname,
			n_distinct,
			most_common_vals,
			most_common_freqs,
			histogram_bounds,
			correlation
		FROM pg_stats
		WHERE tablename = $1 AND schemaname = $2") in
    do r <- executeQueryWithParams query [tableName; schema] ;;
    table_reply r).

Definition handleListIndexes (request : CallToolRequest) : Go World CallToolResult :=
  do start <- Pooled.time_Now wall ;;
  defer (Pooled.updateMetrics wall start) (
    let tableName := getStringParam request "table_name" "" in
    let schema := getStringParam request "schema" "" in
    let whereClause :=
      if negb (String.eqb tableName "") then
        let whereClause := "WHERE tablename = '" +:+ tableName +:+ "'" in
        if negb (String.eqb schema "")
        then whereClause +:+ " AND schemaname = '" +:+ schema +:+ "'"
        else whereClause
      else if negb (String.eqb schema "") then
        "WHERE schemaname = '" +:+ schema +:+ "'"
      else "" in
    let query := ("
		SELECT
			schemaname,
			tablename,
			indexname,
			indexdef
		FROM pg_indexes
		" +:+
  whereClause +:+
  "
		ORDER BY schemaname, tablename, indexname") in
    do r <- Pooled.executeQuery dbPool wall query ;;
    table_reply r).

Definition handleListConstraints (request : CallToolRequest) : Go World CallToolResult :=
  do start <- Pooled.time_Now wall ;;
  defer (Pooled.updateMetrics wall start) (
    let tableName := getStringParam request "table_name" "" in
    let schema := getStringParam request "schema" "public" in
    let query := ("
		SELECT
			tc.constraint_name,
			tc.constraint_type,
			kcu.column_name,
			tc.is_deferrable,
			tc.initially_deferred
		FROM information_schema.table_constraints tc
		LEFT JOIN information_schema.key_column_usage kcu
			ON tc.constraint_name = kcu.constraint_name
		WHERE tc.table_name = $1 AND tc.table_schema = $2
		ORDER BY tc.constraint_type, kcu.ordinal_position") in
    do r <- executeQueryWithParams query [tableName; schema] ;;
    table_reply r).

Definition handleCountQuery (request : CallToolRequest) : Go World CallToolResult :=
  do start <- Pooled.time_Now wall ;;
  defer (Pooled.updateMetrics wall start) (
    let tableName := getStringParam request "table_name" "" in
    let whereClause := getStringParam request "where_clause" "" in
    let schema := getStringParam request "schema" "public" in
    let query := "SELECT COUNT(*) as count FROM " +:+ schema +:+ "." +:+ tableName in
    let query :=
      if negb (String.eqb whereClause "")
      then query +:+ " WHERE " +:+ whereClause
      else query in
    do r <- Pooled.executeQuery dbPool wall query ;;
    table_reply r).

Definition handleExplainQuery (request : CallToolRequest) : Go World CallToolResult :=
  do start <- Pooled.time_Now wall ;;
  defer (Pooled.updateMetrics wall start) (
    let query := getStringParam request "query" "" in
    let analyze := getBoolParam request "analyze" false in
    let buffers := getBoolParam request "buffers" false in
    let explainQuery := "EXPLAIN" in
    let explainQuery := if analyze then explainQuery +:+ " ANALYZE" else explainQuery in
    let explainQuery := if buffers then explainQuery +:+ " BUFFERS" else explainQuery in
    let explainQuery := explainQuery +:+ " " +:+ query in
    do r <- Pooled.executeQuery dbPool wall explainQuery ;;
    table_reply r).

Definition handleGetSlowQueries (request : CallToolRequest) : Go World CallToolResult :=
  do start <- Pooled.time_Now wall ;;
  defer (Pooled.updateMetrics wall start) (
    let limit := getNumberParam request "limit" 10%float in
    let query := ("
		SELECT
			query,
			calls,
			total_time,
			mean_time,
			rows,
			100.0 * shared_blks_hit / nullif(shared_blks_hit + shared_blks_read, 0) AS hit_percent
		FROM pg_stat_statements
		ORDER BY total_time DESC
		LIMIT " +:+
  Itoa (int_of_float64 limit)) in
    do r <- Pooled.executeQuery dbPool wall query ;;
    match r with
    | Err _ => ret (NewToolResultText "pg_stat_statements extension not available")
    | Ok result => ret (NewToolResultText (Pooled.formatResult result))
    end).

(** [createMCPServer]: every [s.AddTool(tool, handler)], in order. *)
Definition tool_table : list (string * (CallToolRequest → Go World CallToolResult)) :=
  [("list_databases", handleListDatabases);
   ("list_tables", handleListTables);
   ("list_columns", handleListColumns);
   ("describe_table", handleDescribeTable);
   ("get_table_size", handleGetTableSize);
   ("list_indexes", handleListIndexes);
   ("list_constraints", handleListConstraints);
   ("read_query", Pooled.handleReadQuery dbPool wall json_result);
   ("count_query", handleCountQuery);
   ("explain_query", handleExplainQuery)] ++
  (if negb (ReadOnly config) then
     [("write_query", Pooled.handleWriteQuery config dbPool wall);
      ("update_query", Pooled.handleUpdateQuery config dbPool wall);
      ("delete_query", Pooled.handleDeleteQuery config dbPool wall);
      ("create_table", Pooled.handleCreateTable config dbPool wall);
      ("alter_table", Pooled.handleAlterTable config dbPool wall);
      ("create_index", Pooled.handleCreateIndex config dbPool wall);
      ("drop_index", Pooled.handleDropIndex config dbPool wall)]
   else []) ++
  [("get_stats", Pooled.handleGetStats config dbPool wall json_stats);
   ("get_slow_queries", handleGetSlowQueries);
   ("analyze_table", Pooled.handleAnalyzeTable config dbPool wall)].

End Server.
End PooledTools.

(* ================================================================== *)
(** * handlers.go: the other methods of [Handlers]                     *)
(* ================================================================== *)

Module HandlersTools.
Section Methods.
Context `{Unicode}.
Variable config : Config.
Variable dbPool : Pool.
Variable Query_args : list Statement → string → list string → QueryReply.
Variable wall : nat → Z.
Variable json_result : QueryResult → string.
Variable json_stats : gmap string StatValue → string.

(** [h.executeQueryWithParams] and the tail shared by most handlers, from
    the package-level functions as for the other utility methods. *)
Definition executeQueryWithParams : string → list string → Go World (Fallible QueryResult) :=
  PooledTools.executeQueryWithParams Query_args wall.

Definition table_reply (r : Fallible QueryResult) : Go World CallToolResult :=
  match r with
  | Err err => Handlers.handleError err
  | Ok result => ret (NewToolResultText (Handlers.formatResult result))
  end.

Definition HandleListDatabases (request : CallToolRequest) : Go World CallToolResult :=
  do start <- Handlers.time_Now wall ;;
  defer (Handlers.updateMetrics wall start) (
    let query := "SELECT datname, pg_database_size(datname) as size_bytes, pg_size_pretty(pg_database_size(datname)) as size FROM pg_database WHERE datistemplate = false ORDER BY datname" in
    do r <- Handlers.executeQuery dbPool wall query ;;
    table_reply r).

Definition HandleListTables (request : CallToolRequest) : Go World CallToolResult :=
  do start <- Handlers.time_Now wall ;;
  defer (Handlers.updateMetrics wall start) (
    let schema := getStringParam request "schema" "" in
    let whereClause :=
      if negb (String.eqb schema "")
      then "WHERE table_schema = '" +:+ schema +:+ "'"
      else "" in
    let query := ("
		SELECT
			table_schema,
			table_name,
			table_type,
			COALESCE(pg_size_pretty(pg_total_relation_size(quote_ident(table_schema)||'.'||quote_ident(table_name))), 'N/A') as size
		FROM information_schema.tables
		" +:+
  whereClause +:+
  "
		ORDER BY table_schema, table_name") in
    do r <- Handlers.executeQuery dbPool wall query ;;
    table_reply r).

Definition HandleListColumns (request : CallToolRequest) : Go World CallToolResult :=
  do start <- Handlers.time_Now wall ;;
  defer (Handlers.updateMetrics wall start) (
    let tableName := getStringParam request "table_name" "" in
    let schema := getStringParam request "schema" "public" in
    let query := ("
		SELECT
			column_name,
			data_type,
			character_maximum_length,
			numeric_precision,
			numeric_scale,
			is_nullable,
			column_default,
			ordinal_position
		FROM information_schema.columns
		WHERE table_name = $1 AND table_schema = $2
		ORDER BY ordinal_position") in
    do r <- executeQueryWithParams query [tableName; schema] ;;
    table_reply r).

(** [if err == nil && len(result.Rows) > 0 { results = append(...) }] *)
Definition optional_section (title : string) (r : Fallible QueryResult)
    (results : list string) : list string :=
  match r with
  | Ok result =>
      if (0 <? length (Rows result))%nat
      then results ++ [title +:+ LF +:+ Handlers.formatResult result]
      else results
  | Err _ => results
  end.

Definition HandleDescribeTable (request : CallToolRequest) : Go World CallToolResult :=
  do start <- Handlers.time_Now wall ;;
  defer (Handlers.updateMetrics wall start) (
    let tableName := getStringParam request "table_name" "" in
    let schema := getStringParam request "schema" "public" in
    let columnQuery := ("
		SELECT
			column_name,
			data_type,
			CASE
				WHEN character_maximum_length IS NOT NULL THEN character_maximum_length::text
				WHEN numeric_precision IS NOT NULL THEN numeric_precision::text || ',' || COALESCE(numeric_scale, 0)::text
				ELSE ''
			END as size,
			is_nullable,
			column_default
		FROM information_schema.columns
		WHERE table_name = $1 AND table_schema = $2
		ORDER BY ordinal_position") in
    do r <- executeQueryWithParams columnQuery [tableName; schema] ;;
    match r with
    | Err err => Handlers.handleError err
    | Ok result =>
        let results := [] ++ ["COLUMNS:" +:+ LF +:+ Handlers.formatResult result] in
        let constraintQuery := ("
		SELECT
			tc.constraint_name,
			tc.constraint_type,
			string_agg(kcu.column_name, ', ' ORDER BY kcu.ordinal_position) as columns
		FROM information_schema.table_constraints tc
		LEFT JOIN information_schema.key_column_usage kcu
			ON tc.constraint_name = kcu.constraint_name
			AND tc.table_schema = kcu.table_schema
		WHERE tc.table_name = $1 AND tc.table_schema = $2
		GROUP BY tc.constraint_name, tc.constraint_type
		ORDER BY tc.constraint_type") in
        do r <- executeQueryWithParams constraintQuery [tableName; schema] ;;
        let results := optional_section "CONSTRAINTS:" r results in
        let indexQuery := ("
		SELECT
			indexname,
			indexdef
		FROM pg_indexes
		WHERE tablename = $1 AND schemaname = $2") in
        do r <- executeQueryWithParams indexQuery [tableName; schema] ;;
        let results := optional_section "INDEXES:" r results in
        ret (NewToolResultText (Join results (LF +:+ LF)))
    end).

Definition HandleGetTableSize (request : CallToolRequest) : Go World CallToolResult :=
  do start <- Handlers.time_Now wall ;;
  defer (Handlers.updateMetrics wall start) (
    let tableName := getStringParam request "table_name" "" in
    let schema := getStringParam request "schema" "public" in
    let query := ("
		SELECT
			schemaname,
			tablename,
			pg_size_pretty(pg_total_relation_size(schemaname||'.'||tablename)) as total_size,
			pg_size_pretty(pg_relation_size(schemaname||'.'||tablename)) as table_size,
			pg_size_pretty(pg_total_relation_size(schemaname||'.'||tablename) - pg_relation_size(schemaname||'.'||tablename)) as index_size,
			(SELECT COUNT(*) FROM information_schema.tables WHERE table_name = $1 AND table_schema = $2) as row_count_estimate
		FROM pg_tables
		WHERE tablename = $1 AND schemaname = $2") in
    do r <- executeQueryWithParams query [tableName; schema] ;;
    table_reply r).

(** The filter of [HandleListIndexes]: the WHERE clause with its numbered
    placeholders, the values to bind, and the counter. *)
Definition index_filter (tableName schema : string) : string * list string * Z :=
  let whereClause := "" in
  let args : list string := [] in
  let argCount := 0 in
  if negb (String.eqb tableName "") then
    let argCount := argCount + 1 in
    let whereClause := "WHERE tablename = $" +:+ Itoa argCount in
    let args := args ++ [tableName] in
    if negb (String.eqb schema "") then
      let argCount := argCount + 1 in
      let whereClause := whereClause +:+ " AND schemaname = $" +:+ Itoa argCount in
      let args := args ++ [schema] in
      (whereClause, args, argCount)
    else (whereClause, args, argCount)
  else if negb (String.eqb schema "") then
    let argCount := argCount + 1 in
    let whereClause := "WHERE schemaname = $" +:+ Itoa argCount in
    let args := args ++ [schema] in
    (whereClause, args, argCount)
  else (whereClause, args, argCount).

Definition HandleListIndexes (request : CallToolRequest) : Go World CallToolResult :=
  do start <- Handlers.time_Now wall ;;
  defer (Handlers.updateMetrics wall start) (
    let tableName := getStringParam request "table_name" "" in
    let schema := getStringParam request "schema" "" in
    let '(whereClause, args, argCount) := index_filter tableName schema in
    let query := ("
		SELECT
			schemaname,
			tablename,
			indexname,
			indexdef
		FROM pg_indexes
		" +:+
  whereClause +:+
  "
		ORDER BY schemaname, tablename, indexname") in
    do r <- (if (0 <? length args)%nat
             then executeQueryWithParams query args
             else Handlers.executeQuery dbPool wall query) ;;
    table_reply r).

Definition HandleListConstraints (request : CallToolRequest) : Go World CallToolResult :=
  do start <- Handlers.time_Now wall ;;
  defer (Handlers.updateMetrics wall start) (
    let tableName := getStringParam request "table_name" "" in
    let schema := getStringParam request "schema" "public" in
    let query := ("
		SELECT
			tc.constraint_name,
			tc.constraint_type,
			string_agg(kcu.column_name, ', ' ORDER BY kcu.ordinal_position) as columns,
			tc.is_deferrable,
			tc.initially_deferred
		FROM information_schema.table_constraints tc
		LEFT JOIN information_schema.key_column_usage kcu
			ON tc.constraint_name = kcu.constraint_name
			AND tc.table_schema = kcu.table_schema
		WHERE tc.table_name = $1 AND tc.table_schema = $2
		GROUP BY tc.constraint_name, tc.constraint_type, tc.is_deferrable, tc.initially_deferred
		ORDER BY tc.constraint_type") in
    do r <- executeQueryWithParams query [tableName; schema] ;;
    table_reply r).

Definition HandleCountQuery (request : CallToolRequest) : Go World CallToolResult :=
  do start <- Handlers.time_Now wall ;;
  defer (Handlers.updateMetrics wall start) (
    let tableName := getStringParam request "table_name" "" in
    let whereClause := getStringParam request "where_clause" "" in
    let schema := getStringParam request "schema" "public" in
    let query := "SELECT COUNT(*) as count FROM " +:+ schema +:+ "." +:+ tableName in
    let query :=
      if negb (String.eqb whereClause "")
      then query +:+ " WHERE " +:+ whereClause
      else query in
    do r <- Handlers.executeQuery dbPool wall query ;;
    table_reply r).

Definition HandleExplainQuery (request : CallToolRequest) : Go World CallToolResult :=
  do start <- Handlers.time_Now wall ;;
  defer (Handlers.updateMetrics wall start) (
    let query := getStringParam request "query" "" in
    if String.eqb query "" then Handlers.handleError "query parameter is required"
    else
      let analyze := getBoolParam request "analyze" false in
      let buffers := getBoolParam request "buffers" false in
      let explainQuery := "EXPLAIN" in
      let explainQuery := if analyze then explainQuery +:+ " ANALYZE" else explainQuery in
      let explainQuery := if buffers then explainQuery +:+ " BUFFERS" else explainQuery in
      let explainQuery := explainQuery +:+ " " +:+ query in
      do r <- Handlers.executeQuery dbPool wall explainQuery ;;
      table_reply r).

Definition HandleGetSlowQueries (request : CallToolRequest) : Go World CallToolResult :=
  do start <- Handlers.time_Now wall ;;
  defer (Handlers.updateMetrics wall start) (
    let limit := getNumberParam request "limit" 10%float in
    let query := ("
		SELECT
			query,
			calls,
			total_exec_time,
			mean_exec_time,
			rows,
			100.0 * shared_blks_hit / nullif(shared_blks_hit + shared_blks_read, 0) AS hit_percent
		FROM pg_stat_statements
		ORDER BY total_exec_time DESC
		LIMIT " +:+
  Itoa (int_of_float64 limit)) in
    do r <- Handlers.executeQuery dbPool wall query ;;
    match r with
    | Err _ => ret (NewToolResultText "pg_stat_statements extension not available")
    | Ok result => ret (NewToolResultText (Handlers.formatResult result))
    end).

(** [PostgresMCPServer.createMCPServer]: every [mcpServer.AddTool], in
    order. *)
Definition tool_table : list (string * (CallToolRequest → Go World CallToolResult)) :=
  [("list_databases", HandleListDatabases);
   ("list_tables", HandleListTables);
   ("list_columns", HandleListColumns);
   ("describe_table", HandleDescribeTable);
   ("get_table_size", HandleGetTableSize);
   ("list_indexes", HandleListIndexes);
   ("list_constraints", HandleListConstraints);
   ("read_query", Handlers.HandleReadQuery dbPool wall json_result);
   ("count_query", HandleCountQuery);
   ("explain_query", HandleExplainQuery)] ++
  (if negb (ReadOnly config) then
     [("write_query", Handlers.HandleWriteQuery config dbPool wall);
      ("update_query", Handlers.HandleUpdateQuery config dbPool wall);
      ("delete_query", Handlers.HandleDeleteQuery config dbPool wall);
      ("create_table", Handlers.HandleCreateTable config dbPool wall);
      ("alter_table", Handlers.HandleAlterTable config dbPool wall);
      ("create_index", Handlers.HandleCreateIndex config dbPool wall);
      ("drop_index", Handlers.HandleDropIndex config dbPool wall)]
   else []) ++
  [("get_stats", Handlers.HandleGetStats config dbPool wall json_stats);
   ("get_slow_queries", HandleGetSlowQueries);
   ("analyze_table", Handlers.HandleAnalyzeTable config dbPool wall)].

End Methods.
End HandlersTools.

(* ================================================================== *)
(** * The sqlx server: the tool closures of [main]                     *)
(* ================================================================== *)

Module SqlxTools.
Section Server.
Context `{Unicode}.
Variable DSN : string.
Variable ReadOnly : bool.
Variable WithExplainCheck : bool.
Variable driver : Sqlx.Driver.

(** [HandleQuery(query, expect)] followed by the reply every closure builds
    from it. *)
Definition query_tool (query expect : string) : Go Sqlx.State CallToolResult :=
  do r <- Sqlx.HandleQuery DSN WithExplainCheck driver query expect ;;
  ret (Sqlx.tool_reply r).

Definition exec_tool (query expect : string) : Go Sqlx.State CallToolResult :=
  do r <- Sqlx.HandleExec DSN WithExplainCheck driver query expect ;;
  ret (Sqlx.tool_reply r).

Definition listDatabaseTool (request : CallToolRequest) : Go Sqlx.State CallToolResult :=
  query_tool "SELECT datname, pg_database_size(datname) as size_bytes, pg_size_pretty(pg_database_size(datname)) as size FROM pg_database WHERE datistemplate = false ORDER BY datname"
    Sqlx.StatementTypeNoExplainCheck.

Definition listTableTool (request : CallToolRequest) : Go Sqlx.State CallToolResult :=
  let schema := getStringParam request "schema" "" in
  let query := "SELECT table_schema, table_name, table_type FROM information_schema.tables" in
  let query :=
    if negb (String.eqb schema "")
    then query +:+ " WHERE table_schema = '" +:+ schema +:+ "'"
    else query in
  let query := query +:+ " ORDER BY table_schema, table_name" in
  query_tool query Sqlx.StatementTypeNoExplainCheck.

Definition listColumnsTool (request : CallToolRequest) : Go Sqlx.State CallToolResult :=
  let tableName := getStringParam request "table_name" "" in
  let schema := getStringParam request "schema" "public" in
  let query := ("
			SELECT
				column_name,
				data_type,
				character_maximum_length,
				numeric_precision,
				numeric_scale,
				is_nullable,
				column_default,
				ordinal_position
			FROM information_schema.columns
			WHERE table_name = '" +:+
  tableName +:+
  "' AND table_schema = '" +:+
  schema +:+
  "'
			ORDER BY ordinal_position") in
  query_tool query Sqlx.StatementTypeNoExplainCheck.

(** The loop of the describe_table closure: a query that fails, or whose
    text is empty, adds nothing. *)
Fixpoint describe_all (queries : list string) (allResults : list string)
    : Go Sqlx.State (list string) :=
  match queries with
  | [] => ret allResults
  | query :: queries' =>
      do r <- Sqlx.HandleQuery DSN WithExplainCheck driver query
                Sqlx.StatementTypeNoExplainCheck ;;
      match r with
      | Ok result =>
          if negb (String.eqb result "")
          then describe_all queries' (allResults ++ [result])
          else describe_all queries' allResults
      | Err _ => describe_all queries' allResults
      end
  end.

Definition descTableTool (request : CallToolRequest) : Go Sqlx.State CallToolResult :=
  let tableName := getStringParam request "name" "" in
  let schema := getStringParam request "schema" "public" in
  let queries := [
    ("
				SELECT
					'COLUMN' as type,
					column_name as name,
					data_type || COALESCE('(' || character_maximum_length::text || ')', '') as details,
					CASE WHEN is_nullable = 'NO' THEN 'NOT NULL' ELSE 'NULLABLE' END as constraint_info
				FROM information_schema.columns
				WHERE table_name = '" +:+
  tableName +:+
  "' AND table_schema = '" +:+
  schema +:+
  "'
				ORDER BY ordinal_position");
    ("
				SELECT
					'CONSTRAINT' as type,
					tc.constraint_name as name,
					tc.constraint_type as details,
					string_agg(kcu.column_name, ', ') as constraint_info
				FROM information_schema.table_constraints tc
				LEFT JOIN information_schema.key_column_usage kcu
					ON tc.constraint_name = kcu.constraint_name
				WHERE tc.table_name = '" +:+
  tableName +:+
  "' AND tc.table_schema = '" +:+
  schema +:+
  "'
				GROUP BY tc.constraint_name, tc.constraint_type");
    ("
				SELECT
					'INDEX' as type,
					indexname as name,
					'' as details,
					indexdef as constraint_info
				FROM pg_indexes
				WHERE tablename = '" +:+
  tableName +:+
  "' AND schemaname = '" +:+
  schema +:+
  "'")
  ] in
  do allResults <- describe_all queries [] ;;
  if (length allResults =? 0)%nat then
    ret (NewToolResultText "Table not found or no information available")
  else ret (NewToolResultText (Join allResults (LF +:+ LF))).

Definition getTableSizeTool (request : CallToolRequest) : Go Sqlx.State CallToolResult :=
  let tableName := getStringParam request "table_name" "" in
  let schema := getStringParam request "schema" "public" in
  let query := ("
			SELECT
				'" +:+
  schema +:+
  "." +:+
  tableName +:+
  "' as table_name,
				pg_size_pretty(pg_total_relation_size('" +:+
  schema +:+
  "." +:+
  tableName +:+
  "')) as total_size,
				pg_size_pretty(pg_relation_size('" +:+
  schema +:+
  "." +:+
  tableName +:+
  "')) as table_size,
				(SELECT COUNT(*) FROM " +:+
  schema +:+
  "." +:+
  tableName +:+
  ") as estimated_rows
		") in
  query_tool query Sqlx.StatementTypeNoExplainCheck.

Definition listIndexesTool (request : CallToolRequest) : Go Sqlx.State CallToolResult :=
  let tableName := getStringParam request "table_name" "" in
  let schema := getStringParam request "schema" "" in
  let query := "SELECT schemaname, tablename, indexname, indexdef FROM pg_indexes" in
  let conditions : list string := [] in
  let conditions :=
    if negb (String.eqb tableName "")
    then conditions ++ ["tablename = '" +:+ tableName +:+ "'"]
    else conditions in
  let conditions :=
    if negb (String.eqb schema "")
    then conditions ++ ["schemaname = '" +:+ schema +:+ "'"]
    else conditions in
  let query :=
    if (0 <? length conditions)%nat
    then query +:+ " WHERE " +:+ Join conditions " AND "
    else query in
  let query := query +:+ " ORDER BY schemaname, tablename, indexname" in
  query_tool query Sqlx.StatementTypeNoExplainCheck.

Definition explainQueryTool (request : CallToolRequest) : Go Sqlx.State CallToolResult :=
  let query := getStringParam request "query" "" in
  let analyze := getBoolParam request "analyze" false in
  let explainQuery := "EXPLAIN" in
  let explainQuery := if analyze then explainQuery +:+ " ANALYZE" else explainQuery in
  let explainQuery := explainQuery +:+ " " +:+ query in
  query_tool explainQuery Sqlx.StatementTypeNoExplainCheck.

Definition countQueryTool (request : CallToolRequest) : Go Sqlx.State CallToolResult :=
  let tableName := getStringParam request "table_name" "" in
  let whereClause := getStringParam request "where_clause" "" in
  let schema := getStringParam request "schema" "public" in
  let query := "SELECT COUNT(*) as count FROM " +:+ schema +:+ "." +:+ tableName in
  let query :=
    if negb (String.eqb whereClause "")
    then query +:+ " WHERE " +:+ whereClause
    else query in
  query_tool query Sqlx.StatementTypeNoExplainCheck.

Definition writeQueryTool (request : CallToolRequest) : Go Sqlx.State CallToolResult :=
  let query := getStringParam request "query" "" in
  exec_tool query Sqlx.StatementTypeInsert.

Definition updateQueryTool (request : CallToolRequest) : Go Sqlx.State CallToolResult :=
  let query := getStringParam request "query" "" in
  if negb (Contains (ToUpper query) "WHERE") then
    ret (NewToolResultText "Error: UPDATE queries must include a WHERE clause for safety")
  else exec_tool query Sqlx.StatementTypeUpdate.

Definition deleteQueryTool (request : CallToolRequest) : Go Sqlx.State CallToolResult :=
  let query := getStringParam request "query" "" in
  if negb (Contains (ToUpper query) "WHERE") then
    ret (NewToolResultText "Error: DELETE queries must include a WHERE clause for safety")
  else exec_tool query Sqlx.StatementTypeDelete.

(** The closures of create_table, alter_table and create_index have the same
    body. *)
Definition ddlTool (request : CallToolRequest) : Go Sqlx.State CallToolResult :=
  let query := getStringParam request "query" "" in
  exec_tool query Sqlx.StatementTypeNoExplainCheck.

Definition createTableTool := ddlTool.
Definition alterTableTool := ddlTool.
Definition createIndexTool := ddlTool.

(** Every [s.AddTool] of [main], in order; the write tools exist only when
    the server is not read-only. *)
Definition tool_table : list (string * (CallToolRequest → Go Sqlx.State CallToolResult)) :=
  [("list_databases", listDatabaseTool);
   ("list_tables", listTableTool);
   ("list_columns", listColumnsTool);
   ("describe_table", descTableTool);
   ("get_table_size", getTableSizeTool);
   ("list_indexes", listIndexesTool);
   ("read_query", Sqlx.readQueryTool DSN WithExplainCheck driver);
   ("explain_query", explainQueryTool);
   ("count_query", countQueryTool)] ++
  (if negb ReadOnly then
     [("write_query", writeQueryTool);
      ("update_query", updateQueryTool);
      ("delete_query", deleteQueryTool);
      ("create_table", createTableTool);
      ("alter_table", alterTableTool);
      ("create_index", createIndexTool)]
   else []).

End Server.
End SqlxTools.

(* ================================================================== *)
(** * Scenarios                                                        *)
(* ================================================================== *)

Definition request_of (args : list (string * Argument)) : CallToolRequest :=
  {| Params_Arguments := list_to_map args |}.

Definition sample_config (read_only : bool) : Config :=
  {| DSN := "postgresql://app@localhost:5432/app"; ReadOnly := read_only;
     ExplainCheck := false; Transport := "stdio"; Port := 8080;
     IPAddress := "localhost"; MaxConnections := 100; LogLevel := "info";
     QueryTimeout := 30; EnableMetrics := true; CacheSize := 1000;
     PoolMaxIdleTime := 300 |}.

(** A pool whose every query answers two records of two columns. *)
Definition sample_pool : Pool :=
  {| Query := fun _ _ =>
       QueryRows ["id"; "name"] [Ok [CInt 1; CString "ada"]; Ok [CInt 2; CNil]];
     Exec := fun _ _ => ExecDone 1;
     Stat := {| AcquiredConns := 0; IdleConns := 5; TotalConns := 5 |} |}.

(** A clock that advances 1500ns between two looks. *)
Definition sample_wall (n : nat) : Z := 1500 * Z.of_nat n.

Definition sample_json_result (r : QueryResult) : string := "{}".
Definition sample_json_stats (stats : gmap string StatValue) : string := "{}".

Definition fresh_metrics : ServerMetrics :=
  {| QueriesExecuted := 0; QueryErrors := 0; ConnectionsActive := 0;
     TotalResponseTime := 0; StartTime := 0 |}.

Definition fresh : World :=
  {| metrics := fresh_metrics; issued := []; clock_reads := 0; journal := [] |}.

(** A database that refuses to plan the misspelt statement. *)
Definition sample_driver : Sqlx.Driver :=
  {| Sqlx.Connect := fun _ => None;
     Sqlx.Queryx := fun _ sql =>
       if Contains sql "SELEC 1"
       then Sqlx.QueryxFailed "ERROR: syntax error at or near SELEC (SQLSTATE 42601)"
       else Sqlx.QueryxRows (Ok ["id"]) [Ok [CInt 1]];
     Sqlx.Execx := fun _ _ => Sqlx.ExecxResult (Ok 1) |}.

Definition sample_dsn : string := "postgresql://app@localhost:5432/app".

Definition sqlx_fresh : Sqlx.State := {| Sqlx.DB := false; Sqlx.sent := [] |}.

Definition empty_result : QueryResult :=
  {| Rows := []; Columns := ["id"; "name"]; Count := 0; Timing := "1.5ms" |}.

Definition busy_metrics : ServerMetrics :=
  {| QueriesExecuted := 4; QueryErrors := 1; ConnectionsActive := 0;
     TotalResponseTime := 10000000; StartTime := 0 |}.

Definition no_where_request : CallToolRequest :=
  request_of [("query", ArgString "UPDATE t SET x=1")].

Definition forced_request : CallToolRequest :=
  request_of [("query", ArgString "DELETE FROM t WHERE id = 5"); ("force", ArgBool true)].

Definition explain_request : CallToolRequest :=
  request_of [("query", ArgString "EXPLAIN SELECT 1")].

Definition limited_request : CallToolRequest :=
  request_of [("query", ArgString "select * from users"); ("limit", ArgNumber 25%float)].

Definition unlimited_request : CallToolRequest :=
  request_of [("query", ArgString "select * from users")].

Definition own_limit_request : CallToolRequest :=
  request_of [("query", ArgString "SELECT * FROM users limit 5"); ("limit", ArgNumber 25%float)].

(* ================================================================== *)
(** * Vocabulary of the properties                                     *)
(* ================================================================== *)

(** The dynamic type of an argument value. *)
Inductive Kind : Type := KNil | KString | KNumber | KBool | KComposite.

Definition dynamic_type (a : Argument) : Kind :=
  match a with
  | ArgNil => KNil
  | ArgString _ => KString
  | ArgNumber _ => KNumber
  | ArgBool _ => KBool
  | ArgComposite => KComposite
  end.

(** "After trimming whitespace and case-folding, the text begins with one of
    [words]". *)
Definition begins_with `{Unicode} (words : list string) (text : string) : bool :=
  existsb (HasPrefix (ToUpper (TrimSpace text))) words.

(** The row limit a read_query request asks for: the caller's number cut to
    an integer, 1000 when there is none. *)
Definition requested_limit (request : CallToolRequest) : Z :=
  match Params_Arguments request !! "limit" with
  | Some (ArgNumber f) => int_of_float64 f
  | _ => 1000
  end.

(** A reply that carries an error text. *)
Definition is_error_reply (r : Outcome CallToolResult) : Prop :=
  ∃ reason, r = Returned (NewToolResultText ("Error: " +:+ reason)).

(** The structural invariant of a result: every record has exactly the
    columns as keys, and the count is the number of records. *)
Definition rows_match_columns (rows : list (gmap string Cell)) (columns : list string) : Prop :=
  Forall (fun row => dom row = (list_to_set columns : gset string)) rows.

Definition result_invariant (r : QueryResult) : Prop :=
  rows_match_columns (Rows r) (Columns r) ∧ Count r = Z.of_nat (length (Rows r)).

(** One value per field description: what pgx's [rows.Values()] hands out. *)
Definition record_fits (fields : list string) (record : Fallible (list Cell)) : Prop :=
  match record with
  | Ok values => length values = length fields
  | Err _ => True
  end.

(** The empty-result message of the text table. *)
Definition no_results_message (timing : string) : string :=
  "No results found." +:+ LF +:+ "Execution time: " +:+ timing.

(** The average of get_stats, in milliseconds. *)
Definition average_ms (m : ServerMetrics) : float :=
  PrimFloat.div
    (PrimFloat.div (float64_of_int64 (TotalResponseTime m))
                   (float64_of_int64 (QueriesExecuted m)))
    1000000%float.

(** What [handleError] leaves behind. *)
Definition after_error (err : error) (w : World) : World :=
  {| metrics := count_error (metrics w); issued := issued w;
     clock_reads := clock_reads w;
     journal := journal w ++
       [{| log_msg := "Tool execution error"; log_err := err; log_query := None |}] |}.

(** A rejection after the clock was started: the error is counted, then the
    deferred [updateMetrics] adds the time the handler took. *)
Definition after_timed_error (wall : nat → Z) (err : error) (w : World) : World :=
  {| metrics :=
       add_response_time
         (int64_saturate (wall (S (clock_reads w)) - wall (clock_reads w)))
         (count_error (metrics w));
     issued := issued w;
     clock_reads := S (S (clock_reads w));
     journal := journal w ++
       [{| log_msg := "Tool execution error"; log_err := err; log_query := None |}] |}.

(** The world after one look at the clock. *)
Definition tick (w : World) : World :=
  {| metrics := metrics w; issued := issued w;
     clock_reads := S (clock_reads w); journal := journal w |}.

(** The time between the two looks at the clock a rejected request makes. *)
Definition handler_elapsed (wall : nat → Z) (w : World) : Z :=
  int64_saturate (wall (S (clock_reads w)) - wall (clock_reads w)).

(** What a rejection by a gate looks like from outside: an error reply, no
    statement sent, the error counter incremented (as [int64]), the count of
    executed queries untouched. *)
Definition rejected_without_database (w : World) (run : Outcome CallToolResult * World) : Prop :=
  is_error_reply run.1 ∧
  issued run.2 = issued w ∧
  QueryErrors (metrics run.2) = int64_wrap (QueryErrors (metrics w) + 1) ∧
  QueriesExecuted (metrics run.2) = QueriesExecuted (metrics w).

(** The statement handed to the executor: the text as it came when it
    mentions LIMIT in any case, the text with the requested limit appended
    otherwise. *)
Definition with_row_limit `{Unicode} (request : CallToolRequest) (query : string) : string :=
  if Contains (ToUpper query) "LIMIT" then query
  else query +:+ " LIMIT " +:+ Itoa (requested_limit request).

(** The statement the sqlx read_query closure hands to [HandleQuery]: it
    looks for LIMIT in the trimmed, upper-cased text. *)
Definition sqlx_statement `{Unicode} (request : CallToolRequest) (query : string) : string :=
  if Contains (ToUpper (TrimSpace query)) "LIMIT" then query
  else query +:+ " LIMIT " +:+ Itoa (requested_limit request).

(** The contract of pgx: every record carries one value per field. *)
Definition pool_fits (dbPool : Pool) : Prop :=
  ∀ history sql fields records,
    Query dbPool history sql = QueryRows fields records →
    Forall (record_fits fields) records.

(** The state once the handle is there. *)
Definition connected (s : Sqlx.State) : Sqlx.State :=
  {| Sqlx.DB := true; Sqlx.sent := Sqlx.sent s |}.

(** ** Vocabulary of the properties of the other tools *)

(** None of the four limits [initConfig] looks at is zero. *)
Definition limits_set (config : Config) : Prop :=
  MaxConnections config ≠ 0 ∧ QueryTimeout config ≠ 0 ∧
  CacheSize config ≠ 0 ∧ PoolMaxIdleTime config ≠ 0.

(** The settings [initConfig] never touches. *)
Definition same_settings (a b : Config) : Prop :=
  DSN a = DSN b ∧ ReadOnly a = ReadOnly b ∧ ExplainCheck a = ExplainCheck b ∧
  Transport a = Transport b ∧ Port a = Port b ∧ IPAddress a = IPAddress b ∧
  LogLevel a = LogLevel b ∧ EnableMetrics a = EnableMetrics b.

(** A configuration file that sets nothing. *)
Definition blank_config : Config :=
  {| DSN := ""; ReadOnly := false; ExplainCheck := false; Transport := "";
     Port := 0; IPAddress := ""; MaxConnections := 0; LogLevel := "";
     QueryTimeout := 0; EnableMetrics := false; CacheSize := 0;
     PoolMaxIdleTime := 0 |}.

(** A pool whose every statement fails. *)
Definition failing_pool : Pool :=
  {| Query := fun _ _ => QueryFailed "ERROR: relation does not exist (SQLSTATE 42P01)";
     Exec := fun _ _ => ExecFailed "ERROR: relation does not exist (SQLSTATE 42P01)";
     Stat := {| AcquiredConns := 0; IdleConns := 5; TotalConns := 5 |} |}.

Definition insert_request : CallToolRequest :=
  request_of [("query", ArgString "INSERT INTO t VALUES (1)")].

(** The journal entry [executeQuery] and [executeWriteQuery] write when the
    database refuses a statement. *)
Definition refusal_entry (msg : string) (err : error) (query : string) : LogEntry :=
  {| log_msg := msg; log_err := err; log_query := Some query |}.

Definition tool_error_entry (err : error) : LogEntry :=
  {| log_msg := "Tool execution error"; log_err := err; log_query := None |}.

(** How a failed request shows in the reply and in the counters: [n] errors
    counted (each an [int64] increment), no query counted. *)
Fixpoint increments (n : nat) (z : Z) : Z :=
  match n with
  | O => z
  | S n' => int64_wrap (increments n' z + 1)
  end.

Definition failure_counted (n : nat) (err : error) (w : World)
    (run : Outcome CallToolResult * World) : Prop :=
  run.1 = Returned (NewToolResultText ("Error: " +:+ err)) ∧
  QueryErrors (metrics run.2) = increments n (QueryErrors (metrics w)) ∧
  QueriesExecuted (metrics run.2) = QueriesExecuted (metrics w).

(** The text [executeWriteQuery] answers with. *)
Definition write_report (rowsAffected : Z) (timing : Z) : string :=
  "Query executed successfully." +:+ LF +:+
  "Rows affected: " +:+ Itoa rowsAffected +:+ LF +:+
  "Execution time: " +:+ Duration_String timing.

(** The clock as a request that reaches the database sees it: the handler
    looks at it first and last, the executor in between. *)
Definition statement_time (wall : nat → Z) (w : World) : Z :=
  int64_saturate (wall (S (S (clock_reads w))) - wall (S (clock_reads w))).

Definition write_handler_time (wall : nat → Z) (w : World) : Z :=
  int64_saturate (wall (S (S (S (clock_reads w)))) - wall (clock_reads w)).

(** The row limit a get_slow_queries request asks for: the caller's number
    cut to an integer, 10 when there is none. *)
Definition slow_limit (request : CallToolRequest) : Z :=
  match Params_Arguments request !! "limit" with
  | Some (ArgNumber f) => int_of_float64 f
  | _ => 10
  end.

Definition slow_queries_unavailable : string :=
  "pg_stat_statements extension not available".

(** The statement of explain_query: the options, a blank, the caller's
    text. *)
Definition explain_statement (analyze buffers : bool) (query : string) : string :=
  "EXPLAIN" +:+ (if analyze then " ANALYZE" else "") +:+
  (if buffers then " BUFFERS" else "") +:+ " " +:+ query.

Definition explain_delete_request : CallToolRequest :=
  request_of [("query", ArgString "DELETE FROM users"); ("analyze", ArgBool true)].

Definition forced_no_where_request : CallToolRequest :=
  request_of [("query", ArgString "DELETE FROM t"); ("force", ArgBool true)].

Definition create_table_request : CallToolRequest :=
  request_of [("query", ArgString "CREATE TABLE t (id int)")].

(** A server that cannot be reached. *)
Definition unreachable_driver : Sqlx.Driver :=
  {| Sqlx.Connect := fun _ => Some "dial tcp 127.0.0.1:5432: connect: connection refused";
     Sqlx.Queryx := fun _ _ => Sqlx.QueryxRows (Ok []) [];
     Sqlx.Execx := fun _ _ => Sqlx.ExecxResult (Ok 0) |}.

Definition connection_error (err : error) : error :=
  "failed to establish database connection: " +:+ err.

(** The handle is there, or can be had. *)
Definition reachable (DSN : string) (driver : Sqlx.Driver) (s : Sqlx.State) : Prop :=
  Sqlx.DB s = true ∨ Sqlx.Connect driver DSN = None.

(** [string(v)] for a byte slice, the value itself otherwise: what [DoQuery]
    stores for one column of one record. *)
Definition decode_bytes (v : Cell) : Cell :=
  match v with
  | CBytes bytes => CString bytes
  | _ => v
  end.

Definition is_byte_slice (v : Cell) : bool :=
  match v with
  | CBytes _ => true
  | _ => false
  end.

(** No cell of the row is a byte slice. *)
Definition decoded (row : gmap string Cell) : Prop :=
  map_Forall (fun _ v => is_byte_slice v = false) row.

(** The row built from one record of the driver: under every column, the
    value at the column's position, byte slices turned into strings. *)
Definition row_of_record (cols : list string) (record : Fallible (list Cell))
    (filled : gmap string Cell) : Prop :=
  ∃ row, record = Ok row ∧
    ∀ j col, cols !! j = Some col → filled !! col = decode_bytes <$> row !! j.

(** A driver that hands back one record with a byte slice in it. *)
Definition bytea_driver : Sqlx.Driver :=
  {| Sqlx.Connect := fun _ => None;
     Sqlx.Queryx := fun _ _ => Sqlx.QueryxRows (Ok ["id"; "payload"]) [Ok [CInt 7; CBytes "abc"]];
     Sqlx.Execx := fun _ _ => Sqlx.ExecxResult (Ok 0) |}.

Definition not_found_message : string := "Table not found or no information available".

(** Does the text hold a line break? *)
Fixpoint has_LF (s : string) : bool :=
  match s with
  | EmptyString => false
  | String c s' => Ascii.eqb c "010"%char || has_LF s'
  end.

(** A database in which the table asked about does not exist: every query
    is answered, with no record. *)
Definition empty_driver : Sqlx.Driver :=
  {| Sqlx.Connect := fun _ => None;
     Sqlx.Queryx := fun _ _ => Sqlx.QueryxRows (Ok ["column_name"; "data_type"]) [];
     Sqlx.Execx := fun _ _ => Sqlx.ExecxResult (Ok 0) |}.

(** A database that refuses every query. *)
Definition refusing_driver : Sqlx.Driver :=
  {| Sqlx.Connect := fun _ => None;
     Sqlx.Queryx := fun _ _ => Sqlx.QueryxFailed "ERROR: permission denied (SQLSTATE 42501)";
     Sqlx.Execx := fun _ _ => Sqlx.ExecxFailed "ERROR: permission denied (SQLSTATE 42501)" |}.

Definition describe_request : CallToolRequest :=
  request_of [("name", ArgString "no_such_table")].

(** What a computation may add to the statements sent: queries only, no
    [Exec]. *)
Definition only_queries_added (before after : list Statement) : Prop :=
  ∃ sqls : list string, after = before ++ (Queried <$> sqls).

Definition queries_only {W A : Type} (log : W → list Statement) (m : Go W A) : Prop :=
  ∀ w, only_queries_added (log w) (log (m w).2).

(** An oracle that answers every bound query with no record. *)
Definition sample_Query_args : list Statement → string → list string → QueryReply :=
  fun _ _ _ => QueryRows ["column_name"] [].

Definition drop_request : CallToolRequest :=
  request_of [("query", ArgString "DROP TABLE users"); ("table_name", ArgString "users")].

(** An oracle for bound queries that answers the first statement of a
    request and refuses the later ones. *)
Definition first_only_Query_args : list Statement → string → list string → QueryReply :=
  fun history _ _ =>
    match history with
    | [] => QueryRows ["column_name"] []
    | _ => QueryFailed "ERROR: permission denied (SQLSTATE 42501)"
    end.

Definition users_request : CallToolRequest :=
  request_of [("table_name", ArgString "users")].

Definition quoted_name_request : CallToolRequest :=
  request_of [("table_name", ArgString "x' OR '1'='1")].

Definition empty_request : CallToolRequest := request_of [].




(* ================================================================== *)
(** * Properties                                                       *)
(* ================================================================== *)

(** ** Run-time functions *)

Lemma Duration_String_samples :
  Duration_String 0 = "0s" ∧ Duration_String 1500000000 = "1.5s" ∧
  Duration_String 61000000000 = "1m1s" ∧ Duration_String 250 = "250ns" ∧
  Duration_String 3600000000000 = "1h0m0s" ∧ Duration_String 2340000 = "2.34ms".
Proof. vm_compute. repeat split. Qed.

(** ** Parameter extraction *)

Lemma getStringParam_default request key defaultValue :
  dynamic_type <$> Params_Arguments request !! key ≠ Some KString →
  getStringParam request key defaultValue = defaultValue.
Proof.
  unfold getStringParam.
  destruct (Params_Arguments request !! key) as [[]|]; simpl; congruence.
Qed.

Lemma getNumberParam_default request key defaultValue :
  dynamic_type <$> Params_Arguments request !! key ≠ Some KNumber →
  getNumberParam request key defaultValue = defaultValue.
Proof.
  unfold getNumberParam.
  destruct (Params_Arguments request !! key) as [[]|]; simpl; congruence.
Qed.

Lemma getBoolParam_default request key defaultValue :
  dynamic_type <$> Params_Arguments request !! key ≠ Some KBool →
  getBoolParam request key defaultValue = defaultValue.
Proof.
  unfold getBoolParam.
  destruct (Params_Arguments request !! key) as [[]|]; simpl; congruence.
Qed.

(** C10: an argument that is absent, or whose dynamic type is not the
    declared one, is replaced by the default the handler passes; the three
    helpers are total functions into the declared type, so extraction has
    no error to report. *)
Theorem param_extraction_falls_back_to_default (request : CallToolRequest) (key : string) :
  (∀ defaultValue,
     dynamic_type <$> Params_Arguments request !! key ≠ Some KString →
     getStringParam request key defaultValue = defaultValue) ∧
  (∀ defaultValue,
     dynamic_type <$> Params_Arguments request !! key ≠ Some KNumber →
     getNumberParam request key defaultValue = defaultValue) ∧
  (∀ defaultValue,
     dynamic_type <$> Params_Arguments request !! key ≠ Some KBool →
     getBoolParam request key defaultValue = defaultValue).
Proof.
  repeat split; intros.
  - by apply getStringParam_default.
  - by apply getNumberParam_default.
  - by apply getBoolParam_default.
Qed.

Lemma param_extraction_witness :
  getNumberParam (request_of [("limit", ArgString "ten")]) "limit" 1000%float = 1000%float ∧
  getBoolParam (request_of [("limit", ArgString "ten")]) "force" false = false ∧
  getStringParam (request_of [("schema", ArgNumber 7%float)]) "schema" "public" = "public".
Proof.
  split; [|split].
  - apply (param_extraction_falls_back_to_default
             (request_of [("limit", ArgString "ten")]) "limit").
    vm_compute. discriminate.
  - apply (param_extraction_falls_back_to_default
             (request_of [("limit", ArgString "ten")]) "force").
    vm_compute. discriminate.
  - apply (param_extraction_falls_back_to_default
             (request_of [("schema", ArgNumber 7%float)]) "schema").
    vm_compute. discriminate.
Defined.

(** ** Formatting an empty result *)

Lemma formatResult_empty `{Unicode} (result : QueryResult) :
  Rows result = [] →
  Pooled.formatResult result = no_results_message (Timing result).
Proof. intros Hrows. unfold Pooled.formatResult. by rewrite Hrows. Qed.

Lemma append_empty_r (s : string) : s +:+ "" = s.
Proof.
  induction s as [|c s IH]; [done |].
  change (String c (s +:+ "") = String c s). by rewrite IH.
Qed.

Lemma MapToCSV_empty `{Unicode} (headers : list string) :
  Sqlx.MapToCSV [] headers = Ok (Sqlx.csv_Write headers).
Proof. unfold Sqlx.MapToCSV. cbn [fmap list_fmap Join]. by rewrite append_empty_r. Qed.

(** C8 (amended): for an empty result the text table is replaced by the
    message "No results found." followed by the line "Execution time: " and
    the elapsed time; the CSV encoder writes the header record and nothing
    else. *)
Theorem empty_result_rendering `{Unicode} :
  (∀ result : QueryResult,
     Rows result = [] →
     Pooled.formatResult result = no_results_message (Timing result)) ∧
  (∀ headers : list string,
     Sqlx.MapToCSV [] headers = Ok (Sqlx.csv_Write headers)).
Proof. split; [apply @formatResult_empty | apply @MapToCSV_empty]. Qed.

Lemma empty_result_rendering_witness :
  Pooled.formatResult empty_result =
    "No results found." +:+ LF +:+ "Execution time: 1.5ms" ∧
  @Sqlx.MapToCSV ascii_text [] ["id"; "name"] = Ok ("id,name" +:+ LF).
Proof.
  split.
  - exact (proj1 (@empty_result_rendering ascii_text) empty_result eq_refl).
  - exact (proj2 (@empty_result_rendering ascii_text) ["id"; "name"]).
Defined.

(** C8, as stated, fails for the CSV encoding: the empty result of a two
    column query is rendered as the bare header record, which is no
    "No results found." message and carries no elapsed time. *)
Lemma csv_empty_result_is_bare_header :
  @Sqlx.MapToCSV ascii_text [] ["id"; "name"] = Ok ("id,name" +:+ LF) ∧
  HasPrefix ("id,name" +:+ LF) "No results found." = false ∧
  Contains ("id,name" +:+ LF) "Execution time" = false.
Proof. vm_compute. repeat split. Qed.

(** ** Statistics *)

Lemma HandleGetStats_stats_average config dbPool m uptime :
  Handlers.HandleGetStats_stats config dbPool m uptime !! "avg_response_time_ms" =
    if 0 <? QueriesExecuted m then Some (StatFloat (average_ms m)) else None.
Proof.
  unfold Handlers.HandleGetStats_stats.
  destruct (0 <? QueriesExecuted m).
  - by rewrite lookup_insert_eq.
  - reflexivity.
Qed.

Lemma handleGetStats_stats_average config dbPool m uptime :
  Pooled.handleGetStats_stats config dbPool m uptime !! "avg_response_time_ms" =
    Some (StatFloat (average_ms m)).
Proof. reflexivity. Qed.

(** The reply of [HandleGetStats] is the encoding of the snapshot taken from
    the metrics as they are when the request arrives. *)
Lemma HandleGetStats_reply config dbPool wall json_stats request w :
  (Handlers.HandleGetStats config dbPool wall json_stats request w).1 =
    Returned (NewToolResultText (Pooled.stats_text json_stats
      (Handlers.HandleGetStats_stats config dbPool (metrics w)
         (int64_saturate (wall (S (clock_reads w)) - StartTime (metrics w)))))).
Proof. reflexivity. Qed.

Lemma handleGetStats_reply config dbPool wall json_stats request w :
  (Pooled.handleGetStats config dbPool wall json_stats request w).1 =
    Returned (NewToolResultText (Pooled.stats_text json_stats
      (Pooled.handleGetStats_stats config dbPool (metrics w)
         (int64_saturate (wall (S (clock_reads w)) - StartTime (metrics w)))))).
Proof. reflexivity. Qed.

(** C7 (amended): the snapshot of get_stats stores the average
    cumulative / queries_executed (in milliseconds) whenever
    queries_executed > 0, in both servers; when queries_executed is zero
    [Handlers.HandleGetStats] divides nothing and leaves the average out of
    the snapshot. *)
Theorem stats_average (config : Config) (dbPool : Pool) (m : ServerMetrics) (uptime : Z) :
  (0 < QueriesExecuted m →
     Handlers.HandleGetStats_stats config dbPool m uptime !! "avg_response_time_ms" =
       Some (StatFloat (average_ms m)) ∧
     Pooled.handleGetStats_stats config dbPool m uptime !! "avg_response_time_ms" =
       Some (StatFloat (average_ms m))) ∧
  (QueriesExecuted m ≤ 0 →
     Handlers.HandleGetStats_stats config dbPool m uptime !! "avg_response_time_ms" = None).
Proof.
  split; intros Hq.
  - rewrite HandleGetStats_stats_average, handleGetStats_stats_average.
    apply Z.ltb_lt in Hq. by rewrite Hq.
  - rewrite HandleGetStats_stats_average.
    apply Z.ltb_ge in Hq. by rewrite Hq.
Qed.

Lemma stats_average_witness :
  Handlers.HandleGetStats_stats (sample_config false) sample_pool busy_metrics 0
    !! "avg_response_time_ms" = Some (StatFloat 2.5%float) ∧
  Handlers.HandleGetStats_stats (sample_config false) sample_pool fresh_metrics 0
    !! "avg_response_time_ms" = None.
Proof.
  split.
  - refine (proj1 (proj1 (stats_average (sample_config false) sample_pool busy_metrics 0) _)).
    reflexivity.
  - refine (proj2 (stats_average (sample_config false) sample_pool fresh_metrics 0) _).
    discriminate.
Defined.

(** C7, as stated, fails when no query has been executed yet: the snapshot
    of [Handlers.HandleGetStats] holds no average at all (so no zero), and the
    monolithic [handleGetStats] divides zero by zero, stores a NaN, and
    answers the empty text because the encoder refuses the map. *)
Lemma zero_queries_average_is_not_zero :
  QueriesExecuted fresh_metrics = 0 ∧
  Handlers.HandleGetStats_stats (sample_config false) sample_pool fresh_metrics 0
    !! "avg_response_time_ms" = None ∧
  match Pooled.handleGetStats_stats (sample_config false) sample_pool fresh_metrics 0
          !! "avg_response_time_ms" with
  | Some (StatFloat f) => PrimFloat.is_nan f
  | _ => false
  end = true ∧
  (Pooled.handleGetStats (sample_config false) sample_pool sample_wall
     sample_json_stats (request_of []) fresh).1 = Returned (NewToolResultText "").
Proof. vm_compute. repeat split. Qed.

(** ** The safety gates of the mutating handlers *)

Lemma handleError_run (err : error) (w : World) :
  Pooled.handleError err w =
    (Returned (NewToolResultText ("Error: " +:+ err)), after_error err w).
Proof. reflexivity. Qed.

Lemma timed_error_run (wall : nat → Z) (err : error) (w : World) :
  (do start <- Pooled.time_Now wall ;;
   defer (Pooled.updateMetrics wall start) (Pooled.handleError err)) w =
    (Returned (NewToolResultText ("Error: " +:+ err)), after_timed_error wall err w).
Proof. reflexivity. Qed.

Lemma read_only_rejects `{Unicode} config dbPool wall (t : MutatingTool) request w :
  ReadOnly config = true →
  Pooled.handler_of config dbPool wall t request w =
    Pooled.handleError "server is in read-only mode" w ∧
  Handlers.handler_of config dbPool wall t request w =
    Pooled.handleError "server is in read-only mode" w.
Proof.
  intros Hro.
  destruct t; split; cbv delta [Pooled.handler_of Handlers.handler_of
    Pooled.handleWriteQuery Pooled.handleUpdateQuery Pooled.handleDeleteQuery
    Pooled.handleCreateTable Pooled.handleAlterTable Pooled.handleCreateIndex
    Pooled.handleDDL Pooled.handleDropIndex Pooled.handleAnalyzeTable
    Handlers.HandleWriteQuery Handlers.HandleUpdateQuery Handlers.HandleDeleteQuery
    Handlers.HandleCreateTable Handlers.HandleAlterTable Handlers.HandleCreateIndex
    Handlers.HandleDDL Handlers.HandleDropIndex Handlers.HandleAnalyzeTable] iota beta;
    rewrite Hro; reflexivity.
Qed.

Lemma registered_when_read_only config (t : MutatingTool) :
  ReadOnly config = true →
  (tool_name t ∈ Pooled.createMCPServer config ↔ t = analyze_table) ∧
  (tool_name t ∈ Handlers.createMCPServer config ↔ t = analyze_table).
Proof.
  intros Hro.
  unfold Pooled.createMCPServer, Handlers.createMCPServer. rewrite Hro.
  destruct t; split; split;
    first [ discriminate
          | intros _; reflexivity
          | intros Hin; exfalso; revert Hin;
            apply (bool_decide_eq_false_1 _); vm_compute; reflexivity
          | intros _; apply (bool_decide_eq_true_1 _); vm_compute; reflexivity ].
Qed.

(** C4: with the read-only flag set, each of the eight mutating handlers does
    nothing but report "server is in read-only mode", whatever the request
    holds (statement text, WHERE clause, force flag): the flag is tested
    first, no statement is sent and the clock is not read.  On top of that
    [createMCPServer] registers none of them except analyze_table. *)
Theorem read_only_mode_rejects_every_mutation `{Unicode}
    (config : Config) (dbPool : Pool) (wall : nat → Z)
    (t : MutatingTool) (request : CallToolRequest) (w : World) :
  ReadOnly config = true →
  (Pooled.handler_of config dbPool wall t request w =
     (Returned (NewToolResultText "Error: server is in read-only mode"),
      after_error "server is in read-only mode" w) ∧
   Handlers.handler_of config dbPool wall t request w =
     (Returned (NewToolResultText "Error: server is in read-only mode"),
      after_error "server is in read-only mode" w)) ∧
  issued (Pooled.handler_of config dbPool wall t request w).2 = issued w ∧
  issued (Handlers.handler_of config dbPool wall t request w).2 = issued w ∧
  (tool_name t ∈ Pooled.createMCPServer config ↔ t = analyze_table) ∧
  (tool_name t ∈ Handlers.createMCPServer config ↔ t = analyze_table).
Proof.
  intros Hro.
  destruct (read_only_rejects config dbPool wall t request w Hro) as [Hp Hh].
  destruct (registered_when_read_only config t Hro) as [Rp Rh].
  rewrite Hp, Hh, handleError_run. repeat split; try assumption; apply Rp || apply Rh.
Qed.

Lemma read_only_mode_witness :
  Pooled.handler_of (sample_config true) sample_pool sample_wall update_query
      no_where_request fresh =
    (Returned (NewToolResultText "Error: server is in read-only mode"),
     after_error "server is in read-only mode" fresh) ∧
  Handlers.handler_of (sample_config true) sample_pool sample_wall delete_query
      forced_request fresh =
    (Returned (NewToolResultText "Error: server is in read-only mode"),
     after_error "server is in read-only mode" fresh).
Proof.
  split.
  - refine (proj1 (proj1 (read_only_mode_rejects_every_mutation (sample_config true)
      sample_pool sample_wall update_query no_where_request fresh _))).
    reflexivity.
  - refine (proj2 (proj1 (read_only_mode_rejects_every_mutation (sample_config true)
      sample_pool sample_wall delete_query forced_request fresh _))).
    reflexivity.
Defined.

Lemma error_is_rejection (err : error) (w : World) :
  rejected_without_database w (Pooled.handleError err w).
Proof. rewrite handleError_run. repeat split. by exists err. Qed.

Lemma timed_error_is_rejection (wall : nat → Z) (err : error) (w : World) :
  rejected_without_database w
    ((do start <- Pooled.time_Now wall ;;
      defer (Pooled.updateMetrics wall start) (Pooled.handleError err)) w).
Proof. rewrite timed_error_run. repeat split. by exists err. Qed.

Section WhereGate.
Context `{Unicode}.
Variables (config : Config) (dbPool : Pool) (wall : nat → Z).
Variables (request : CallToolRequest) (w : World).

Local Abbreviation query := (getStringParam request "query" "").

Hypothesis force_unset : getBoolParam request "force" false = false.
Hypothesis no_where : Contains (ToUpper query) "WHERE" = false.

Lemma handleUpdateQuery_gate :
  Pooled.handleUpdateQuery config dbPool wall request w =
    if ReadOnly config then Pooled.handleError "server is in read-only mode" w
    else (do start <- Pooled.time_Now wall ;;
          defer (Pooled.updateMetrics wall start)
            (Pooled.handleError
               "UPDATE queries must include a WHERE clause. Use force=true to override")) w.
Proof.
  unfold Pooled.handleUpdateQuery. cbv zeta. fold query.
  rewrite force_unset, no_where. by destruct (ReadOnly config).
Qed.

Lemma handleDeleteQuery_gate :
  Pooled.handleDeleteQuery config dbPool wall request w =
    if ReadOnly config then Pooled.handleError "server is in read-only mode" w
    else (do start <- Pooled.time_Now wall ;;
          defer (Pooled.updateMetrics wall start)
            (Pooled.handleError
               "DELETE queries must include a WHERE clause. Use force=true to override")) w.
Proof.
  unfold Pooled.handleDeleteQuery. cbv zeta. fold query.
  rewrite force_unset, no_where. by destruct (ReadOnly config).
Qed.

Lemma HandleUpdateQuery_gate :
  Handlers.HandleUpdateQuery config dbPool wall request w =
    if ReadOnly config then Pooled.handleError "server is in read-only mode" w
    else (do start <- Pooled.time_Now wall ;;
          defer (Pooled.updateMetrics wall start)
            (Pooled.handleError
               (if String.eqb query "" then "query parameter is required"
                else "UPDATE queries must include a WHERE clause. Use force=true to override"))) w.
Proof.
  unfold Handlers.HandleUpdateQuery. cbv zeta. fold query.
  rewrite force_unset, no_where.
  destruct (ReadOnly config); [reflexivity|].
  destruct (String.eqb query ""); reflexivity.
Qed.

Lemma HandleDeleteQuery_gate :
  Handlers.HandleDeleteQuery config dbPool wall request w =
    if ReadOnly config then Pooled.handleError "server is in read-only mode" w
    else (do start <- Pooled.time_Now wall ;;
          defer (Pooled.updateMetrics wall start)
            (Pooled.handleError
               (if String.eqb query "" then "query parameter is required"
                else "DELETE queries must include a WHERE clause. Use force=true to override"))) w.
Proof.
  unfold Handlers.HandleDeleteQuery. cbv zeta. fold query.
  rewrite force_unset, no_where.
  destruct (ReadOnly config); [reflexivity|].
  destruct (String.eqb query ""); reflexivity.
Qed.

End WhereGate.

(** C2: an update_query or delete_query request without WHERE (case
    folded) and without the force flag is answered with an error, sends
    nothing to the database, increments query_errors and leaves
    queries_executed as it was, in the monolithic server and in [Handlers]
    alike. *)
Theorem where_gate_rejects_without_database `{Unicode}
    (config : Config) (dbPool : Pool) (wall : nat → Z)
    (request : CallToolRequest) (w : World) :
  getBoolParam request "force" false = false →
  Contains (ToUpper (getStringParam request "query" "")) "WHERE" = false →
  rejected_without_database w (Pooled.handleUpdateQuery config dbPool wall request w) ∧
  rejected_without_database w (Pooled.handleDeleteQuery config dbPool wall request w) ∧
  rejected_without_database w (Handlers.HandleUpdateQuery config dbPool wall request w) ∧
  rejected_without_database w (Handlers.HandleDeleteQuery config dbPool wall request w).
Proof.
  intros Hforce Hwhere.
  rewrite handleUpdateQuery_gate, handleDeleteQuery_gate,
    HandleUpdateQuery_gate, HandleDeleteQuery_gate by assumption.
  destruct (ReadOnly config);
    repeat split; apply error_is_rejection || apply timed_error_is_rejection.
Qed.

Lemma where_gate_witness :
  rejected_without_database fresh
    (Pooled.handleUpdateQuery (sample_config false) sample_pool sample_wall
       no_where_request fresh) ∧
  rejected_without_database fresh
    (Handlers.HandleDeleteQuery (sample_config false) sample_pool sample_wall
       no_where_request fresh).
Proof.
  assert (Hforce : getBoolParam no_where_request "force" false = false) by reflexivity.
  assert (Hwhere : Contains (ToUpper (getStringParam no_where_request "query" ""))
                     "WHERE" = false) by reflexivity.
  pose proof (where_gate_rejects_without_database (sample_config false) sample_pool
                sample_wall no_where_request fresh Hforce Hwhere) as (Hu & _ & _ & Hd).
  exact (conj Hu Hd).
Defined.

(** C3 (amended): a request stopped by the WHERE gate leaves
    queries_executed and the statements sent untouched and counts one error,
    but the deferred [updateMetrics] still adds the time the handler took
    to the cumulative response time. *)
Theorem where_gate_adds_handler_time `{Unicode}
    (config : Config) (dbPool : Pool) (wall : nat → Z)
    (request : CallToolRequest) (w : World) :
  ReadOnly config = false →
  getBoolParam request "force" false = false →
  Contains (ToUpper (getStringParam request "query" "")) "WHERE" = false →
  (Pooled.handleUpdateQuery config dbPool wall request w =
     (Returned (NewToolResultText
        "Error: UPDATE queries must include a WHERE clause. Use force=true to override"),
      after_timed_error wall
        "UPDATE queries must include a WHERE clause. Use force=true to override" w) ∧
   Pooled.handleDeleteQuery config dbPool wall request w =
     (Returned (NewToolResultText
        "Error: DELETE queries must include a WHERE clause. Use force=true to override"),
      after_timed_error wall
        "DELETE queries must include a WHERE clause. Use force=true to override" w)) ∧
  (getStringParam request "query" "" ≠ "" →
   Handlers.HandleUpdateQuery config dbPool wall request w =
     (Returned (NewToolResultText
        "Error: UPDATE queries must include a WHERE clause. Use force=true to override"),
      after_timed_error wall
        "UPDATE queries must include a WHERE clause. Use force=true to override" w) ∧
   Handlers.HandleDeleteQuery config dbPool wall request w =
     (Returned (NewToolResultText
        "Error: DELETE queries must include a WHERE clause. Use force=true to override"),
      after_timed_error wall
        "DELETE queries must include a WHERE clause. Use force=true to override" w)) ∧
  (∀ err,
     TotalResponseTime (metrics (after_timed_error wall err w)) =
       int64_wrap (TotalResponseTime (metrics w) + handler_elapsed wall w) ∧
     QueriesExecuted (metrics (after_timed_error wall err w)) = QueriesExecuted (metrics w) ∧
     QueryErrors (metrics (after_timed_error wall err w)) =
       int64_wrap (QueryErrors (metrics w) + 1) ∧
     issued (after_timed_error wall err w) = issued w).
Proof.
  intros Hro Hforce Hwhere.
  rewrite handleUpdateQuery_gate, handleDeleteQuery_gate,
    HandleUpdateQuery_gate, HandleDeleteQuery_gate by assumption.
  rewrite Hro. split; [|split].
  - by rewrite !timed_error_run.
  - intros Hquery. apply String.eqb_neq in Hquery. rewrite Hquery.
    by rewrite !timed_error_run.
  - intros err. repeat split.
Qed.

Lemma where_gate_adds_handler_time_witness :
  Pooled.handleUpdateQuery (sample_config false) sample_pool sample_wall
      no_where_request fresh =
    (Returned (NewToolResultText
       "Error: UPDATE queries must include a WHERE clause. Use force=true to override"),
     after_timed_error sample_wall
       "UPDATE queries must include a WHERE clause. Use force=true to override" fresh).
Proof.
  refine (proj1 (proj1 (where_gate_adds_handler_time (sample_config false) sample_pool
            sample_wall no_where_request fresh _ _ _))); reflexivity.
Defined.

(** C3, as stated, fails: the request of scenario B is refused by the WHERE
    gate, nothing is sent and no query is counted, yet the cumulative
    response time goes from 0 to the 1500ns the handler took. *)
Lemma where_gate_rejection_moves_accumulator :
  (Pooled.handleUpdateQuery (sample_config false) sample_pool sample_wall
     no_where_request fresh).1 =
    Returned (NewToolResultText
      "Error: UPDATE queries must include a WHERE clause. Use force=true to override") ∧
  issued (Pooled.handleUpdateQuery (sample_config false) sample_pool sample_wall
            no_where_request fresh).2 = [] ∧
  TotalResponseTime (metrics fresh) = 0 ∧
  TotalResponseTime (metrics (Pooled.handleUpdateQuery (sample_config false) sample_pool
                                sample_wall no_where_request fresh).2) = 1500 ∧
  TotalResponseTime (metrics (Handlers.HandleUpdateQuery (sample_config false) sample_pool
                                sample_wall no_where_request fresh).2) = 1500.
Proof. vm_compute. repeat split. Qed.

(** ** The read path *)

(** Which statements a computation adds to those already sent. *)
Lemma bind_issued {A B : Type} (m : Go World A) (k : A → Go World B) (w : World) :
  (∀ a w', issued (k a w').2 = issued w') →
  issued (bind m k w).2 = issued (m w).2.
Proof.
  intros Hk. unfold bind. destruct (m w) as [[a|reason] w']; simpl; [apply Hk | done].
Qed.

Lemma defer_issued {A : Type} (deferred : Go World unit) (body : Go World A) (w : World) :
  (∀ w', issued (deferred w').2 = issued w') →
  issued (defer deferred body w).2 = issued (body w).2.
Proof.
  intros Hd. unfold defer. destruct (body w) as [r w1]. specialize (Hd w1).
  destruct (deferred w1) as [[[]|reason] w2]; simpl in *; done.
Qed.

Lemma updateMetrics_issued (wall : nat → Z) (start : Z) (w : World) :
  issued (Pooled.updateMetrics wall start w).2 = issued w.
Proof. reflexivity. Qed.

Lemma handleError_issued (err : error) (w : World) :
  issued (Pooled.handleError err w).2 = issued w.
Proof. reflexivity. Qed.

Lemma executeQuery_issued (dbPool : Pool) (wall : nat → Z) (query : string) (w : World) :
  issued (Pooled.executeQuery dbPool wall query w).2 = issued w ++ [Queried query].
Proof.
  unfold Pooled.executeQuery, Pooled.dbPool_Query, Pooled.lift, bind, gets; simpl.
  destruct (Query dbPool (issued w) query) as [err|fields records]; simpl; [done|].
  destruct (Pooled.scan_rows fields records []) as [[result|err]|reason]; done.
Qed.

Lemma limit_param (request : CallToolRequest) :
  int_of_float64 (getNumberParam request "limit" 1000%float) = requested_limit request.
Proof.
  unfold getNumberParam, requested_limit.
  destruct (Params_Arguments request !! "limit") as [[]|]; reflexivity.
Qed.

Lemma begins_with_read_only `{Unicode} (query : string) :
  begins_with ["SELECT"; "WITH"; "EXPLAIN"] query = Pooled.isReadOnlyQuery query.
Proof.
  unfold begins_with, Pooled.isReadOnlyQuery. simpl.
  by destruct (HasPrefix _ "SELECT"), (HasPrefix _ "WITH"), (HasPrefix _ "EXPLAIN").
Qed.

Lemma empty_is_not_read_only `{Unicode} : Pooled.isReadOnlyQuery "" = false.
Proof.
  unfold Pooled.isReadOnlyQuery. by rewrite TrimSpace_empty, ToUpper_empty.
Qed.

Lemma time_Now_bind {A : Type} (wall : nat → Z) (k : Z → Go World A) (w : World) :
  bind (Pooled.time_Now wall) k w = k (wall (clock_reads w)) (tick w).
Proof. reflexivity. Qed.

Section ReadPath.
Context `{Unicode}.
Variables (config : Config) (dbPool : Pool) (wall : nat → Z).
Variables (json_result : QueryResult → string).
Variables (request : CallToolRequest) (w : World).

Local Abbreviation query := (getStringParam request "query" "").

Lemma handleReadQuery_accepts :
  Pooled.isReadOnlyQuery query = true →
  issued (Pooled.handleReadQuery dbPool wall json_result request w).2 =
    issued w ++ [Queried (with_row_limit request query)].
Proof.
  intros Hro.
  assert (Hne : String.eqb query "" = false).
  { destruct (String.eqb_spec query "") as [Heq|]; [|done].
    rewrite Heq, empty_is_not_read_only in Hro. discriminate. }
  unfold Pooled.handleReadQuery. cbv zeta. fold query.
  rewrite Hne, Hro, limit_param. cbn [negb].
  rewrite time_Now_bind, defer_issued by apply updateMetrics_issued.
  rewrite bind_issued.
  - rewrite executeQuery_issued. unfold with_row_limit. simpl.
    by destruct (Contains (ToUpper query) "LIMIT").
  - intros [result|err] w'; [|apply handleError_issued].
    by destruct (getBoolParam request "format_json" false).
Qed.

Lemma HandleReadQuery_accepts :
  Pooled.isReadOnlyQuery query = true →
  issued (Handlers.HandleReadQuery dbPool wall json_result request w).2 =
    issued w ++ [Queried (with_row_limit request query)].
Proof.
  intros Hro.
  assert (Hne : String.eqb query "" = false).
  { destruct (String.eqb_spec query "") as [Heq|]; [|done].
    rewrite Heq, empty_is_not_read_only in Hro. discriminate. }
  unfold Handlers.HandleReadQuery, Handlers.isReadOnlyQuery, Handlers.time_Now,
    Handlers.updateMetrics, Handlers.executeQuery, Handlers.handleError. cbv zeta. fold query.
  rewrite Hne, Hro, limit_param. cbn [negb].
  rewrite time_Now_bind, defer_issued by apply updateMetrics_issued.
  rewrite bind_issued.
  - rewrite executeQuery_issued. unfold with_row_limit. simpl.
    by destruct (Contains (ToUpper query) "LIMIT").
  - intros [result|err] w'; [|apply handleError_issued].
    by destruct (getBoolParam request "format_json" false).
Qed.

Lemma handleReadQuery_rejects :
  Pooled.isReadOnlyQuery query = false →
  Pooled.handleReadQuery dbPool wall json_result request w =
    (do start <- Pooled.time_Now wall ;;
     defer (Pooled.updateMetrics wall start)
       (Pooled.handleError
          (if String.eqb query "" then "query parameter is required"
           else "only SELECT queries are allowed"))) w.
Proof.
  intros Hro. unfold Pooled.handleReadQuery. cbv zeta. fold query. rewrite Hro.
  by destruct (String.eqb query "").
Qed.

Lemma HandleReadQuery_rejects :
  Pooled.isReadOnlyQuery query = false →
  Handlers.HandleReadQuery dbPool wall json_result request w =
    (do start <- Pooled.time_Now wall ;;
     defer (Pooled.updateMetrics wall start)
       (Pooled.handleError
          (if String.eqb query "" then "query parameter is required"
           else "only SELECT queries are allowed in read_query"))) w.
Proof.
  intros Hro.
  unfold Handlers.HandleReadQuery, Handlers.isReadOnlyQuery. cbv zeta. fold query.
  rewrite Hro. by destruct (String.eqb query "").
Qed.

End ReadPath.

Lemma readQueryTool_gate `{Unicode} DSN WithExplainCheck driver request s :
  let query := getStringParam request "query" "" in
  if begins_with ["SELECT"; "WITH"] query then
    Sqlx.readQueryTool DSN WithExplainCheck driver request s =
      (do r <- Sqlx.HandleQuery DSN WithExplainCheck driver
                 (sqlx_statement request query) Sqlx.StatementTypeSelect ;;
       ret (Sqlx.tool_reply r)) s
  else
    Sqlx.readQueryTool DSN WithExplainCheck driver request s =
      (Returned (NewToolResultText "Error: Only SELECT queries are allowed"), s).
Proof.
  intros query. unfold begins_with, Sqlx.readQueryTool, sqlx_statement. cbv zeta.
  fold query. rewrite limit_param. simpl.
  destruct (HasPrefix _ "SELECT"), (HasPrefix _ "WITH"); simpl;
    try reflexivity; by destruct (Contains _ "LIMIT").
Qed.

(** C1 (amended): the pooled servers ([handleReadQuery],
    [Handlers.HandleReadQuery]) let a read_query statement through to the
    executor exactly when its trimmed, case-folded text begins with SELECT,
    WITH or EXPLAIN; the sqlx server's read_query closure lets it through
    exactly when that text begins with SELECT or WITH.  Every other statement
    is answered with an error before anything is sent to the database. *)
Theorem read_query_gate `{Unicode}
    (dbPool : Pool) (wall : nat → Z) (json_result : QueryResult → string)
    (DSN : string) (WithExplainCheck : bool) (driver : Sqlx.Driver)
    (request : CallToolRequest) (w : World) (s : Sqlx.State) :
  let query := getStringParam request "query" "" in
  (if begins_with ["SELECT"; "WITH"; "EXPLAIN"] query then
     issued (Pooled.handleReadQuery dbPool wall json_result request w).2 =
       issued w ++ [Queried (with_row_limit request query)] ∧
     issued (Handlers.HandleReadQuery dbPool wall json_result request w).2 =
       issued w ++ [Queried (with_row_limit request query)]
   else
     rejected_without_database w
       (Pooled.handleReadQuery dbPool wall json_result request w) ∧
     rejected_without_database w
       (Handlers.HandleReadQuery dbPool wall json_result request w)) ∧
  (if begins_with ["SELECT"; "WITH"] query then
     Sqlx.readQueryTool DSN WithExplainCheck driver request s =
       (do r <- Sqlx.HandleQuery DSN WithExplainCheck driver
                  (sqlx_statement request query) Sqlx.StatementTypeSelect ;;
        ret (Sqlx.tool_reply r)) s
   else
     Sqlx.readQueryTool DSN WithExplainCheck driver request s =
       (Returned (NewToolResultText "Error: Only SELECT queries are allowed"), s)).
Proof.
  intros query. split; [|apply readQueryTool_gate].
  rewrite begins_with_read_only.
  destruct (Pooled.isReadOnlyQuery query) eqn:Hro.
  - split; [by apply handleReadQuery_accepts | by apply HandleReadQuery_accepts].
  - rewrite handleReadQuery_rejects, HandleReadQuery_rejects by exact Hro.
    split; apply timed_error_is_rejection.
Qed.

(** C1, as stated, fails in the sqlx server: the text begins with EXPLAIN,
    and the read_query closure answers with its validation error, sending
    nothing; the pooled handler lets the same request through. *)
Lemma sqlx_read_query_refuses_explain :
  begins_with ["SELECT"; "WITH"; "EXPLAIN"] "EXPLAIN SELECT 1" = true ∧
  Sqlx.readQueryTool sample_dsn false sample_driver explain_request sqlx_fresh =
    (Returned (NewToolResultText "Error: Only SELECT queries are allowed"), sqlx_fresh) ∧
  issued (Pooled.handleReadQuery sample_pool sample_wall sample_json_result
            explain_request fresh).2 = [Queried "EXPLAIN SELECT 1 LIMIT 1000"].
Proof. vm_compute. repeat split. Qed.

(** C6: once a read_query statement is let through, the statement sent to
    the executor is the text itself when its upper-cased form contains
    LIMIT, and the text followed by " LIMIT n" otherwise, n being the
    caller's limit (cut to an integer) or 1000 when the request has no
    number under "limit". *)
Theorem read_query_row_limit `{Unicode}
    (dbPool : Pool) (wall : nat → Z) (json_result : QueryResult → string)
    (request : CallToolRequest) (w : World) :
  let query := getStringParam request "query" "" in
  let statement :=
    if Contains (ToUpper query) "LIMIT" then query
    else query +:+ " LIMIT " +:+ Itoa (requested_limit request) in
  Pooled.isReadOnlyQuery query = true →
  issued (Pooled.handleReadQuery dbPool wall json_result request w).2 =
    issued w ++ [Queried statement] ∧
  issued (Handlers.HandleReadQuery dbPool wall json_result request w).2 =
    issued w ++ [Queried statement] ∧
  (dynamic_type <$> Params_Arguments request !! "limit" ≠ Some KNumber →
   requested_limit request = 1000).
Proof.
  intros query statement Hro. split; [|split].
  - by apply handleReadQuery_accepts.
  - by apply HandleReadQuery_accepts.
  - unfold requested_limit.
    destruct (Params_Arguments request !! "limit") as [[]|]; simpl; congruence.
Qed.

Lemma read_query_row_limit_witness :
  issued (Pooled.handleReadQuery sample_pool sample_wall sample_json_result
            limited_request fresh).2 = [Queried "select * from users LIMIT 25"] ∧
  issued (Handlers.HandleReadQuery sample_pool sample_wall sample_json_result
            unlimited_request fresh).2 = [Queried "select * from users LIMIT 1000"] ∧
  issued (Pooled.handleReadQuery sample_pool sample_wall sample_json_result
            own_limit_request fresh).2 = [Queried "SELECT * FROM users limit 5"].
Proof.
  split; [|split].
  - refine (proj1 (read_query_row_limit sample_pool sample_wall sample_json_result
                     limited_request fresh _)). reflexivity.
  - refine (proj1 (proj2 (read_query_row_limit sample_pool sample_wall sample_json_result
                     unlimited_request fresh _))). reflexivity.
  - refine (proj1 (read_query_row_limit sample_pool sample_wall sample_json_result
                     own_limit_request fresh _)). reflexivity.
Defined.

(** ** The shape of query results *)

Lemma fill_row_keys (cols : list string) (values : list Cell) :
  ∀ (i : nat) (row : gmap string Cell),
    (i + length values ≤ length cols)%nat →
    ∃ row', Pooled.fill_row cols i values row = Returned row' ∧
            dom row' = dom row ∪ list_to_set (take (length values) (drop i cols)).
Proof.
  induction values as [|value values IH]; intros i row Hlen; simpl in *.
  - exists row. split; [done | set_solver].
  - destruct (lookup_lt_is_Some_2 cols i) as [name Hname]; [lia|].
    rewrite Hname.
    destruct (IH (S i) (<[name := value]> row)) as (row' & Hrun & Hdom); [lia|].
    exists row'. split; [done|].
    rewrite Hdom, dom_insert_L, (drop_S cols name i Hname). simpl. set_solver.
Qed.

Lemma fill_row_all_keys (cols : list string) (values : list Cell) :
  length values = length cols →
  ∃ row, Pooled.fill_row cols 0 values ∅ = Returned row ∧
         dom row = (list_to_set cols : gset string).
Proof.
  intros Hlen.
  destruct (fill_row_keys cols values 0 ∅) as (row & Hrun & Hdom); [lia|].
  exists row. split; [done|].
  rewrite Hdom, Hlen, drop_0, firstn_all. set_solver.
Qed.

Lemma scan_rows_shape (cols : list string) (records : list (Fallible (list Cell))) :
  Forall (record_fits cols) records →
  ∀ result, rows_match_columns result cols →
    match Pooled.scan_rows cols records result with
    | Returned (Ok rows) =>
        rows_match_columns rows cols ∧
        length rows = (length result + length records)%nat
    | Returned (Err err) => Err err ∈ records
    | Panicked _ => False
    end.
Proof.
  induction 1 as [|record records Hfit _ IH]; intros result Hres; simpl.
  - split; [done | lia].
  - destruct record as [values|err]; [|left].
    destruct (fill_row_all_keys cols values Hfit) as (row & -> & Hdom).
    specialize (IH (result ++ [row])).
    destruct (Pooled.scan_rows cols records (result ++ [row])) as [[rows|err]|reason].
    + destruct IH as [Hrows Hlen].
      { apply Forall_app. split; [done | by apply Forall_singleton]. }
      split; [done|]. rewrite Hlen, length_app. simpl. lia.
    + right. apply IH. apply Forall_app. split; [done | by apply Forall_singleton].
    + apply IH. apply Forall_app. split; [done | by apply Forall_singleton].
Qed.

(** The sqlx loop walks the columns, so the keys are the columns whenever a
    record is produced at all. *)
Lemma sqlx_fill_row_keys (row : list Cell) (cols : list string) :
  ∀ (i : nat) (resultRow filled : gmap string Cell),
    Sqlx.fill_row cols i row resultRow = Returned filled →
    dom filled = dom resultRow ∪ list_to_set cols.
Proof.
  induction cols as [|col cols IH]; intros i resultRow filled; simpl.
  - intros [= <-]. set_solver.
  - destruct (row !! i) as [v|]; [|done].
    destruct v; intros Hrun; apply IH in Hrun; rewrite Hrun, dom_insert_L; set_solver.
Qed.

Lemma sqlx_scan_rows_shape (cols : list string) (records : list (Fallible (list Cell))) :
  ∀ result rows,
    rows_match_columns result cols →
    Sqlx.scan_rows cols records result = Returned (Ok rows) →
    rows_match_columns rows cols.
Proof.
  induction records as [|record records IH]; intros result rows Hres; simpl.
  - by intros [= <-].
  - destruct record as [row|err]; [|done].
    destruct (Sqlx.fill_row cols 0 row ∅) as [filled|reason] eqn:Hfill; [|done].
    apply IH. apply Forall_app. split; [done|]. apply Forall_singleton.
    rewrite (sqlx_fill_row_keys _ _ _ _ _ Hfill). set_solver.
Qed.

Lemma executeQuery_shape (dbPool : Pool) (wall : nat → Z) (query : string) (w : World) :
  pool_fits dbPool →
  match (Pooled.executeQuery dbPool wall query w).1 with
  | Returned (Ok result) =>
      result_invariant result ∧
      ∃ records, Query dbPool (issued w) query = QueryRows (Columns result) records ∧
                 length (Rows result) = length records
  | Returned (Err err) =>
      Query dbPool (issued w) query = QueryFailed err ∨
      ∃ fields records, Query dbPool (issued w) query = QueryRows fields records ∧
                        Err err ∈ records
  | Panicked _ => False
  end.
Proof.
  intros Hfits.
  unfold Pooled.executeQuery, Pooled.dbPool_Query, Pooled.lift, bind, gets; simpl.
  destruct (Query dbPool (issued w) query) as [err|fields records] eqn:Hreply; simpl.
  { by left. }
  pose proof (scan_rows_shape fields records (Hfits _ _ _ _ Hreply) [] (Forall_nil_2 _))
    as Hscan.
  destruct (Pooled.scan_rows fields records []) as [[rows|err]|reason]; simpl.
  - destruct Hscan as [Hrows Hlen]. split; [by split|]. by exists records.
  - right. by exists fields, records.
  - done.
Qed.

Lemma DoQuery_shape (DSN : string) (WithExplainCheck : bool) (driver : Sqlx.Driver)
    (query expect : string) (s : Sqlx.State) :
  match (Sqlx.DoQuery DSN WithExplainCheck driver query expect s).1 with
  | Returned (Ok (result, cols)) => rows_match_columns result cols
  | _ => True
  end.
Proof.
  unfold Sqlx.DoQuery, bind.
  destruct (Sqlx.GetDB DSN driver s) as [[[[]|err]|reason] s1]; simpl; try done.
  destruct (Sqlx.explain_gate DSN WithExplainCheck driver query expect s1)
    as [[[err|]|reason] s2]; simpl; try done.
  unfold Sqlx.db_Queryx, Sqlx.lift, bind, gets; simpl.
  destruct (Sqlx.Queryx driver (Sqlx.sent s2) query) as [err|[cols|err] records];
    simpl; try done.
  destruct (Sqlx.scan_rows cols records []) as [[rows|err]|reason] eqn:Hscan;
    simpl; try done.
  apply (sqlx_scan_rows_shape cols records [] rows); [apply Forall_nil_2 | exact Hscan].
Qed.

(** C9: a [QueryResult] built by [executeQuery] from a reply that carries
    one value per field in every record has exactly the columns as the key
    set of every row, its count is the number of its rows, and those are the
    records the database answered; under that contract of the driver
    [executeQuery] never panics.  The rows and the columns [DoQuery] returns
    are related in the same way. *)
Theorem query_results_are_well_shaped :
  (∀ (dbPool : Pool) (wall : nat → Z) (query : string) (w : World),
     pool_fits dbPool →
     match (Pooled.executeQuery dbPool wall query w).1 with
     | Returned (Ok result) =>
         rows_match_columns (Rows result) (Columns result) ∧
         Count result = Z.of_nat (length (Rows result)) ∧
         ∃ records, Query dbPool (issued w) query = QueryRows (Columns result) records ∧
                    length (Rows result) = length records
     | Returned (Err err) => True
     | Panicked _ => False
     end) ∧
  (∀ (DSN : string) (WithExplainCheck : bool) (driver : Sqlx.Driver)
     (query expect : string) (s : Sqlx.State),
     match (Sqlx.DoQuery DSN WithExplainCheck driver query expect s).1 with
     | Returned (Ok (result, cols)) => rows_match_columns result cols
     | _ => True
     end).
Proof.
  split; [|apply DoQuery_shape].
  intros dbPool wall query w Hfits.
  pose proof (executeQuery_shape dbPool wall query w Hfits) as Hshape.
  destruct (Pooled.executeQuery dbPool wall query w).1 as [[result|err]|reason]; [|done..].
  destruct Hshape as [[Hrows Hcount] Hrecords]. done.
Qed.

Lemma sample_pool_fits : pool_fits sample_pool.
Proof.
  intros history sql fields records [= <- <-].
  repeat constructor.
Qed.

Lemma query_results_witness :
  match (Pooled.executeQuery sample_pool sample_wall "SELECT id, name FROM users" fresh).1 with
  | Returned (Ok result) =>
      rows_match_columns (Rows result) (Columns result) ∧
      Count result = Z.of_nat (length (Rows result)) ∧
      ∃ records, Query sample_pool (issued fresh) "SELECT id, name FROM users" =
                   QueryRows (Columns result) records ∧
                 length (Rows result) = length records
  | Returned (Err err) => True
  | Panicked _ => False
  end.
Proof.
  exact (proj1 query_results_are_well_shaped sample_pool sample_wall
           "SELECT id, name FROM users" fresh sample_pool_fits).
Defined.

Lemma executeQuery_sample :
  (Pooled.executeQuery sample_pool sample_wall "SELECT id, name FROM users" fresh).1 =
    Returned (Ok {| Rows := [ {[ "id" := CInt 1; "name" := CString "ada" ]};
                              {[ "id" := CInt 2; "name" := CNil ]} ];
                    Columns := ["id"; "name"];
                    Count := 2;
                    Timing := String "049" (String "046" (String "053"
                                (String "194" (String "181" "s")))) |}).
Proof. vm_compute. reflexivity. Qed.

(** ** The plan-validation gate *)

Lemma GetDB_connects (DSN : string) (driver : Sqlx.Driver) (s : Sqlx.State) :
  Sqlx.DB s = true ∨ Sqlx.Connect driver DSN = None →
  Sqlx.GetDB DSN driver s = (Returned (Ok tt), connected s).
Proof.
  unfold Sqlx.GetDB, connected, bind, gets. destruct s as [[] sent]; simpl.
  - done.
  - intros [[=] | ->]. done.
Qed.

Lemma explain_gate_run (DSN : string) (driver : Sqlx.Driver) (query expect : string)
    (s : Sqlx.State) :
  (0 < String.length expect)%nat →
  Sqlx.explain_gate DSN true driver query expect (connected s) =
    (Returned
       match Sqlx.Queryx driver (Sqlx.sent s) ("EXPLAIN " +:+ query) with
       | Sqlx.QueryxFailed err => Some err
       | Sqlx.QueryxRows _ _ => None
       end,
     {| Sqlx.DB := true;
        Sqlx.sent := Sqlx.sent s ++ [Queried ("EXPLAIN " +:+ query)] |}).
Proof.
  intros Hexpect. apply Nat.ltb_lt in Hexpect.
  unfold Sqlx.explain_gate, Sqlx.HandleExplain. rewrite Hexpect. simpl.
  unfold bind. rewrite GetDB_connects by (by left).
  unfold Sqlx.db_Queryx, bind, gets. simpl.
  by destruct (Sqlx.Queryx driver (Sqlx.sent s) ("EXPLAIN " +:+ query)).
Qed.

Lemma explain_gate_effect
    (DSN : string) (driver : Sqlx.Driver) (query expect : string) (s : Sqlx.State) :
  (0 < String.length expect)%nat →
  Sqlx.DB s = true ∨ Sqlx.Connect driver DSN = None →
  match Sqlx.Queryx driver (Sqlx.sent s) ("EXPLAIN " +:+ query) with
  | Sqlx.QueryxFailed err =>
      Sqlx.DoQuery DSN true driver query expect s =
        (Returned (Err err),
         {| Sqlx.DB := true;
            Sqlx.sent := Sqlx.sent s ++ [Queried ("EXPLAIN " +:+ query)] |}) ∧
      Sqlx.HandleExec DSN true driver query expect s =
        (Returned (Err err),
         {| Sqlx.DB := true;
            Sqlx.sent := Sqlx.sent s ++ [Queried ("EXPLAIN " +:+ query)] |})
  | Sqlx.QueryxRows _ _ =>
      Sqlx.sent (Sqlx.DoQuery DSN true driver query expect s).2 =
        Sqlx.sent s ++ [Queried ("EXPLAIN " +:+ query); Queried query] ∧
      Sqlx.sent (Sqlx.HandleExec DSN true driver query expect s).2 =
        Sqlx.sent s ++ [Queried ("EXPLAIN " +:+ query); Executed query]
  end.
Proof.
  intros Hexpect Hdb.
  unfold Sqlx.DoQuery, Sqlx.HandleExec, bind.
  rewrite (GetDB_connects DSN driver s Hdb).
  rewrite (explain_gate_run DSN driver query expect s Hexpect).
  destruct (Sqlx.Queryx driver (Sqlx.sent s) ("EXPLAIN " +:+ query)) as [err|columns rows].
  - done.
  - unfold Sqlx.db_Queryx, Sqlx.db_Exec, Sqlx.lift, bind, gets. simpl.
    rewrite <- !app_assoc. simpl. split.
    + destruct (Sqlx.Queryx driver _ query) as [err|[cols|err] records]; simpl; try done.
      by destruct (Sqlx.scan_rows cols records []) as [[result|err]|reason].
    + by destruct (Sqlx.Execx driver _ query) as [err|[ra|err]].
Qed.

Lemma HandleQuery_sent `{Unicode} DSN WithExplainCheck driver query expect s :
  Sqlx.sent (Sqlx.HandleQuery DSN WithExplainCheck driver query expect s).2 =
    Sqlx.sent (Sqlx.DoQuery DSN WithExplainCheck driver query expect s).2.
Proof.
  unfold Sqlx.HandleQuery, bind.
  by destruct (Sqlx.DoQuery DSN WithExplainCheck driver query expect s)
    as [[[[result headers]|err]|reason] s'].
Qed.

(** C5: with the explain check switched on, a non-empty expected kind and a
    database handle at hand, "EXPLAIN <statement>" is the first statement
    [DoQuery] (hence [HandleQuery]) and [HandleExec] send.  If it fails, its
    error is what they return to the tool closure and nothing else is sent;
    if it succeeds, the statement itself follows. *)
Theorem explain_failure_stops_the_statement `{Unicode}
    (DSN : string) (driver : Sqlx.Driver) (query expect : string) (s : Sqlx.State) :
  (0 < String.length expect)%nat →
  Sqlx.DB s = true ∨ Sqlx.Connect driver DSN = None →
  match Sqlx.Queryx driver (Sqlx.sent s) ("EXPLAIN " +:+ query) with
  | Sqlx.QueryxFailed err =>
      Sqlx.DoQuery DSN true driver query expect s =
        (Returned (Err err),
         {| Sqlx.DB := true;
            Sqlx.sent := Sqlx.sent s ++ [Queried ("EXPLAIN " +:+ query)] |}) ∧
      Sqlx.HandleQuery DSN true driver query expect s =
        (Returned (Err err),
         {| Sqlx.DB := true;
            Sqlx.sent := Sqlx.sent s ++ [Queried ("EXPLAIN " +:+ query)] |}) ∧
      Sqlx.HandleExec DSN true driver query expect s =
        (Returned (Err err),
         {| Sqlx.DB := true;
            Sqlx.sent := Sqlx.sent s ++ [Queried ("EXPLAIN " +:+ query)] |})
  | Sqlx.QueryxRows _ _ =>
      Sqlx.sent (Sqlx.DoQuery DSN true driver query expect s).2 =
        Sqlx.sent s ++ [Queried ("EXPLAIN " +:+ query); Queried query] ∧
      Sqlx.sent (Sqlx.HandleQuery DSN true driver query expect s).2 =
        Sqlx.sent s ++ [Queried ("EXPLAIN " +:+ query); Queried query] ∧
      Sqlx.sent (Sqlx.HandleExec DSN true driver query expect s).2 =
        Sqlx.sent s ++ [Queried ("EXPLAIN " +:+ query); Executed query]
  end.
Proof.
  intros Hexpect Hdb.
  pose proof (explain_gate_effect DSN driver query expect s Hexpect Hdb) as Heffect.
  pose proof (HandleQuery_sent DSN true driver query expect s) as Hsent.
  destruct (Sqlx.Queryx driver (Sqlx.sent s) ("EXPLAIN " +:+ query)) as [err|columns rows].
  - destruct Heffect as [Hquery Hexec]. repeat split; try assumption.
    unfold Sqlx.HandleQuery, bind. by rewrite Hquery.
  - destruct Heffect as [Hquery Hexec]. repeat split; try assumption.
    by rewrite Hsent.
Qed.

Lemma explain_failure_witness :
  Sqlx.HandleQuery sample_dsn true sample_driver "SELEC 1" Sqlx.StatementTypeSelect sqlx_fresh =
    (Returned (Err "ERROR: syntax error at or near SELEC (SQLSTATE 42601)"),
     {| Sqlx.DB := true; Sqlx.sent := [Queried "EXPLAIN SELEC 1"] |}) ∧
  Sqlx.HandleExec sample_dsn true sample_driver "SELEC 1" Sqlx.StatementTypeUpdate sqlx_fresh =
    (Returned (Err "ERROR: syntax error at or near SELEC (SQLSTATE 42601)"),
     {| Sqlx.DB := true; Sqlx.sent := [Queried "EXPLAIN SELEC 1"] |}).
Proof.
  split.
  - refine (proj1 (proj2 (explain_failure_stops_the_statement sample_dsn sample_driver
              "SELEC 1" Sqlx.StatementTypeSelect sqlx_fresh _ _))).
    + vm_compute. lia.
    + by right.
  - refine (proj2 (proj2 (explain_failure_stops_the_statement sample_dsn sample_driver
              "SELEC 1" Sqlx.StatementTypeUpdate sqlx_fresh _ _))).
    + vm_compute. lia.
    + by right.
Defined.

(** ** Beyond the gates: statements that go through, statistics of a new server *)

Lemma executeWriteQuery_issued `{Unicode} (dbPool : Pool) (wall : nat → Z)
    (query : string) (returnID : bool) (w : World) :
  issued (Pooled.executeWriteQuery dbPool wall query returnID w).2 =
    issued w ++ [Executed query].
Proof.
  unfold Pooled.executeWriteQuery, Pooled.dbPool_Exec, bind, gets; simpl.
  by destruct (Exec dbPool (issued w) query).
Qed.

Lemma write_reply_issued (r : Fallible string) (w : World) :
  issued (Pooled.write_reply r w).2 = issued w.
Proof. by destruct r. Qed.

Lemma timed_write_issued `{Unicode} (dbPool : Pool) (wall : nat → Z) (query : string)
    (w : World) :
  issued ((do start <- Pooled.time_Now wall ;;
           defer (Pooled.updateMetrics wall start)
             (do r <- Pooled.executeWriteQuery dbPool wall query false ;;
              Pooled.write_reply r)) w).2 =
    issued w ++ [Executed query].
Proof.
  rewrite time_Now_bind, defer_issued by apply updateMetrics_issued.
  rewrite bind_issued by (intros; apply write_reply_issued).
  by rewrite executeWriteQuery_issued.
Qed.

(** X1: outside read-only mode, an update_query or delete_query request
    that carries force = true, or whose upper-cased text contains WHERE,
    reaches the executor: its statement is sent to the database as it is
    (in [Handlers], provided the text is not empty). *)
Theorem forced_or_where_reaches_executor `{Unicode}
    (config : Config) (dbPool : Pool) (wall : nat → Z)
    (request : CallToolRequest) (w : World) :
  ReadOnly config = false →
  getBoolParam request "force" false = true ∨
    Contains (ToUpper (getStringParam request "query" "")) "WHERE" = true →
  issued (Pooled.handleUpdateQuery config dbPool wall request w).2 =
    issued w ++ [Executed (getStringParam request "query" "")] ∧
  issued (Pooled.handleDeleteQuery config dbPool wall request w).2 =
    issued w ++ [Executed (getStringParam request "query" "")] ∧
  (getStringParam request "query" "" ≠ "" →
   issued (Handlers.HandleUpdateQuery config dbPool wall request w).2 =
     issued w ++ [Executed (getStringParam request "query" "")] ∧
   issued (Handlers.HandleDeleteQuery config dbPool wall request w).2 =
     issued w ++ [Executed (getStringParam request "query" "")]).
Proof.
  intros Hro Hpass.
  assert (Hgate : negb (getBoolParam request "force" false) &&
                  negb (Contains (ToUpper (getStringParam request "query" "")) "WHERE")
                  = false).
  { destruct Hpass as [-> | ->]; [done | apply andb_false_r]. }
  unfold Pooled.handleUpdateQuery, Pooled.handleDeleteQuery,
    Handlers.HandleUpdateQuery, Handlers.HandleDeleteQuery.
  cbv zeta. rewrite Hro, Hgate.
  split; [apply timed_write_issued | split; [apply timed_write_issued |]].
  intros Hquery. apply String.eqb_neq in Hquery. rewrite Hquery.
  split; apply timed_write_issued.
Qed.

Lemma forced_or_where_witness :
  issued (Pooled.handleDeleteQuery (sample_config false) sample_pool sample_wall
            forced_request fresh).2 = [Executed "DELETE FROM t WHERE id = 5"].
Proof.
  refine (proj1 (proj2 (forced_or_where_reaches_executor (sample_config false)
            sample_pool sample_wall forced_request fresh _ _))).
  - reflexivity.
  - by left.
Defined.

Lemma unencodable_stats_text (json_stats : gmap string StatValue → string)
    (stats : gmap string StatValue) (key : string) (value : StatValue) :
  stats !! key = Some value →
  stat_encodable value = false →
  Pooled.stats_text json_stats stats = "".
Proof.
  intros Hkey Hvalue. unfold Pooled.stats_text.
  destruct (forallb _ (map_to_list stats)) eqn:Hall; [|done].
  rewrite forallb_forall in Hall.
  specialize (Hall (key, value)). simpl in Hall. rewrite Hvalue in Hall.
  assert (true = false) as [=]. symmetry. apply Hall.
  apply list_elem_of_In. by apply elem_of_map_to_list.
Qed.

(** X2: the monolithic [handleGetStats] has no guard on the divisor: on a
    server that has executed no query and accumulated no time, the average
    is 0/0, a NaN, the JSON encoder refuses the map and the reply is the
    empty text. *)
Theorem handleGetStats_of_a_new_server
    (config : Config) (dbPool : Pool) (wall : nat → Z)
    (json_stats : gmap string StatValue → string)
    (request : CallToolRequest) (w : World) :
  QueriesExecuted (metrics w) = 0 →
  TotalResponseTime (metrics w) = 0 →
  PrimFloat.is_nan (average_ms (metrics w)) = true ∧
  (Pooled.handleGetStats config dbPool wall json_stats request w).1 =
    Returned (NewToolResultText "").
Proof.
  intros Hq Ht.
  assert (Hnan : PrimFloat.is_nan (average_ms (metrics w)) = true).
  { unfold average_ms. rewrite Hq, Ht. reflexivity. }
  split; [done|].
  rewrite handleGetStats_reply. do 2 f_equal.
  apply (unencodable_stats_text _ _ "avg_response_time_ms"
           (StatFloat (average_ms (metrics w)))).
  - apply handleGetStats_stats_average.
  - unfold average_ms. rewrite Hq, Ht. reflexivity.
Qed.

Lemma handleGetStats_new_server_witness :
  (Pooled.handleGetStats (sample_config false) sample_pool sample_wall sample_json_stats
     (request_of []) fresh).1 = Returned (NewToolResultText "").
Proof.
  refine (proj2 (handleGetStats_of_a_new_server (sample_config false) sample_pool
            sample_wall sample_json_stats (request_of []) fresh _ _)); reflexivity.
Defined.

(** ** Configuration defaults *)

Lemma initConfig_limits (config : Config) :
  ∃ config', PooledTools.initConfig (Ok config) = Ok config' ∧
    MaxConnections config' = (if MaxConnections config =? 0 then 100 else MaxConnections config) ∧
    QueryTimeout config' = (if QueryTimeout config =? 0 then 30 else QueryTimeout config) ∧
    CacheSize config' = (if CacheSize config =? 0 then 1000 else CacheSize config) ∧
    PoolMaxIdleTime config' =
      (if PoolMaxIdleTime config =? 0 then 300 else PoolMaxIdleTime config) ∧
    same_settings config config'.
Proof. eexists. split; [reflexivity|]. repeat split. Qed.

Lemma default_or_kept (v d : Z) : d ≠ 0 → (if v =? 0 then d else v) ≠ 0.
Proof. intros Hd. destruct (Z.eqb_spec v 0); done. Qed.

Lemma kept_when_set (v d : Z) : v ≠ 0 → (if v =? 0 then d else v) = v.
Proof. intros Hv. by destruct (Z.eqb_spec v 0). Qed.

Lemma initConfig_fixed_point (config : Config) :
  limits_set config → PooledTools.initConfig (Ok config) = Ok config.
Proof.
  intros (Hm & Hq & Hc & Hp). destruct config. simpl in *.
  by rewrite !kept_when_set.
Qed.

(** X3: whatever the configuration file holds, after [initConfig] none of
    max_connections, query_timeout, cache_size and pool_max_idle_time is
    zero: a zero becomes 100, 30, 1000 and 300 respectively, every other
    value (a negative one too) is kept, the remaining settings are not
    touched, and running [initConfig] on its own result changes nothing. *)
Theorem initConfig_fills_zero_limits (config : Config) :
  ∃ config',
    PooledTools.initConfig (Ok config) = Ok config' ∧
    limits_set config' ∧
    same_settings config config' ∧
    (MaxConnections config = 0 → MaxConnections config' = 100) ∧
    (QueryTimeout config = 0 → QueryTimeout config' = 30) ∧
    (CacheSize config = 0 → CacheSize config' = 1000) ∧
    (PoolMaxIdleTime config = 0 → PoolMaxIdleTime config' = 300) ∧
    (MaxConnections config ≠ 0 → MaxConnections config' = MaxConnections config) ∧
    (QueryTimeout config ≠ 0 → QueryTimeout config' = QueryTimeout config) ∧
    (CacheSize config ≠ 0 → CacheSize config' = CacheSize config) ∧
    (PoolMaxIdleTime config ≠ 0 → PoolMaxIdleTime config' = PoolMaxIdleTime config) ∧
    PooledTools.initConfig (Ok config') = Ok config'.
Proof.
  destruct (initConfig_limits config) as (config' & Hrun & Hm & Hq & Hc & Hp & Hsame).
  assert (Hset : limits_set config').
  { unfold limits_set. rewrite Hm, Hq, Hc, Hp. repeat split; by apply default_or_kept. }
  exists config'. split; [done|]. split; [done|]. split; [done|].
  rewrite Hm, Hq, Hc, Hp.
  repeat split;
    try (intros ->; reflexivity);
    try (intros Hv; by apply kept_when_set).
  by apply initConfig_fixed_point.
Qed.

(** A configuration that sets nothing comes out with the four defaults. *)
Lemma initConfig_blank :
  PooledTools.initConfig (Ok blank_config) =
    Ok {| DSN := ""; ReadOnly := false; ExplainCheck := false; Transport := "";
          Port := 0; IPAddress := ""; MaxConnections := 100; LogLevel := "";
          QueryTimeout := 30; EnableMetrics := false; CacheSize := 1000;
          PoolMaxIdleTime := 300 |}.
Proof. reflexivity. Qed.

(** ** What a statement leaves in the metrics *)

Lemma int64_wrap_small (z : Z) : MinInt64 ≤ z ≤ MaxInt64 → int64_wrap z = z.
Proof.
  unfold MinInt64, MaxInt64, int64_wrap. intros Hz.
  rewrite Z.mod_small by lia. lia.
Qed.

Lemma increments_small (n : nat) (z : Z) :
  MinInt64 ≤ z → z + Z.of_nat n ≤ MaxInt64 → increments n z = z + Z.of_nat n.
Proof.
  induction n as [|n IH]; intros Hlo Hhi; simpl increments.
  - lia.
  - rewrite IH by lia. rewrite int64_wrap_small by lia. lia.
Qed.

Lemma int64_saturate_mono (a b : Z) : a ≤ b → int64_saturate a ≤ int64_saturate b.
Proof.
  unfold int64_saturate, MinInt64, MaxInt64. intros Hab.
  repeat match goal with |- context [?x <? ?y] => destruct (Z.ltb_spec x y) end; lia.
Qed.

Lemma executeQuery_failed (dbPool : Pool) (wall : nat → Z) (query : string) (err : error)
    (w : World) :
  Query dbPool (issued w) query = QueryFailed err →
  Pooled.executeQuery dbPool wall query w =
    (Returned (Err err),
     {| metrics := count_error (metrics w);
        issued := issued w ++ [Queried query];
        clock_reads := S (clock_reads w);
        journal := journal w ++ [refusal_entry "Query execution failed" err query] |}).
Proof.
  intros Hquery.
  unfold Pooled.executeQuery, Pooled.dbPool_Query, bind, gets. simpl.
  rewrite Hquery. reflexivity.
Qed.

Lemma executeQuery_undecoded (dbPool : Pool) (wall : nat → Z) (query : string) (err : error)
    (fields : list string) (records : list (Fallible (list Cell))) (w : World) :
  Query dbPool (issued w) query = QueryRows fields records →
  Pooled.scan_rows fields records [] = Returned (Err err) →
  Pooled.executeQuery dbPool wall query w =
    (Returned (Err err),
     {| metrics := metrics w;
        issued := issued w ++ [Queried query];
        clock_reads := S (clock_reads w);
        journal := journal w |}).
Proof.
  intros Hquery Hscan.
  unfold Pooled.executeQuery, Pooled.dbPool_Query, Pooled.lift, bind, gets. simpl.
  rewrite Hquery. simpl. rewrite Hscan. reflexivity.
Qed.

Lemma executeWriteQuery_failed `{Unicode} (dbPool : Pool) (wall : nat → Z) (query : string)
    (returnID : bool) (err : error) (w : World) :
  Exec dbPool (issued w) query = ExecFailed err →
  Pooled.executeWriteQuery dbPool wall query returnID w =
    (Returned (Err err),
     {| metrics := count_error (metrics w);
        issued := issued w ++ [Executed query];
        clock_reads := S (clock_reads w);
        journal := journal w ++ [refusal_entry "Write query execution failed" err query] |}).
Proof.
  intros Hexec.
  unfold Pooled.executeWriteQuery, Pooled.dbPool_Exec, bind, gets. simpl.
  rewrite Hexec. reflexivity.
Qed.

Lemma executeWriteQuery_done `{Unicode} (dbPool : Pool) (wall : nat → Z) (query : string)
    (returnID : bool) (rowsAffected : Z) (w : World) :
  Exec dbPool (issued w) query = ExecDone rowsAffected →
  let timing := int64_saturate (wall (S (clock_reads w)) - wall (clock_reads w)) in
  Pooled.executeWriteQuery dbPool wall query returnID w =
    (Returned (Ok (if returnID && Contains (ToUpper query) "INSERT"
                   then write_report rowsAffected timing +:+ LF +:+
                        "Note: To get inserted IDs, use RETURNING clause in your INSERT statement"
                   else write_report rowsAffected timing)),
     {| metrics := add_response_time timing (count_query (metrics w));
        issued := issued w ++ [Executed query];
        clock_reads := S (S (clock_reads w));
        journal := journal w |}).
Proof.
  intros Hexec timing.
  unfold Pooled.executeWriteQuery, Pooled.dbPool_Exec, bind, gets. simpl.
  rewrite Hexec. reflexivity.
Qed.

Section Accounting.
Context `{Unicode}.
Variables (config : Config) (dbPool : Pool) (wall : nat → Z).
Variables (json_result : QueryResult → string).
Variables (request : CallToolRequest) (w : World).

Local Abbreviation query := (getStringParam request "query" "").

Lemma read_query_not_empty :
  Pooled.isReadOnlyQuery query = true → String.eqb query "" = false.
Proof.
  intros Hro. destruct (String.eqb_spec query "") as [Heq|]; [|done].
  rewrite Heq, empty_is_not_read_only in Hro. discriminate.
Qed.

(** A read_query request that passed the gate: the handler is the timed
    call of the executor on the limited statement. *)
Lemma handleReadQuery_passed :
  Pooled.isReadOnlyQuery query = true →
  Pooled.handleReadQuery dbPool wall json_result request w =
    (do start <- Pooled.time_Now wall ;;
     defer (Pooled.updateMetrics wall start)
       (do r <- Pooled.executeQuery dbPool wall (with_row_limit request query) ;;
        match r with
        | Err err => Pooled.handleError err
        | Ok result =>
            if getBoolParam request "format_json" false
            then ret (NewToolResultText (json_result result))
            else ret (NewToolResultText (Pooled.formatResult result))
        end)) w.
Proof.
  intros Hro. pose proof (read_query_not_empty Hro) as Hne.
  unfold Pooled.handleReadQuery, with_row_limit. cbv zeta. fold query.
  rewrite Hne, Hro, limit_param. cbn [negb].
  by destruct (Contains (ToUpper query) "LIMIT").
Qed.

Lemma HandleReadQuery_passed :
  Pooled.isReadOnlyQuery query = true →
  Handlers.HandleReadQuery dbPool wall json_result request w =
    Pooled.handleReadQuery dbPool wall json_result request w.
Proof.
  intros Hro. pose proof (read_query_not_empty Hro) as Hne.
  unfold Handlers.HandleReadQuery, Pooled.handleReadQuery, Handlers.isReadOnlyQuery.
  cbv zeta. fold query. rewrite Hne, Hro. reflexivity.
Qed.

Lemma handleReadQuery_refused (err : error) :
  Pooled.isReadOnlyQuery query = true →
  Query dbPool (issued w) (with_row_limit request query) = QueryFailed err →
  Pooled.handleReadQuery dbPool wall json_result request w =
    (Returned (NewToolResultText ("Error: " +:+ err)),
     {| metrics :=
          add_response_time
            (int64_saturate (wall (S (S (clock_reads w))) - wall (clock_reads w)))
            (count_error (count_error (metrics w)));
        issued := issued w ++ [Queried (with_row_limit request query)];
        clock_reads := S (S (S (clock_reads w)));
        journal := journal w ++
          [refusal_entry "Query execution failed" err (with_row_limit request query);
           tool_error_entry err] |}).
Proof.
  intros Hro Hquery. rewrite handleReadQuery_passed by done.
  rewrite time_Now_bind. unfold defer, bind.
  rewrite (executeQuery_failed dbPool wall _ err (tick w)) by exact Hquery.
  simpl. by rewrite <- app_assoc.
Qed.

Lemma handleReadQuery_undecoded (err : error) fields records :
  Pooled.isReadOnlyQuery query = true →
  Query dbPool (issued w) (with_row_limit request query) = QueryRows fields records →
  Pooled.scan_rows fields records [] = Returned (Err err) →
  Pooled.handleReadQuery dbPool wall json_result request w =
    (Returned (NewToolResultText ("Error: " +:+ err)),
     {| metrics :=
          add_response_time
            (int64_saturate (wall (S (S (clock_reads w))) - wall (clock_reads w)))
            (count_error (metrics w));
        issued := issued w ++ [Queried (with_row_limit request query)];
        clock_reads := S (S (S (clock_reads w)));
        journal := journal w ++ [tool_error_entry err] |}).
Proof.
  intros Hro Hquery Hscan. rewrite handleReadQuery_passed by done.
  rewrite time_Now_bind. unfold defer, bind.
  rewrite (executeQuery_undecoded dbPool wall _ err fields records (tick w))
    by assumption.
  reflexivity.
Qed.

(** The body shared by the mutating handlers once the gates are passed. *)
Lemma timed_write_refused (returnID : bool) (statement : string) (err : error) :
  Exec dbPool (issued w) statement = ExecFailed err →
  (do start <- Pooled.time_Now wall ;;
   defer (Pooled.updateMetrics wall start)
     (do r <- Pooled.executeWriteQuery dbPool wall statement returnID ;;
      Pooled.write_reply r)) w =
    (Returned (NewToolResultText ("Error: " +:+ err)),
     {| metrics :=
          add_response_time
            (int64_saturate (wall (S (S (clock_reads w))) - wall (clock_reads w)))
            (count_error (count_error (metrics w)));
        issued := issued w ++ [Executed statement];
        clock_reads := S (S (S (clock_reads w)));
        journal := journal w ++
          [refusal_entry "Write query execution failed" err statement;
           tool_error_entry err] |}).
Proof.
  intros Hexec. rewrite time_Now_bind. unfold defer, bind.
  rewrite (executeWriteQuery_failed dbPool wall _ returnID err (tick w)) by exact Hexec.
  simpl. by rewrite <- app_assoc.
Qed.

Lemma timed_write_done (returnID : bool) (statement : string) (rowsAffected : Z) :
  Exec dbPool (issued w) statement = ExecDone rowsAffected →
  (do start <- Pooled.time_Now wall ;;
   defer (Pooled.updateMetrics wall start)
     (do r <- Pooled.executeWriteQuery dbPool wall statement returnID ;;
      Pooled.write_reply r)) w =
    (Returned (NewToolResultText
       (if returnID && Contains (ToUpper statement) "INSERT"
        then write_report rowsAffected (statement_time wall w) +:+ LF +:+
             "Note: To get inserted IDs, use RETURNING clause in your INSERT statement"
        else write_report rowsAffected (statement_time wall w))),
     {| metrics :=
          add_response_time (write_handler_time wall w)
            (add_response_time (statement_time wall w) (count_query (metrics w)));
        issued := issued w ++ [Executed statement];
        clock_reads := S (S (S (S (clock_reads w))));
        journal := journal w |}).
Proof.
  intros Hexec. rewrite time_Now_bind. unfold defer, bind.
  rewrite (executeWriteQuery_done dbPool wall _ returnID rowsAffected (tick w))
    by exact Hexec.
  reflexivity.
Qed.

End Accounting.

(** X4: a statement the database refuses is counted twice in query_errors:
    once by the executor ([executeQuery], [executeWriteQuery]) and once more
    by [handleError] when the handler reports it; the journal gets both
    entries and no query is counted.  A record that fails to decode after
    the statement was accepted is counted once, by [handleError] alone.
    Shown for read_query in both pooled servers and for write_query and
    create_table of the monolithic one. *)
Theorem failed_statement_is_counted_twice `{Unicode}
    (config : Config) (dbPool : Pool) (wall : nat → Z)
    (json_result : QueryResult → string)
    (request : CallToolRequest) (w : World) (err : error) :
  let query := getStringParam request "query" "" in
  (Pooled.isReadOnlyQuery query = true →
   Query dbPool (issued w) (with_row_limit request query) = QueryFailed err →
   failure_counted 2 err w (Pooled.handleReadQuery dbPool wall json_result request w) ∧
   failure_counted 2 err w (Handlers.HandleReadQuery dbPool wall json_result request w) ∧
   journal (Pooled.handleReadQuery dbPool wall json_result request w).2 =
     journal w ++
       [refusal_entry "Query execution failed" err (with_row_limit request query);
        tool_error_entry err]) ∧
  (ReadOnly config = false →
   Exec dbPool (issued w) query = ExecFailed err →
   failure_counted 2 err w (Pooled.handleWriteQuery config dbPool wall request w) ∧
   failure_counted 2 err w (Pooled.handleCreateTable config dbPool wall request w) ∧
   journal (Pooled.handleWriteQuery config dbPool wall request w).2 =
     journal w ++
       [refusal_entry "Write query execution failed" err query; tool_error_entry err]) ∧
  (∀ fields records,
     Pooled.isReadOnlyQuery query = true →
     Query dbPool (issued w) (with_row_limit request query) = QueryRows fields records →
     Pooled.scan_rows fields records [] = Returned (Err err) →
     failure_counted 1 err w (Pooled.handleReadQuery dbPool wall json_result request w) ∧
     journal (Pooled.handleReadQuery dbPool wall json_result request w).2 =
       journal w ++ [tool_error_entry err]) ∧
  (MinInt64 ≤ QueryErrors (metrics w) → QueryErrors (metrics w) + 2 ≤ MaxInt64 →
   increments 2 (QueryErrors (metrics w)) = QueryErrors (metrics w) + 2).
Proof.
  intros query. split; [|split; [|split]].
  - intros Hro Hquery.
    rewrite (HandleReadQuery_passed dbPool wall json_result request w Hro).
    rewrite (handleReadQuery_refused dbPool wall json_result request w err Hro Hquery).
    repeat split.
  - intros Hmode Hexec.
    unfold Pooled.handleCreateTable, Pooled.handleDDL, Pooled.handleWriteQuery.
    cbv zeta. fold query. rewrite Hmode.
    rewrite !(timed_write_refused dbPool wall w _ query err Hexec).
    repeat split.
  - intros fields records Hro Hquery Hscan.
    rewrite (handleReadQuery_undecoded dbPool wall json_result request w err
               fields records Hro Hquery Hscan).
    repeat split.
  - intros Hlo Hhi. by apply (increments_small 2).
Qed.

Lemma failed_statement_witness :
  failure_counted 2 "ERROR: relation does not exist (SQLSTATE 42P01)" fresh
    (Pooled.handleReadQuery failing_pool sample_wall sample_json_result
       unlimited_request fresh) ∧
  failure_counted 2 "ERROR: relation does not exist (SQLSTATE 42P01)" fresh
    (Pooled.handleWriteQuery (sample_config false) failing_pool sample_wall
       insert_request fresh) ∧
  increments 2 (QueryErrors (metrics fresh)) = 2.
Proof.
  pose proof (failed_statement_is_counted_twice (sample_config false) failing_pool
                sample_wall sample_json_result unlimited_request fresh
                "ERROR: relation does not exist (SQLSTATE 42P01)") as (Hread & _ & _ & Hsum).
  pose proof (failed_statement_is_counted_twice (sample_config false) failing_pool
                sample_wall sample_json_result insert_request fresh
                "ERROR: relation does not exist (SQLSTATE 42P01)") as (_ & Hwrite & _).
  split; [|split].
  - exact (proj1 (Hread eq_refl eq_refl)).
  - exact (proj1 (Hwrite eq_refl eq_refl)).
  - apply Hsum; vm_compute; discriminate.
Defined.

(** X5: a write_query statement the database accepts is counted once in
    queries_executed and sent once, yet its time enters the cumulative
    response time twice: [executeWriteQuery] adds the statement's own time
    and the deferred [updateMetrics] adds the handler's time, which on a
    clock that does not run backwards contains the former.  The reply
    reports the rows affected and the statement's own time. *)
Theorem successful_write_accounting `{Unicode}
    (config : Config) (dbPool : Pool) (wall : nat → Z)
    (request : CallToolRequest) (w : World) (rowsAffected : Z) :
  ReadOnly config = false →
  Exec dbPool (issued w) (getStringParam request "query" "") = ExecDone rowsAffected →
  let query := getStringParam request "query" "" in
  let run := Pooled.handleWriteQuery config dbPool wall request w in
  run.1 = Returned (NewToolResultText
    (if getBoolParam request "return_id" false && Contains (ToUpper query) "INSERT"
     then write_report rowsAffected (statement_time wall w) +:+ LF +:+
          "Note: To get inserted IDs, use RETURNING clause in your INSERT statement"
     else write_report rowsAffected (statement_time wall w))) ∧
  QueriesExecuted (metrics run.2) = int64_wrap (QueriesExecuted (metrics w) + 1) ∧
  QueryErrors (metrics run.2) = QueryErrors (metrics w) ∧
  TotalResponseTime (metrics run.2) =
    int64_wrap (int64_wrap (TotalResponseTime (metrics w) + statement_time wall w)
                + write_handler_time wall w) ∧
  issued run.2 = issued w ++ [Executed query] ∧
  clock_reads run.2 = (4 + clock_reads w)%nat ∧
  ((∀ n, wall n ≤ wall (S n)) → statement_time wall w ≤ write_handler_time wall w) ∧
  (query ≠ "" → Handlers.HandleWriteQuery config dbPool wall request w = run).
Proof.
  intros Hmode Hexec query run.
  assert (Hrun : run = _) by
    (unfold run, Pooled.handleWriteQuery; cbv zeta; fold query; rewrite Hmode;
     apply (timed_write_done dbPool wall w _ query rowsAffected Hexec)).
  split; [by rewrite Hrun|]. split; [by rewrite Hrun|]. split; [by rewrite Hrun|].
  split; [by rewrite Hrun|]. split; [by rewrite Hrun|]. split; [by rewrite Hrun|].
  split.
  - intros Hclock. apply int64_saturate_mono.
    pose proof (Hclock (clock_reads w)). pose proof (Hclock (S (S (clock_reads w)))). lia.
  - intros Hquery. apply String.eqb_neq in Hquery.
    unfold run, Handlers.HandleWriteQuery, Pooled.handleWriteQuery.
    cbv zeta. fold query. rewrite Hmode, Hquery. reflexivity.
Qed.

Lemma successful_write_witness :
  (Pooled.handleWriteQuery (sample_config false) sample_pool sample_wall
     insert_request fresh).1 =
    Returned (NewToolResultText (write_report 1 1500)) ∧
  TotalResponseTime (metrics (Pooled.handleWriteQuery (sample_config false) sample_pool
                                sample_wall insert_request fresh).2) = 6000 ∧
  QueriesExecuted (metrics (Pooled.handleWriteQuery (sample_config false) sample_pool
                              sample_wall insert_request fresh).2) = 1.
Proof.
  pose proof (successful_write_accounting (sample_config false) sample_pool sample_wall
                insert_request fresh 1 eq_refl eq_refl) as (Hreply & Hcount & _ & Htime & _).
  split; [exact Hreply | split; [exact Htime | exact Hcount]].
Defined.

(** ** get_slow_queries and explain_query *)

Lemma slow_limit_param (request : CallToolRequest) :
  int_of_float64 (getNumberParam request "limit" 10%float) = slow_limit request.
Proof.
  unfold getNumberParam, slow_limit.
  destruct (Params_Arguments request !! "limit") as [[]|]; reflexivity.
Qed.

(** The body of [handleGetSlowQueries] and [HandleGetSlowQueries] around
    their statement. *)
Lemma slow_queries_run `{Unicode} (dbPool : Pool) (wall : nat → Z) (sql : string)
    (w : World) :
  let run :=
    (do start <- Pooled.time_Now wall ;;
     defer (Pooled.updateMetrics wall start)
       (do r <- Pooled.executeQuery dbPool wall sql ;;
        match r with
        | Err _ => ret (NewToolResultText slow_queries_unavailable)
        | Ok result => ret (NewToolResultText (Pooled.formatResult result))
        end)) w in
  issued run.2 = issued w ++ [Queried sql] ∧
  (∀ err, Query dbPool (issued w) sql = QueryFailed err →
     run.1 = Returned (NewToolResultText slow_queries_unavailable) ∧
     QueryErrors (metrics run.2) = int64_wrap (QueryErrors (metrics w) + 1) ∧
     journal run.2 = journal w ++ [refusal_entry "Query execution failed" err sql]).
Proof.
  intros run. split.
  - unfold run. rewrite time_Now_bind, defer_issued by apply updateMetrics_issued.
    rewrite bind_issued by (by intros [result|err] w').
    by rewrite executeQuery_issued.
  - intros err Hquery. unfold run. rewrite time_Now_bind. unfold defer, bind.
    rewrite (executeQuery_failed dbPool wall sql err (tick w)) by exact Hquery.
    repeat split.
Qed.

(** X6: get_slow_queries sends one fixed statement that ends in LIMIT n, n
    being the caller's limit cut to an integer (10 by default).  When the
    database refuses it, whatever the reason, the reply is the plain text
    "pg_stat_statements extension not available" instead of an error reply:
    [handleError] is not called, so the failure is counted once (by the
    executor) and the journal holds the real error. *)
Theorem slow_queries_failure_is_masked `{Unicode} (dbPool : Pool) (wall : nat → Z) :
  (∃ head : string, ∀ (request : CallToolRequest) (w : World),
     let sql := head +:+ Itoa (slow_limit request) in
     let run := PooledTools.handleGetSlowQueries dbPool wall request w in
     issued run.2 = issued w ++ [Queried sql] ∧
     (∀ err, Query dbPool (issued w) sql = QueryFailed err →
        run.1 = Returned (NewToolResultText slow_queries_unavailable) ∧
        QueryErrors (metrics run.2) = int64_wrap (QueryErrors (metrics w) + 1) ∧
        journal run.2 = journal w ++ [refusal_entry "Query execution failed" err sql])) ∧
  (∃ head : string, ∀ (request : CallToolRequest) (w : World),
     let sql := head +:+ Itoa (slow_limit request) in
     let run := HandlersTools.HandleGetSlowQueries dbPool wall request w in
     issued run.2 = issued w ++ [Queried sql] ∧
     (∀ err, Query dbPool (issued w) sql = QueryFailed err →
        run.1 = Returned (NewToolResultText slow_queries_unavailable) ∧
        QueryErrors (metrics run.2) = int64_wrap (QueryErrors (metrics w) + 1) ∧
        journal run.2 = journal w ++ [refusal_entry "Query execution failed" err sql])) ∧
  ¬ is_error_reply (Returned (NewToolResultText slow_queries_unavailable)).
Proof.
  split; [|split].
  - eexists. intros request w.
    unfold PooledTools.handleGetSlowQueries. cbv zeta. rewrite slow_limit_param.
    apply slow_queries_run.
  - eexists. intros request w.
    unfold HandlersTools.HandleGetSlowQueries. cbv zeta. rewrite slow_limit_param.
    apply slow_queries_run.
  - intros [reason [=]].
Qed.

(** The masked failure on a pool that refuses every statement. *)
Lemma slow_queries_on_failing_pool :
  (PooledTools.handleGetSlowQueries failing_pool sample_wall (request_of []) fresh).1 =
    Returned (NewToolResultText "pg_stat_statements extension not available") ∧
  QueryErrors (metrics (PooledTools.handleGetSlowQueries failing_pool sample_wall
                          (request_of []) fresh).2) = 1 ∧
  slow_limit (request_of [("limit", ArgNumber 2.5%float)]) = 2 ∧
  slow_limit (request_of [("limit", ArgString "2")]) = 10.
Proof. vm_compute. repeat split. Qed.

(** ** The sqlx server: connection and plan check *)

Lemma GetDB_fails (DSN : string) (driver : Sqlx.Driver) (s : Sqlx.State) (err : error) :
  Sqlx.DB s = false →
  Sqlx.Connect driver DSN = Some err →
  Sqlx.GetDB DSN driver s =
    (Returned (Err ("failed to establish database connection: " +:+ err)), s).
Proof.
  intros Hdb Hconnect. unfold Sqlx.GetDB, bind, gets. by rewrite Hdb, Hconnect.
Qed.

Lemma explain_gate_off (DSN : string) (WithExplainCheck : bool) (driver : Sqlx.Driver)
    (query expect : string) (s : Sqlx.State) :
  WithExplainCheck = false ∨ expect = "" →
  Sqlx.explain_gate DSN WithExplainCheck driver query expect s = (Returned None, s).
Proof.
  unfold Sqlx.explain_gate. intros [-> | ->]; [|done].
  by rewrite andb_false_r.
Qed.

Lemma DoQuery_unchecked (DSN : string) (WithExplainCheck : bool) (driver : Sqlx.Driver)
    (query expect : string) (s : Sqlx.State) :
  Sqlx.DB s = true ∨ Sqlx.Connect driver DSN = None →
  WithExplainCheck = false ∨ expect = "" →
  (Sqlx.DoQuery DSN WithExplainCheck driver query expect s).2 =
    {| Sqlx.DB := true; Sqlx.sent := Sqlx.sent s ++ [Queried query] |}.
Proof.
  intros Hdb Hoff. unfold Sqlx.DoQuery, bind.
  rewrite (GetDB_connects DSN driver s Hdb).
  rewrite (explain_gate_off DSN WithExplainCheck driver query expect _ Hoff).
  unfold Sqlx.db_Queryx, Sqlx.lift, bind, gets. simpl.
  destruct (Sqlx.Queryx driver (Sqlx.sent s) query) as [err|[cols|err] records];
    simpl; try done.
  by destruct (Sqlx.scan_rows cols records []) as [[result|err]|reason].
Qed.

Lemma HandleQuery_state `{Unicode} DSN WithExplainCheck driver query expect s :
  (Sqlx.HandleQuery DSN WithExplainCheck driver query expect s).2 =
    (Sqlx.DoQuery DSN WithExplainCheck driver query expect s).2.
Proof.
  unfold Sqlx.HandleQuery, bind.
  by destruct (Sqlx.DoQuery DSN WithExplainCheck driver query expect s)
    as [[[[result headers]|err]|reason] s'].
Qed.

Lemma HandleExec_unchecked (DSN : string) (WithExplainCheck : bool) (driver : Sqlx.Driver)
    (query expect : string) (s : Sqlx.State) :
  Sqlx.DB s = true ∨ Sqlx.Connect driver DSN = None →
  WithExplainCheck = false ∨ expect = "" →
  (Sqlx.HandleExec DSN WithExplainCheck driver query expect s).2 =
    {| Sqlx.DB := true; Sqlx.sent := Sqlx.sent s ++ [Executed query] |}.
Proof.
  intros Hdb Hoff. unfold Sqlx.HandleExec, bind.
  rewrite (GetDB_connects DSN driver s Hdb).
  rewrite (explain_gate_off DSN WithExplainCheck driver query expect _ Hoff).
  unfold Sqlx.db_Exec, bind, gets. simpl.
  by destruct (Sqlx.Execx driver (Sqlx.sent s) query) as [err|[ra|err]].
Qed.

Lemma query_tool_state `{Unicode} DSN WithExplainCheck driver query expect s :
  (SqlxTools.query_tool DSN WithExplainCheck driver query expect s).2 =
    (Sqlx.DoQuery DSN WithExplainCheck driver query expect s).2.
Proof.
  unfold SqlxTools.query_tool, bind. rewrite <- HandleQuery_state.
  by destruct (Sqlx.HandleQuery DSN WithExplainCheck driver query expect s)
    as [[r|reason] s'].
Qed.

Lemma exec_tool_state DSN WithExplainCheck driver query expect s :
  (SqlxTools.exec_tool DSN WithExplainCheck driver query expect s).2 =
    (Sqlx.HandleExec DSN WithExplainCheck driver query expect s).2.
Proof.
  unfold SqlxTools.exec_tool, bind.
  by destruct (Sqlx.HandleExec DSN WithExplainCheck driver query expect s)
    as [[r|reason] s'].
Qed.

Lemma DoQuery_unconnected (DSN : string) (WithExplainCheck : bool) (driver : Sqlx.Driver)
    (query expect : string) (s : Sqlx.State) (err : error) :
  Sqlx.DB s = false →
  Sqlx.Connect driver DSN = Some err →
  Sqlx.DoQuery DSN WithExplainCheck driver query expect s =
    (Returned (Err ("failed to establish database connection: " +:+ err)), s).
Proof.
  intros Hdb Hconnect. unfold Sqlx.DoQuery, bind.
  by rewrite (GetDB_fails DSN driver s err Hdb Hconnect).
Qed.

Lemma HandleExec_unconnected (DSN : string) (WithExplainCheck : bool) (driver : Sqlx.Driver)
    (query expect : string) (s : Sqlx.State) (err : error) :
  Sqlx.DB s = false →
  Sqlx.Connect driver DSN = Some err →
  Sqlx.HandleExec DSN WithExplainCheck driver query expect s =
    (Returned (Err ("failed to establish database connection: " +:+ err)), s).
Proof.
  intros Hdb Hconnect. unfold Sqlx.HandleExec, bind.
  by rewrite (GetDB_fails DSN driver s err Hdb Hconnect).
Qed.

(** ** explain_query *)

Lemma timed_query_issued `{Unicode} (dbPool : Pool) (wall : nat → Z) (sql : string)
    (reply : Fallible QueryResult → Go World CallToolResult) (w : World) :
  (∀ r w', issued (reply r w').2 = issued w') →
  issued ((do start <- Pooled.time_Now wall ;;
           defer (Pooled.updateMetrics wall start)
             (do r <- Pooled.executeQuery dbPool wall sql ;; reply r)) w).2 =
    issued w ++ [Queried sql].
Proof.
  intros Hreply.
  rewrite time_Now_bind, defer_issued by apply updateMetrics_issued.
  rewrite bind_issued by exact Hreply.
  by rewrite executeQuery_issued.
Qed.

Lemma table_reply_issued `{Unicode} (r : Fallible QueryResult) (w : World) :
  issued (PooledTools.table_reply r w).2 = issued w.
Proof. by destruct r. Qed.

Lemma Handlers_table_reply_issued `{Unicode} (r : Fallible QueryResult) (w : World) :
  issued (HandlersTools.table_reply r w).2 = issued w.
Proof. by destruct r. Qed.

Lemma explain_statement_text (analyze buffers : bool) (query : string) :
  (let explainQuery := "EXPLAIN" in
   let explainQuery := if analyze then explainQuery +:+ " ANALYZE" else explainQuery in
   let explainQuery := if buffers then explainQuery +:+ " BUFFERS" else explainQuery in
   explainQuery +:+ " " +:+ query) = explain_statement analyze buffers query.
Proof. by destruct analyze, buffers. Qed.

(** X7: explain_query is registered whatever the configuration (read-only
    mode included) and asks nothing of the statement: the text the caller
    passes, of any kind, is sent to the database behind "EXPLAIN", followed
    by " ANALYZE" and " BUFFERS" when the caller sets those flags.  Only
    [Handlers] refuses an empty text; the sqlx closure knows no buffers flag
    and never plan-checks the statement first. *)
Theorem explain_query_takes_any_statement `{Unicode}
    (request : CallToolRequest) :
  let query := getStringParam request "query" "" in
  let analyze := getBoolParam request "analyze" false in
  let buffers := getBoolParam request "buffers" false in
  (∀ (dbPool : Pool) (wall : nat → Z) (w : World),
     issued (PooledTools.handleExplainQuery dbPool wall request w).2 =
       issued w ++ [Queried (explain_statement analyze buffers query)] ∧
     if String.eqb query "" then
       rejected_without_database w (HandlersTools.HandleExplainQuery dbPool wall request w)
     else
       issued (HandlersTools.HandleExplainQuery dbPool wall request w).2 =
         issued w ++ [Queried (explain_statement analyze buffers query)]) ∧
  (∀ (DSN : string) (WithExplainCheck : bool) (driver : Sqlx.Driver) (s : Sqlx.State),
     Sqlx.DB s = true ∨ Sqlx.Connect driver DSN = None →
     Sqlx.sent (SqlxTools.explainQueryTool DSN WithExplainCheck driver request s).2 =
       Sqlx.sent s ++ [Queried (explain_statement analyze false query)]) ∧
  (∀ (config : Config) (dbPool : Pool) Query_args (wall : nat → Z) json_result json_stats,
     ("explain_query", PooledTools.handleExplainQuery dbPool wall) ∈
       PooledTools.tool_table config dbPool Query_args wall json_result json_stats ∧
     ("explain_query", HandlersTools.HandleExplainQuery dbPool wall) ∈
       HandlersTools.tool_table config dbPool Query_args wall json_result json_stats) ∧
  (∀ (DSN : string) (ReadOnly WithExplainCheck : bool) (driver : Sqlx.Driver),
     ("explain_query", SqlxTools.explainQueryTool DSN WithExplainCheck driver) ∈
       SqlxTools.tool_table DSN ReadOnly WithExplainCheck driver).
Proof.
  intros query analyze buffers. split; [|split; [|split]].
  - intros dbPool wall w. split.
    + unfold PooledTools.handleExplainQuery. rewrite explain_statement_text.
      apply timed_query_issued. intros; apply table_reply_issued.
    + unfold HandlersTools.HandleExplainQuery. fold query.
      destruct (String.eqb query "").
      * apply timed_error_is_rejection.
      * rewrite explain_statement_text.
        apply timed_query_issued. intros; apply Handlers_table_reply_issued.
  - intros DSN WithExplainCheck driver s Hdb.
    unfold SqlxTools.explainQueryTool. cbv zeta. fold query analyze.
    rewrite query_tool_state, DoQuery_unchecked by (done || by right).
    simpl. by destruct analyze.
  - intros config dbPool Query_args wall json_result json_stats.
    unfold PooledTools.tool_table, HandlersTools.tool_table.
    split; apply elem_of_app; left; do 9 apply list_elem_of_further;
      apply list_elem_of_here.
  - intros DSN ReadOnly WithExplainCheck driver.
    unfold SqlxTools.tool_table.
    apply elem_of_app; left; do 7 apply list_elem_of_further; apply list_elem_of_here.
Qed.

(** With the read-only flag set, a DELETE handed to explain_query with
    analyze = true goes to the database as EXPLAIN ANALYZE DELETE. *)
Lemma explain_query_witness :
  issued (PooledTools.handleExplainQuery sample_pool sample_wall
            explain_delete_request fresh).2 =
    [Queried "EXPLAIN ANALYZE DELETE FROM users"] ∧
  ("explain_query", PooledTools.handleExplainQuery sample_pool sample_wall) ∈
    PooledTools.tool_table (sample_config true) sample_pool (fun _ _ _ => QueryRows [] [])
      sample_wall sample_json_result sample_json_stats.
Proof.
  pose proof (explain_query_takes_any_statement explain_delete_request)
    as (Hpooled & _ & Hregistered & _).
  split.
  - exact (proj1 (Hpooled sample_pool sample_wall fresh)).
  - exact (proj1 (Hregistered (sample_config true) sample_pool (fun _ _ _ => QueryRows [] [])
                    sample_wall sample_json_result sample_json_stats)).
Defined.

(** ** The sqlx server: WHERE gate, plan check, connection *)

(** X8: the sqlx update_query and delete_query closures know no force flag:
    a statement whose upper-cased text lacks WHERE is refused whatever else
    the request holds, and the refusal touches nothing (no connection is
    opened, nothing is sent).  A statement that mentions WHERE is executed;
    with the explain check on, "EXPLAIN <statement>" is sent ahead of it. *)
Theorem sqlx_where_gate_has_no_override `{Unicode}
    (DSN : string) (WithExplainCheck : bool) (driver : Sqlx.Driver)
    (request : CallToolRequest) (s : Sqlx.State) :
  let query := getStringParam request "query" "" in
  if Contains (ToUpper query) "WHERE" then
    reachable DSN driver s →
    let first := if WithExplainCheck then [Queried ("EXPLAIN " +:+ query)] else [] in
    (∃ rest, (rest = [] ∨ rest = [Executed query]) ∧
       Sqlx.sent (SqlxTools.updateQueryTool DSN WithExplainCheck driver request s).2 =
         Sqlx.sent s ++ first ++ rest) ∧
    (∃ rest, (rest = [] ∨ rest = [Executed query]) ∧
       Sqlx.sent (SqlxTools.deleteQueryTool DSN WithExplainCheck driver request s).2 =
         Sqlx.sent s ++ first ++ rest) ∧
    (WithExplainCheck = false →
     Sqlx.sent (SqlxTools.updateQueryTool DSN WithExplainCheck driver request s).2 =
       Sqlx.sent s ++ [Executed query] ∧
     Sqlx.sent (SqlxTools.deleteQueryTool DSN WithExplainCheck driver request s).2 =
       Sqlx.sent s ++ [Executed query])
  else
    SqlxTools.updateQueryTool DSN WithExplainCheck driver request s =
      (Returned (NewToolResultText
         "Error: UPDATE queries must include a WHERE clause for safety"), s) ∧
    SqlxTools.deleteQueryTool DSN WithExplainCheck driver request s =
      (Returned (NewToolResultText
         "Error: DELETE queries must include a WHERE clause for safety"), s).
Proof.
  intros query.
  unfold SqlxTools.updateQueryTool, SqlxTools.deleteQueryTool. cbv zeta. fold query.
  destruct (Contains (ToUpper query) "WHERE"); cbn [negb]; [|done].
  intros Hdb. rewrite !exec_tool_state.
  assert (Hsent : ∀ expect, (0 < String.length expect)%nat →
    ∃ rest, (rest = [] ∨ rest = [Executed query]) ∧
      Sqlx.sent (Sqlx.HandleExec DSN WithExplainCheck driver query expect s).2 =
        Sqlx.sent s ++
          (if WithExplainCheck then [Queried ("EXPLAIN " +:+ query)] else []) ++ rest).
  { intros expect Hexpect. destruct WithExplainCheck.
    - pose proof (explain_gate_effect DSN driver query expect s Hexpect Hdb) as Heffect.
      destruct (Sqlx.Queryx driver (Sqlx.sent s) ("EXPLAIN " +:+ query)).
      + exists []. split; [by left|]. by rewrite (proj2 Heffect).
      + exists [Executed query]. split; [by right|]. by rewrite (proj2 Heffect).
    - exists [Executed query]. split; [by right|].
      by rewrite HandleExec_unchecked by (done || by left). }
  split; [apply Hsent; vm_compute; lia|].
  split; [apply Hsent; vm_compute; lia|].
  intros ->. by rewrite !HandleExec_unchecked by (done || by left).
Qed.

Lemma sqlx_where_gate_witness :
  SqlxTools.deleteQueryTool sample_dsn true sample_driver forced_no_where_request sqlx_fresh =
    (Returned (NewToolResultText
       "Error: DELETE queries must include a WHERE clause for safety"), sqlx_fresh).
Proof.
  exact (proj2 (sqlx_where_gate_has_no_override sample_dsn true sample_driver
                  forced_no_where_request sqlx_fresh)).
Defined.

Lemma explain_gate_kind (DSN : string) (WithExplainCheck : bool) (driver : Sqlx.Driver)
    (query expect expect' : string) (s : Sqlx.State) :
  expect ≠ "" → expect' ≠ "" →
  Sqlx.explain_gate DSN WithExplainCheck driver query expect s =
    Sqlx.explain_gate DSN WithExplainCheck driver query expect' s.
Proof.
  intros Hexpect Hexpect'. unfold Sqlx.explain_gate.
  destruct expect as [|c expect]; [done|]. destruct expect' as [|c' expect']; [done|].
  reflexivity.
Qed.

(** X9: the plan check looks at the expected statement kind only to see
    whether there is one: the kind is never compared with the statement or
    its plan, so any two kinds give the same run.  Without a kind, or with
    the check switched off, the statement is the only thing sent; that is
    the case of create_table, alter_table and create_index, which pass no
    kind and so are never plan-checked. *)
Theorem plan_check_ignores_the_kind `{Unicode}
    (DSN : string) (WithExplainCheck : bool) (driver : Sqlx.Driver)
    (query : string) (s : Sqlx.State) :
  reachable DSN driver s →
  (∀ expect expect', expect ≠ "" → expect' ≠ "" →
     Sqlx.DoQuery DSN WithExplainCheck driver query expect s =
       Sqlx.DoQuery DSN WithExplainCheck driver query expect' s ∧
     Sqlx.HandleExec DSN WithExplainCheck driver query expect s =
       Sqlx.HandleExec DSN WithExplainCheck driver query expect' s) ∧
  (∀ expect, WithExplainCheck = false ∨ expect = "" →
     Sqlx.sent (Sqlx.DoQuery DSN WithExplainCheck driver query expect s).2 =
       Sqlx.sent s ++ [Queried query] ∧
     Sqlx.sent (Sqlx.HandleQuery DSN WithExplainCheck driver query expect s).2 =
       Sqlx.sent s ++ [Queried query] ∧
     Sqlx.sent (Sqlx.HandleExec DSN WithExplainCheck driver query expect s).2 =
       Sqlx.sent s ++ [Executed query]) ∧
  (∀ request, getStringParam request "query" "" = query →
     Sqlx.sent (SqlxTools.createTableTool DSN WithExplainCheck driver request s).2 =
       Sqlx.sent s ++ [Executed query] ∧
     Sqlx.sent (SqlxTools.alterTableTool DSN WithExplainCheck driver request s).2 =
       Sqlx.sent s ++ [Executed query] ∧
     Sqlx.sent (SqlxTools.createIndexTool DSN WithExplainCheck driver request s).2 =
       Sqlx.sent s ++ [Executed query]).
Proof.
  intros Hdb. split; [|split].
  - intros expect expect' Hexpect Hexpect'.
    unfold Sqlx.DoQuery, Sqlx.HandleExec, bind.
    destruct (Sqlx.GetDB DSN driver s) as [[[[]|err]|reason] s1]; try done.
    by rewrite (explain_gate_kind DSN WithExplainCheck driver query expect expect' s1).
  - intros expect Hoff.
    rewrite HandleQuery_state, DoQuery_unchecked, HandleExec_unchecked by done.
    done.
  - intros request Hquery.
    unfold SqlxTools.createTableTool, SqlxTools.alterTableTool, SqlxTools.createIndexTool,
      SqlxTools.ddlTool.
    cbv zeta. rewrite Hquery, exec_tool_state.
    by rewrite HandleExec_unchecked by (done || by right).
Qed.

Lemma plan_check_witness :
  Sqlx.sent (SqlxTools.createTableTool sample_dsn true sample_driver
               create_table_request sqlx_fresh).2 =
    [Executed "CREATE TABLE t (id int)"] ∧
  Sqlx.HandleExec sample_dsn true sample_driver "DELETE FROM t" Sqlx.StatementTypeInsert
      sqlx_fresh =
    Sqlx.HandleExec sample_dsn true sample_driver "DELETE FROM t" Sqlx.StatementTypeDelete
      sqlx_fresh.
Proof.
  assert (Hdb : reachable sample_dsn sample_driver sqlx_fresh) by (by right).
  split.
  - exact (proj1 (proj2 (proj2 (plan_check_ignores_the_kind sample_dsn true sample_driver
             "CREATE TABLE t (id int)" sqlx_fresh Hdb)) create_table_request eq_refl)).
  - refine (proj2 (proj1 (plan_check_ignores_the_kind sample_dsn true sample_driver
             "DELETE FROM t" sqlx_fresh Hdb) _ _ _ _)); discriminate.
Defined.

(** X10: [GetDB] opens the connection once: after a call that yields the
    handle, every later call yields it without asking the driver again,
    whatever DSN and driver are then in place, and nothing is sent.  A
    failed attempt is not remembered: the handle stays unset, [DoQuery],
    [HandleQuery] and [HandleExec] return the wrapped connection error and
    send nothing, and the next call tries to connect again. *)
Theorem connection_is_opened_once `{Unicode}
    (DSN : string) (driver : Sqlx.Driver) (s : Sqlx.State) :
  (∀ s', Sqlx.GetDB DSN driver s = (Returned (Ok tt), s') →
     Sqlx.DB s' = true ∧ Sqlx.sent s' = Sqlx.sent s ∧
     ∀ DSN' driver', Sqlx.GetDB DSN' driver' s' = (Returned (Ok tt), s')) ∧
  (∀ err, Sqlx.DB s = false → Sqlx.Connect driver DSN = Some err →
     Sqlx.GetDB DSN driver s = (Returned (Err (connection_error err)), s) ∧
     ∀ WithExplainCheck query expect,
       Sqlx.DoQuery DSN WithExplainCheck driver query expect s =
         (Returned (Err (connection_error err)), s) ∧
       Sqlx.HandleQuery DSN WithExplainCheck driver query expect s =
         (Returned (Err (connection_error err)), s) ∧
       Sqlx.HandleExec DSN WithExplainCheck driver query expect s =
         (Returned (Err (connection_error err)), s)).
Proof.
  split.
  - intros s' Hrun.
    assert (Hs' : s' = connected s).
    { revert Hrun. unfold Sqlx.GetDB, connected, bind, gets.
      destruct s as [[] sent]; simpl; [by intros [= <-]|].
      destruct (Sqlx.Connect driver DSN); simpl; [done | by intros [= <-]]. }
    subst s'. split; [done|]. split; [done|].
    intros DSN' driver'. apply (GetDB_connects DSN' driver' (connected s)). by left.
  - intros err Hdb Hconnect. split; [by apply GetDB_fails|].
    intros WithExplainCheck query expect.
    unfold Sqlx.HandleQuery, bind.
    rewrite (DoQuery_unconnected DSN WithExplainCheck driver query expect s err Hdb Hconnect).
    rewrite (HandleExec_unconnected DSN WithExplainCheck driver query expect s err Hdb Hconnect).
    done.
Qed.

Lemma connection_witness :
  Sqlx.GetDB "postgresql://elsewhere" unreachable_driver (connected sqlx_fresh) =
    (Returned (Ok tt), connected sqlx_fresh) ∧
  Sqlx.HandleExec sample_dsn true unreachable_driver "DELETE FROM t" Sqlx.StatementTypeDelete
      sqlx_fresh =
    (Returned (Err (connection_error
       "dial tcp 127.0.0.1:5432: connect: connection refused")), sqlx_fresh).
Proof.
  split.
  - refine (proj2 (proj2 (proj1 (connection_is_opened_once sample_dsn sample_driver sqlx_fresh)
             (connected sqlx_fresh) _)) _ _). reflexivity.
  - refine (proj2 (proj2 (proj2 (proj2 (connection_is_opened_once sample_dsn
             unreachable_driver sqlx_fresh) _ _ _) true "DELETE FROM t"
             Sqlx.StatementTypeDelete))); reflexivity.
Defined.

(** ** The sqlx server: what [DoQuery] makes of the driver's records *)

Lemma decode_bytes_decoded (v : Cell) : is_byte_slice (decode_bytes v) = false.
Proof. by destruct v. Qed.

Lemma sqlx_fill_row_step (cols : list string) (col : string) (i : nat) (row : list Cell)
    (resultRow : gmap string Cell) :
  Sqlx.fill_row (col :: cols) i row resultRow =
    match row !! i with
    | Some v => Sqlx.fill_row cols (S i) row (<[col := decode_bytes v]> resultRow)
    | None => Panicked index_out_of_range
    end.
Proof. simpl. by destruct (row !! i) as [[]|]. Qed.

Lemma sqlx_fill_row_decoded (row : list Cell) (cols : list string) :
  ∀ (i : nat) (resultRow filled : gmap string Cell),
    Sqlx.fill_row cols i row resultRow = Returned filled →
    decoded resultRow → decoded filled.
Proof.
  induction cols as [|col cols IH]; intros i resultRow filled.
  - by intros [= <-].
  - rewrite sqlx_fill_row_step. destruct (row !! i) as [v|]; [|done].
    intros Hrun Hdecoded. apply (IH _ _ _ Hrun).
    apply map_Forall_insert_2; [apply decode_bytes_decoded | done].
Qed.

Lemma sqlx_fill_row_others (row : list Cell) (cols : list string) (col : string) :
  ∀ (i : nat) (resultRow filled : gmap string Cell),
    Sqlx.fill_row cols i row resultRow = Returned filled →
    col ∉ cols → filled !! col = resultRow !! col.
Proof.
  induction cols as [|col' cols IH]; intros i resultRow filled.
  - by intros [= <-].
  - rewrite sqlx_fill_row_step. destruct (row !! i) as [v|]; [|done].
    intros Hrun Hnotin. apply not_elem_of_cons in Hnotin as [Hne Hnotin].
    rewrite (IH _ _ _ Hrun Hnotin). by rewrite lookup_insert_ne.
Qed.

Lemma sqlx_fill_row_cells (row : list Cell) (cols : list string) :
  ∀ (i : nat) (resultRow filled : gmap string Cell),
    Sqlx.fill_row cols i row resultRow = Returned filled →
    NoDup cols →
    ∀ j col, cols !! j = Some col → filled !! col = decode_bytes <$> row !! (i + j)%nat.
Proof.
  induction cols as [|col' cols IH]; intros i resultRow filled.
  - intros _ _ j col Hcol. by rewrite lookup_nil in Hcol.
  - rewrite sqlx_fill_row_step. destruct (row !! i) as [v|] eqn:Hv; [|done].
    intros Hrun Hnodup j col Hcol. apply NoDup_cons in Hnodup as [Hnotin Hnodup].
    destruct j as [|j]; simpl in Hcol.
    + injection Hcol as <-.
      rewrite (sqlx_fill_row_others _ _ _ _ _ _ Hrun Hnotin).
      by rewrite lookup_insert_eq, Nat.add_0_r, Hv.
    + rewrite (IH _ _ _ Hrun Hnodup j col Hcol). f_equal. f_equal. lia.
Qed.

Lemma sqlx_scan_rows_records (cols : list string) (records : list (Fallible (list Cell))) :
  ∀ result rows,
    Sqlx.scan_rows cols records result = Returned (Ok rows) →
    ∃ new, rows = result ++ new ∧
      Forall decoded new ∧
      (NoDup cols → Forall2 (row_of_record cols) records new).
Proof.
  induction records as [|record records IH]; intros result rows; simpl.
  - intros [= <-]. exists []. rewrite app_nil_r. repeat split; constructor.
  - destruct record as [row|err]; [|done].
    destruct (Sqlx.fill_row cols 0 row ∅) as [filled|reason] eqn:Hfill; [|done].
    intros Hscan. destruct (IH _ _ Hscan) as (new & -> & Hdecoded & Hcells).
    exists (filled :: new). rewrite <- app_assoc. split; [done|]. split.
    + constructor; [|done].
      apply (sqlx_fill_row_decoded _ _ _ _ _ Hfill). apply map_Forall_empty.
    + intros Hnodup. constructor; [|by apply Hcells].
      exists row. split; [done|]. intros j col Hcol.
      by rewrite (sqlx_fill_row_cells _ _ _ _ _ Hfill Hnodup j col Hcol).
Qed.

(** X11: the records [DoQuery] returns are the driver's records, column by
    column, with every byte slice turned into a string: no cell of a
    returned row is a byte slice, and when the column names are distinct the
    cell under a column is the value the driver gave at that column's
    position (its text for a byte slice), one row per record and in the
    driver's order. *)
Theorem DoQuery_returns_the_records_decoded
    (DSN : string) (WithExplainCheck : bool) (driver : Sqlx.Driver)
    (query expect : string) (s : Sqlx.State)
    (result : list (gmap string Cell)) (cols : list string) :
  (Sqlx.DoQuery DSN WithExplainCheck driver query expect s).1 = Returned (Ok (result, cols)) →
  Forall decoded result ∧
  ∃ history records,
    Sqlx.Queryx driver history query = Sqlx.QueryxRows (Ok cols) records ∧
    length result = length records ∧
    (NoDup cols → Forall2 (row_of_record cols) records result).
Proof.
  unfold Sqlx.DoQuery, bind.
  destruct (Sqlx.GetDB DSN driver s) as [[[[]|err]|reason] s1]; simpl; try done.
  destruct (Sqlx.explain_gate DSN WithExplainCheck driver query expect s1)
    as [[[err|]|reason] s2]; simpl; try done.
  unfold Sqlx.db_Queryx, Sqlx.lift, bind, gets; simpl.
  destruct (Sqlx.Queryx driver (Sqlx.sent s2) query) as [err|[cols'|err] records] eqn:Hreply;
    simpl; try done.
  destruct (Sqlx.scan_rows cols' records []) as [[rows|err]|reason] eqn:Hscan;
    simpl; try done.
  intros [= <- <-].
  destruct (sqlx_scan_rows_records _ _ _ _ Hscan) as (new & -> & Hdecoded & Hcells).
  simpl. split; [done|]. exists (Sqlx.sent s2), records. split; [done|].
  assert (Hlen : ∀ (result : list (gmap string Cell)) rows,
            Sqlx.scan_rows cols' records result = Returned (Ok rows) →
            length rows = (length result + length records)%nat).
  { clear. induction records as [|record records IH]; intros result rows; simpl.
    - intros [= <-]. lia.
    - destruct record as [row|err]; [|done].
      destruct (Sqlx.fill_row cols' 0 row ∅) as [filled|reason]; [|done].
      intros Hscan. rewrite (IH _ _ Hscan), length_app. simpl. lia. }
  split; [exact (Hlen _ _ Hscan) | exact Hcells].
Qed.

Lemma DoQuery_decoded_witness :
  Forall decoded [ ({[ "id" := CInt 7; "payload" := CString "abc" ]} : gmap string Cell) ].
Proof.
  refine (proj1 (DoQuery_returns_the_records_decoded sample_dsn false bytea_driver
            "SELECT id, payload FROM blobs" Sqlx.StatementTypeSelect sqlx_fresh
            [ {[ "id" := CInt 7; "payload" := CString "abc" ]} ] ["id"; "payload"] _)).
  vm_compute. reflexivity.
Defined.

(** ** CSV fields *)

Lemma append_quote_inj (a b : string) :
  a +:+ String quote_char "" = b +:+ String quote_char "" → a = b.
Proof.
  revert b. induction a as [|c a IH]; intros [|d b]; simpl; try done.
  - intros [= _ Hrest]. by destruct b.
  - intros [= _ Hrest]. by destruct a.
  - intros [= -> Hrest]. f_equal. by apply IH.
Qed.

Lemma escape_quotes_step (c : ascii) (rest : string) :
  Sqlx.escape_quotes (String c rest) =
    if Ascii.eqb c quote_char
    then String quote_char (String quote_char (Sqlx.escape_quotes rest))
    else String c (Sqlx.escape_quotes rest).
Proof. reflexivity. Qed.

Lemma escape_quotes_inj (a b : string) :
  Sqlx.escape_quotes a = Sqlx.escape_quotes b → a = b.
Proof.
  revert b. induction a as [|c a IH]; intros [|d b].
  - done.
  - rewrite escape_quotes_step. simpl. by destruct (Ascii.eqb d quote_char).
  - rewrite escape_quotes_step. simpl. by destruct (Ascii.eqb c quote_char).
  - rewrite !escape_quotes_step.
    destruct (Ascii.eqb_spec c quote_char) as [-> | Hc],
             (Ascii.eqb_spec d quote_char) as [-> | Hd].
    + intros [= Hrest]. f_equal. by apply IH.
    + intros [= <- _]. done.
    + intros [= -> _]. done.
    + intros [= -> Hrest]. f_equal. by apply IH.
Qed.

Lemma quoted_text_needs_quotes `{Unicode} (rest : string) :
  Sqlx.fieldNeedsQuotes (String quote_char rest) = true.
Proof. reflexivity. Qed.

(** X12: the CSV rendering of a field can be read back: two different
    values never give the same field text, whether the writer quotes them
    (a delimiter, a quote, a line break, a leading blank, or the text "\.")
    or leaves them bare. *)
Theorem csv_field_is_injective `{Unicode} (a b : string) :
  a ≠ b → Sqlx.csv_field a ≠ Sqlx.csv_field b.
Proof.
  intros Hne Heq. apply Hne. revert Heq. unfold Sqlx.csv_field.
  destruct (Sqlx.fieldNeedsQuotes a) eqn:Ha, (Sqlx.fieldNeedsQuotes b) eqn:Hb.
  - intros [= Heq]. by apply escape_quotes_inj, append_quote_inj.
  - intros <-. by rewrite quoted_text_needs_quotes in Hb.
  - intros ->. by rewrite quoted_text_needs_quotes in Ha.
  - done.
Qed.

(** A value and the text the writer makes of it stay apart when both are
    written. *)
Lemma csv_field_witness :
  @Sqlx.csv_field ascii_text "a,b" ≠
  @Sqlx.csv_field ascii_text (String quote_char ("a,b" +:+ String quote_char "")).
Proof.
  apply (@csv_field_is_injective ascii_text). discriminate.
Defined.

Lemma csv_field_samples :
  @Sqlx.csv_field ascii_text "a,b" = String quote_char ("a,b" +:+ String quote_char "") ∧
  @Sqlx.csv_field ascii_text "plain" = "plain" ∧
  @Sqlx.csv_field ascii_text " x" = String quote_char (" x" +:+ String quote_char "") ∧
  @Sqlx.csv_field ascii_text (String quote_char "") =
    String quote_char (String quote_char (String quote_char (String quote_char ""))) ∧
  @Sqlx.csv_field ascii_text "" = "".
Proof. vm_compute. repeat split. Qed.

(** ** The sqlx server: describe_table *)

Lemma has_LF_app (a b : string) : has_LF (a +:+ b) = has_LF a || has_LF b.
Proof.
  induction a as [|c a IH]; [done|].
  change (has_LF (String c (a +:+ b)) = has_LF (String c a) || has_LF b).
  simpl. rewrite IH. by rewrite orb_assoc.
Qed.

Lemma csv_Write_has_LF `{Unicode} (record : list string) :
  has_LF (Sqlx.csv_Write record) = true.
Proof. unfold Sqlx.csv_Write. rewrite has_LF_app. apply orb_true_r. Qed.

Lemma MapToCSV_has_LF `{Unicode} (m : list (gmap string Cell)) (headers : list string)
    (text : string) :
  Sqlx.MapToCSV m headers = Ok text → has_LF text = true.
Proof.
  unfold Sqlx.MapToCSV. intros [= <-]. by rewrite has_LF_app, csv_Write_has_LF.
Qed.

Lemma HandleQuery_has_LF `{Unicode} DSN WithExplainCheck driver query expect s text :
  (Sqlx.HandleQuery DSN WithExplainCheck driver query expect s).1 = Returned (Ok text) →
  has_LF text = true.
Proof.
  unfold Sqlx.HandleQuery, bind.
  destruct (Sqlx.DoQuery DSN WithExplainCheck driver query expect s)
    as [[[[result headers]|err]|reason] s']; [|done..].
  cbv beta iota zeta delta [ret fst]. intros [= <-].
  by rewrite has_LF_app, csv_Write_has_LF.
Qed.

Lemma has_LF_not_empty (text : string) : has_LF text = true → String.eqb text "" = false.
Proof. by destruct text. Qed.

Lemma Join_has_LF (elems : list string) (sep : string) :
  elems ≠ [] → Forall (fun text => has_LF text = true) elems →
  has_LF (Join elems sep) = true.
Proof.
  destruct elems as [|e rest]; [done|]. intros _ Hall.
  apply Forall_cons in Hall as [He _].
  destruct rest as [|e' rest]; [done|].
  change (has_LF (e +:+ sep +:+ Join (e' :: rest) sep) = true).
  by rewrite has_LF_app, He.
Qed.

Lemma HandleQuery_refused `{Unicode} DSN WithExplainCheck driver query s err :
  reachable DSN driver s →
  Sqlx.Queryx driver (Sqlx.sent s) query = Sqlx.QueryxFailed err →
  Sqlx.HandleQuery DSN WithExplainCheck driver query Sqlx.StatementTypeNoExplainCheck s =
    (Returned (Err err), {| Sqlx.DB := true; Sqlx.sent := Sqlx.sent s ++ [Queried query] |}).
Proof.
  intros Hdb Hreply. unfold Sqlx.HandleQuery, Sqlx.DoQuery, bind.
  rewrite (GetDB_connects DSN driver s Hdb).
  rewrite explain_gate_off by (by right).
  unfold Sqlx.db_Queryx, bind, gets. simpl. by rewrite Hreply.
Qed.

Lemma HandleQuery_no_records `{Unicode} DSN WithExplainCheck driver query s cols :
  reachable DSN driver s →
  Sqlx.Queryx driver (Sqlx.sent s) query = Sqlx.QueryxRows (Ok cols) [] →
  Sqlx.HandleQuery DSN WithExplainCheck driver query Sqlx.StatementTypeNoExplainCheck s =
    (Returned (Ok (Sqlx.csv_Write cols)),
     {| Sqlx.DB := true; Sqlx.sent := Sqlx.sent s ++ [Queried query] |}).
Proof.
  intros Hdb Hreply. unfold Sqlx.HandleQuery, Sqlx.DoQuery, bind.
  rewrite (GetDB_connects DSN driver s Hdb).
  rewrite explain_gate_off by (by right).
  unfold Sqlx.db_Queryx, Sqlx.lift, bind, gets. cbn [Sqlx.sent Sqlx.DB connected].
  rewrite Hreply. cbn -[Sqlx.MapToCSV Sqlx.csv_Write]. by rewrite MapToCSV_empty.
Qed.

(** The loop of describe_table when every query is refused, and when every
    query is answered without a record. *)
Lemma describe_all_refused `{Unicode} DSN WithExplainCheck driver (queries : list string) :
  (∀ history sql, ∃ err, Sqlx.Queryx driver history sql = Sqlx.QueryxFailed err) →
  ∀ (allResults : list string) (s : Sqlx.State),
    reachable DSN driver s →
    ∃ s', SqlxTools.describe_all DSN WithExplainCheck driver queries allResults s =
            (Returned allResults, s') ∧
          Sqlx.sent s' = Sqlx.sent s ++ (Queried <$> queries).
Proof.
  intros Hrefuses. induction queries as [|query queries IH]; intros allResults s Hdb.
  - exists s. split; [done|]. by rewrite app_nil_r.
  - destruct (Hrefuses (Sqlx.sent s) query) as [err Hreply].
    cbn [SqlxTools.describe_all]. unfold bind at 1.
    rewrite (HandleQuery_refused DSN WithExplainCheck driver query s err Hdb Hreply).
    destruct (IH allResults {| Sqlx.DB := true; Sqlx.sent := Sqlx.sent s ++ [Queried query] |})
      as (s' & Hrun & Hsent); [by left|].
    exists s'. split; [done|]. rewrite Hsent. simpl. by rewrite <- app_assoc.
Qed.

Lemma describe_all_no_records `{Unicode} DSN WithExplainCheck driver (queries : list string) :
  (∀ history sql, ∃ cols, Sqlx.Queryx driver history sql = Sqlx.QueryxRows (Ok cols) []) →
  ∀ (allResults : list string) (s : Sqlx.State),
    reachable DSN driver s →
    ∃ new s', SqlxTools.describe_all DSN WithExplainCheck driver queries allResults s =
                (Returned (allResults ++ new), s') ∧
              length new = length queries ∧
              Forall (fun text => has_LF text = true) new ∧
              Sqlx.sent s' = Sqlx.sent s ++ (Queried <$> queries).
Proof.
  intros Hanswers. induction queries as [|query queries IH]; intros allResults s Hdb.
  - exists [], s. rewrite !app_nil_r. repeat split. constructor.
  - destruct (Hanswers (Sqlx.sent s) query) as [cols Hreply].
    cbn [SqlxTools.describe_all]. unfold bind at 1.
    rewrite (HandleQuery_no_records DSN WithExplainCheck driver query s cols Hdb Hreply).
    rewrite (has_LF_not_empty _ (csv_Write_has_LF cols)). cbn [negb].
    destruct (IH (allResults ++ [Sqlx.csv_Write cols])
                {| Sqlx.DB := true; Sqlx.sent := Sqlx.sent s ++ [Queried query] |})
      as (new & s' & Hrun & Hlen & Hall & Hsent); [by left|].
    exists (Sqlx.csv_Write cols :: new), s'. split; [|split; [|split]].
    + rewrite Hrun. by rewrite <- app_assoc.
    + simpl. by rewrite Hlen.
    + constructor; [apply csv_Write_has_LF | done].
    + rewrite Hsent. simpl. by rewrite <- app_assoc.
Qed.

(** X13: the describe_table closure of the sqlx server answers "Table not
    found or no information available" when each of its three queries is
    refused, swallowing the errors (the reply is no error reply), and all
    three queries are sent all the same.  When the table does not exist and
    the queries are answered without a record, the reply is not that
    message: every answered query yields at least its header line, so the
    reply is the three header lines. *)
Theorem describe_table_not_found_means_refused `{Unicode}
    (DSN : string) (WithExplainCheck : bool) (driver : Sqlx.Driver)
    (request : CallToolRequest) (s : Sqlx.State) :
  reachable DSN driver s →
  let run := SqlxTools.descTableTool DSN WithExplainCheck driver request s in
  ((∀ history sql, ∃ err, Sqlx.Queryx driver history sql = Sqlx.QueryxFailed err) →
   run.1 = Returned (NewToolResultText not_found_message) ∧
   length (Sqlx.sent run.2) = (length (Sqlx.sent s) + 3)%nat) ∧
  ((∀ history sql, ∃ cols, Sqlx.Queryx driver history sql = Sqlx.QueryxRows (Ok cols) []) →
   ∃ text, run.1 = Returned (NewToolResultText text) ∧
     has_LF text = true ∧ text ≠ not_found_message ∧
     length (Sqlx.sent run.2) = (length (Sqlx.sent s) + 3)%nat).
Proof.
  intros Hdb run. split.
  - intros Hrefuses. unfold run, SqlxTools.descTableTool. cbv zeta. unfold bind.
    match goal with
    | |- context [SqlxTools.describe_all _ _ _ ?queries [] s] =>
        destruct (describe_all_refused DSN WithExplainCheck driver queries Hrefuses [] s Hdb)
          as (s' & -> & Hsent)
    end.
    simpl. by rewrite Hsent, length_app.
  - intros Hanswers. unfold run, SqlxTools.descTableTool. cbv zeta. unfold bind.
    match goal with
    | |- context [SqlxTools.describe_all _ _ _ ?queries [] s] =>
        destruct (describe_all_no_records DSN WithExplainCheck driver queries Hanswers [] s Hdb)
          as (new & s' & -> & Hlen & Hall & Hsent)
    end.
    destruct new as [|text new]; [done|].
    exists (Join (text :: new) (LF +:+ LF)). split; [reflexivity|].
    assert (HLF : has_LF (Join (text :: new) (LF +:+ LF)) = true)
      by (by apply Join_has_LF).
    split; [exact HLF|]. split.
    + intros Heq. rewrite Heq in HLF. discriminate.
    + simpl. by rewrite Hsent, length_app.
Qed.

Lemma describe_table_witness :
  (SqlxTools.descTableTool sample_dsn false refusing_driver describe_request sqlx_fresh).1 =
    Returned (NewToolResultText "Table not found or no information available") ∧
  ∃ text,
    (SqlxTools.descTableTool sample_dsn false empty_driver describe_request sqlx_fresh).1 =
      Returned (NewToolResultText text) ∧
    text ≠ "Table not found or no information available".
Proof.
  split.
  - refine (proj1 (proj1 (describe_table_not_found_means_refused sample_dsn false
              refusing_driver describe_request sqlx_fresh _) _)).
    + by right.
    + intros history sql. by eexists.
  - destruct (proj2 (describe_table_not_found_means_refused sample_dsn false
               empty_driver describe_request sqlx_fresh (or_intror eq_refl)))
      as (text & Hrun & _ & Hne & _).
    + intros history sql. by eexists.
    + exists text. by split.
Defined.

(** ** Read-only mode: nothing but queries reaches the database *)

Lemma only_queries_refl (l : list Statement) : only_queries_added l l.
Proof. exists []. by rewrite app_nil_r. Qed.

Lemma only_queries_trans (a b c : list Statement) :
  only_queries_added a b → only_queries_added b c → only_queries_added a c.
Proof.
  intros [l1 ->] [l2 ->]. exists (l1 ++ l2). by rewrite fmap_app, app_assoc.
Qed.

Lemma only_queries_one (l : list Statement) (sql : string) :
  only_queries_added l (l ++ [Queried sql]).
Proof. by exists [sql]. Qed.

Lemma only_queries_same (a b : list Statement) : b = a → only_queries_added a b.
Proof. intros ->. apply only_queries_refl. Qed.

Section Effects.
Context {W : Type} (log : W → list Statement).

Lemma queries_only_ret {A : Type} (a : A) : queries_only log (ret a).
Proof. intros w. apply only_queries_refl. Qed.

Lemma queries_only_bind {A B : Type} (m : Go W A) (k : A → Go W B) :
  queries_only log m → (∀ a, queries_only log (k a)) → queries_only log (bind m k).
Proof.
  intros Hm Hk w. unfold bind. specialize (Hm w).
  destruct (m w) as [[a|reason] w']; [|done].
  exact (only_queries_trans _ _ _ Hm (Hk a w')).
Qed.

Lemma queries_only_defer {A : Type} (deferred : Go W unit) (body : Go W A) :
  queries_only log deferred → queries_only log body → queries_only log (defer deferred body).
Proof.
  intros Hd Hb w. unfold defer. specialize (Hb w).
  destruct (body w) as [r w1]. specialize (Hd w1).
  destruct (deferred w1) as [[[]|reason] w2];
    exact (only_queries_trans _ _ _ Hb Hd).
Qed.

Lemma queries_only_quiet {A : Type} (m : Go W A) :
  (∀ w, log (m w).2 = log w) → queries_only log m.
Proof. intros Hm w. by apply only_queries_same. Qed.

End Effects.

Lemma queries_only_time_Now (wall : nat → Z) : queries_only issued (Pooled.time_Now wall).
Proof. by apply queries_only_quiet. Qed.

Lemma queries_only_updateMetrics (wall : nat → Z) (start : Z) :
  queries_only issued (Pooled.updateMetrics wall start).
Proof. by apply queries_only_quiet. Qed.

Lemma queries_only_handleError (err : error) : queries_only issued (Pooled.handleError err).
Proof. by apply queries_only_quiet. Qed.

Lemma queries_only_executeQuery (dbPool : Pool) (wall : nat → Z) (query : string) :
  queries_only issued (Pooled.executeQuery dbPool wall query).
Proof. intros w. rewrite executeQuery_issued. apply only_queries_one. Qed.

Lemma executeQueryWithParams_issued Query_args (wall : nat → Z) (query : string)
    (args : list string) (w : World) :
  issued (PooledTools.executeQueryWithParams Query_args wall query args w).2 =
    issued w ++ [Queried query].
Proof.
  unfold PooledTools.executeQueryWithParams, PooledTools.dbPool_Query_args, Pooled.lift,
    bind, gets; simpl.
  destruct (Query_args (issued w) query args) as [err|fields records]; simpl; [done|].
  destruct (Pooled.scan_rows fields records []) as [[result|err]|reason]; done.
Qed.

Lemma queries_only_executeQueryWithParams Query_args (wall : nat → Z) (query : string)
    (args : list string) :
  queries_only issued (PooledTools.executeQueryWithParams Query_args wall query args).
Proof. intros w. rewrite executeQueryWithParams_issued. apply only_queries_one. Qed.

Lemma queries_only_table_reply `{Unicode} (r : Fallible QueryResult) :
  queries_only issued (PooledTools.table_reply r).
Proof. apply queries_only_quiet. intros w. apply table_reply_issued. Qed.

Lemma queries_only_Handlers_table_reply `{Unicode} (r : Fallible QueryResult) :
  queries_only issued (HandlersTools.table_reply r).
Proof. apply queries_only_quiet. intros w. apply Handlers_table_reply_issued. Qed.

Lemma queries_only_time_Since (wall : nat → Z) (start : Z) :
  queries_only issued (Pooled.time_Since wall start).
Proof. by apply queries_only_quiet. Qed.

Lemma queries_only_gets {A : Type} (f : World → A) : queries_only issued (gets f).
Proof. by apply queries_only_quiet. Qed.

Ltac queries_only_step :=
  first
    [ apply queries_only_ret
    | apply queries_only_time_Now
    | apply queries_only_time_Since
    | apply queries_only_gets
    | apply queries_only_updateMetrics
    | apply queries_only_handleError
    | apply queries_only_executeQuery
    | apply queries_only_executeQueryWithParams
    | apply queries_only_table_reply
    | apply queries_only_Handlers_table_reply
    | apply queries_only_defer
    | apply queries_only_bind; [|intros ?]
    | match goal with
      | |- queries_only _ (if ?b then _ else _) => destruct b
      | |- queries_only _ (match ?x with _ => _ end) => destruct x
      end ].

Ltac queries_only_auto := cbv zeta; repeat queries_only_step.

Lemma queries_only_describe_sections `{Unicode} (dbPool : Pool) (wall : nat → Z)
    (sections : list (string * string)) :
  ∀ results, queries_only issued (PooledTools.describe_sections dbPool wall sections results).
Proof.
  induction sections as [|[title query] sections IH]; intros results; simpl.
  - apply queries_only_ret.
  - apply queries_only_bind; [apply queries_only_executeQuery|].
    intros [result|err]; [apply IH | apply queries_only_ret].
Qed.

Section ReadOnlyServer.
Context `{Unicode}.
Variables (config : Config) (dbPool : Pool).
Variable Query_args : list Statement → string → list string → QueryReply.
Variables (wall : nat → Z) (json_result : QueryResult → string).
Variable json_stats : gmap string StatValue → string.
Hypothesis read_only : ReadOnly config = true.

Lemma queries_only_Pooled_tools (name : string) handler (request : CallToolRequest) :
  (name, handler) ∈
    PooledTools.tool_table config dbPool Query_args wall json_result json_stats →
  queries_only issued (handler request).
Proof.
  unfold PooledTools.tool_table. rewrite read_only. cbn [negb app].
  intros Hin.
  repeat (apply elem_of_cons in Hin as [[= -> ->] | Hin]);
    [..| by apply elem_of_nil in Hin].
  - unfold PooledTools.handleListDatabases. queries_only_auto.
  - unfold PooledTools.handleListTables. queries_only_auto.
  - unfold PooledTools.handleListColumns. queries_only_auto.
  - unfold PooledTools.handleDescribeTable. cbv zeta.
    apply queries_only_bind; [apply queries_only_time_Now | intros start].
    apply queries_only_defer; [apply queries_only_updateMetrics|].
    apply queries_only_bind; [apply queries_only_describe_sections|].
    intros [results|err]; queries_only_auto.
  - unfold PooledTools.handleGetTableSize. queries_only_auto.
  - unfold PooledTools.handleListIndexes. queries_only_auto.
  - unfold PooledTools.handleListConstraints. queries_only_auto.
  - unfold Pooled.handleReadQuery. queries_only_auto.
  - unfold PooledTools.handleCountQuery. queries_only_auto.
  - unfold PooledTools.handleExplainQuery. queries_only_auto.
  - unfold Pooled.handleGetStats. queries_only_auto.
  - unfold PooledTools.handleGetSlowQueries. queries_only_auto.
  - unfold Pooled.handleAnalyzeTable. rewrite read_only. apply queries_only_handleError.
Qed.

Lemma queries_only_Handlers_tools (name : string) handler (request : CallToolRequest) :
  (name, handler) ∈
    HandlersTools.tool_table config dbPool Query_args wall json_result json_stats →
  queries_only issued (handler request).
Proof.
  unfold HandlersTools.tool_table. rewrite read_only. cbn [negb app].
  intros Hin.
  repeat (apply elem_of_cons in Hin as [[= -> ->] | Hin]);
    [..| by apply elem_of_nil in Hin];
    unfold HandlersTools.HandleListDatabases, HandlersTools.HandleListTables,
      HandlersTools.HandleListColumns, HandlersTools.HandleDescribeTable,
      HandlersTools.HandleGetTableSize, HandlersTools.HandleListIndexes,
      HandlersTools.HandleListConstraints, Handlers.HandleReadQuery,
      HandlersTools.HandleCountQuery, HandlersTools.HandleExplainQuery,
      Handlers.HandleGetStats, HandlersTools.HandleGetSlowQueries,
      Handlers.HandleAnalyzeTable,
      HandlersTools.executeQueryWithParams, Handlers.time_Now, Handlers.time_Since,
      Handlers.updateMetrics, Handlers.executeQuery, Handlers.handleError;
    rewrite ?read_only;
    try match goal with
        | |- context [HandlersTools.index_filter ?t ?s] =>
            destruct (HandlersTools.index_filter t s) as [[whereClause args] argCount]
        end;
    queries_only_auto.
Qed.

End ReadOnlyServer.

(** X14: with the read-only flag set, no tool the pooled servers register
    ever calls [Exec]: whatever the request, a tool of the monolithic
    server or of [Handlers] adds nothing but queries to the statements sent
    to the database.  (analyze_table stays registered and refuses; the
    statements worded by the caller, through read_query, count_query and
    explain_query, are sent as queries.) *)
Theorem read_only_server_sends_queries_only `{Unicode}
    (config : Config) (dbPool : Pool)
    (Query_args : list Statement → string → list string → QueryReply)
    (wall : nat → Z) (json_result : QueryResult → string)
    (json_stats : gmap string StatValue → string)
    (name : string) (handler : CallToolRequest → Go World CallToolResult)
    (request : CallToolRequest) (w : World) :
  ReadOnly config = true →
  (name, handler) ∈
    PooledTools.tool_table config dbPool Query_args wall json_result json_stats ∨
  (name, handler) ∈
    HandlersTools.tool_table config dbPool Query_args wall json_result json_stats →
  (∃ sqls : list string, issued (handler request w).2 = issued w ++ (Queried <$> sqls)) ∧
  (∀ sql, Executed sql ∈ issued (handler request w).2 → Executed sql ∈ issued w).
Proof.
  intros Hmode Hin.
  assert (Hq : only_queries_added (issued w) (issued (handler request w).2)).
  { destruct Hin as [Hin | Hin].
    - by apply (queries_only_Pooled_tools config dbPool Query_args wall json_result
                  json_stats Hmode name handler request Hin).
    - by apply (queries_only_Handlers_tools config dbPool Query_args wall json_result
                  json_stats Hmode name handler request Hin). }
  split; [exact Hq|].
  destruct Hq as [sqls ->]. intros sql Hin'.
  apply elem_of_app in Hin' as [Hin' | Hin']; [done|].
  apply list_elem_of_fmap in Hin' as (sql' & [=] & _).
Qed.

Lemma read_only_server_witness :
  ∃ sqls : list string,
    issued (PooledTools.handleCountQuery sample_pool sample_wall drop_request fresh).2 =
      issued fresh ++ (Queried <$> sqls).
Proof.
  refine (proj1 (read_only_server_sends_queries_only (sample_config true) sample_pool
            sample_Query_args sample_wall sample_json_result sample_json_stats
            "count_query" (PooledTools.handleCountQuery sample_pool sample_wall)
            drop_request fresh eq_refl _)).
  left. unfold PooledTools.tool_table.
  apply elem_of_app; left. do 8 apply list_elem_of_further. apply list_elem_of_here.
Defined.

(** ** The same for the sqlx server *)

Lemma sqlx_queries_only_GetDB DSN driver : queries_only Sqlx.sent (Sqlx.GetDB DSN driver).
Proof.
  apply queries_only_quiet. intros [[] sent]; unfold Sqlx.GetDB, bind, gets; simpl; [done|].
  by destruct (Sqlx.Connect driver DSN).
Qed.

Lemma sqlx_queries_only_db_Queryx driver query :
  queries_only Sqlx.sent (Sqlx.db_Queryx driver query).
Proof. intros s. apply only_queries_one. Qed.

Lemma sqlx_queries_only_explain_gate DSN WithExplainCheck driver query expect :
  queries_only Sqlx.sent (Sqlx.explain_gate DSN WithExplainCheck driver query expect).
Proof.
  unfold Sqlx.explain_gate, Sqlx.HandleExplain.
  destruct ((0 <? String.length expect)%nat && WithExplainCheck); [|apply queries_only_ret].
  destruct (negb WithExplainCheck); [apply queries_only_ret|].
  apply queries_only_bind; [apply sqlx_queries_only_GetDB|].
  intros [[]|err]; [|apply queries_only_ret].
  apply queries_only_bind; [apply sqlx_queries_only_db_Queryx|].
  intros [err|columns records]; apply queries_only_ret.
Qed.

Lemma sqlx_queries_only_DoQuery DSN WithExplainCheck driver query expect :
  queries_only Sqlx.sent (Sqlx.DoQuery DSN WithExplainCheck driver query expect).
Proof.
  unfold Sqlx.DoQuery.
  apply queries_only_bind; [apply sqlx_queries_only_GetDB|].
  intros [[]|err]; [|apply queries_only_ret].
  apply queries_only_bind; [apply sqlx_queries_only_explain_gate|].
  intros [err|]; [apply queries_only_ret|].
  apply queries_only_bind; [apply sqlx_queries_only_db_Queryx|].
  intros [err|[cols|err] records]; try apply queries_only_ret.
  apply queries_only_bind; [by apply queries_only_quiet|].
  intros [result|err]; apply queries_only_ret.
Qed.

Lemma sqlx_queries_only_HandleQuery `{Unicode} DSN WithExplainCheck driver query expect :
  queries_only Sqlx.sent (Sqlx.HandleQuery DSN WithExplainCheck driver query expect).
Proof.
  unfold Sqlx.HandleQuery.
  apply queries_only_bind; [apply sqlx_queries_only_DoQuery|].
  intros [[result headers]|err]; apply queries_only_ret.
Qed.

Lemma sqlx_queries_only_query_tool `{Unicode} DSN WithExplainCheck driver query expect :
  queries_only Sqlx.sent (SqlxTools.query_tool DSN WithExplainCheck driver query expect).
Proof.
  unfold SqlxTools.query_tool.
  apply queries_only_bind; [apply sqlx_queries_only_HandleQuery|].
  intros r. apply queries_only_ret.
Qed.

Lemma sqlx_queries_only_describe_all `{Unicode} DSN WithExplainCheck driver
    (queries : list string) :
  ∀ allResults,
    queries_only Sqlx.sent
      (SqlxTools.describe_all DSN WithExplainCheck driver queries allResults).
Proof.
  induction queries as [|query queries IH]; intros allResults; simpl.
  - apply queries_only_ret.
  - apply queries_only_bind; [apply sqlx_queries_only_HandleQuery|].
    intros [result|err]; [|apply IH].
    destruct (negb (String.eqb result "")); apply IH.
Qed.

Lemma queries_only_sqlx_tools `{Unicode} DSN WithExplainCheck driver
    (name : string) tool (request : CallToolRequest) :
  (name, tool) ∈ SqlxTools.tool_table DSN true WithExplainCheck driver →
  queries_only Sqlx.sent (tool request).
Proof.
  unfold SqlxTools.tool_table. cbn [negb app].
  intros Hin.
  repeat (apply elem_of_cons in Hin as [[= -> ->] | Hin]);
    [..| by apply elem_of_nil in Hin];
    try apply sqlx_queries_only_query_tool.
  - unfold SqlxTools.descTableTool. cbv zeta.
    apply queries_only_bind; [apply sqlx_queries_only_describe_all|].
    intros allResults. destruct (length allResults =? 0)%nat; apply queries_only_ret.
  - unfold Sqlx.readQueryTool. cbv zeta.
    destruct (negb _ && negb _); [apply queries_only_ret|].
    apply queries_only_bind; [apply sqlx_queries_only_HandleQuery|].
    intros r. apply queries_only_ret.
Qed.

(** X15: started read-only, the sqlx server registers the nine query tools
    and none of the six that write, and whatever the request, none of the
    registered tools calls [Exec]: each adds nothing but queries (the
    statement, and "EXPLAIN <statement>" ahead of it where the plan is
    checked) to the statements sent. *)
Theorem read_only_sqlx_server_sends_queries_only `{Unicode}
    (DSN : string) (WithExplainCheck : bool) (driver : Sqlx.Driver)
    (name : string) (tool : CallToolRequest → Go Sqlx.State CallToolResult)
    (request : CallToolRequest) (s : Sqlx.State) :
  (name, tool) ∈ SqlxTools.tool_table DSN true WithExplainCheck driver →
  (∃ sqls : list string,
     Sqlx.sent (tool request s).2 = Sqlx.sent s ++ (Queried <$> sqls)) ∧
  (∀ sql, Executed sql ∈ Sqlx.sent (tool request s).2 → Executed sql ∈ Sqlx.sent s) ∧
  name ∈ ["list_databases"; "list_tables"; "list_columns"; "describe_table";
          "get_table_size"; "list_indexes"; "read_query"; "explain_query";
          "count_query"].
Proof.
  intros Hin.
  pose proof (queries_only_sqlx_tools DSN WithExplainCheck driver name tool request Hin s)
    as Hq.
  split; [exact Hq|]. split.
  - destruct Hq as [sqls ->]. intros sql Hin'.
    apply elem_of_app in Hin' as [Hin' | Hin']; [done|].
    apply list_elem_of_fmap in Hin' as (sql' & [=] & _).
  - apply (list_elem_of_fmap_2 fst) in Hin. exact Hin.
Qed.

Lemma read_only_sqlx_witness :
  ∃ sqls : list string,
    Sqlx.sent (SqlxTools.countQueryTool sample_dsn true sample_driver drop_request
                 sqlx_fresh).2 =
      Sqlx.sent sqlx_fresh ++ (Queried <$> sqls).
Proof.
  refine (proj1 (read_only_sqlx_server_sends_queries_only sample_dsn true sample_driver
            "count_query" (SqlxTools.countQueryTool sample_dsn true sample_driver)
            drop_request sqlx_fresh _)).
  unfold SqlxTools.tool_table.
  apply elem_of_app; left. do 8 apply list_elem_of_further. apply list_elem_of_here.
Defined.

(** ** handlers.go: statements with placeholders *)






(** Two requests for the indexes of different tables send the same text. *)
Lemma Handlers_statements_sample :
  issued (HandlersTools.HandleListIndexes sample_pool sample_Query_args sample_wall
            (request_of [("table_name", ArgString "users")]) fresh).2 =
  issued (HandlersTools.HandleListIndexes sample_pool sample_Query_args sample_wall
            (request_of [("table_name", ArgString "x' OR '1'='1")]) fresh).2 ∧
  HandlersTools.index_filter "" "public" = ("WHERE schemaname = $1", ["public"], 1) ∧
  HandlersTools.index_filter "users" "public" =
    ("WHERE tablename = $1 AND schemaname = $2", ["users"; "public"], 2).
Proof. vm_compute. repeat split. Qed.

(** ** describe_table in the pooled servers *)




Lemma Handlers_describe_table_sample :
  (HandlersTools.HandleDescribeTable first_only_Query_args sample_wall users_request fresh).1 =
    Returned (NewToolResultText
      ("COLUMNS:" +:+ LF +:+ "No results found." +:+ LF +:+ "Execution time: " +:+
       Duration_String 1500)) ∧
  QueryErrors (metrics (HandlersTools.HandleDescribeTable first_only_Query_args sample_wall
                          users_request fresh).2) = 2 ∧
  length (issued (HandlersTools.HandleDescribeTable first_only_Query_args sample_wall
                    users_request fresh).2) = 3%nat.
Proof. vm_compute. repeat split. Qed.

Lemma describe_sections_issued `{Unicode} (dbPool : Pool) (wall : nat → Z)
    (sections : list (string * string)) :
  ∀ results w,
    ∃ n, issued (PooledTools.describe_sections dbPool wall sections results w).2 =
           issued w ++ take n (Queried <$> sections.*2) ∧
         (sections ≠ [] → (1 ≤ n)%nat).
Proof.
  induction sections as [|[title query] sections IH]; intros results w.
  - exists 0%nat. split; [by rewrite app_nil_r | done].
  - cbn [PooledTools.describe_sections]. unfold bind.
    pose proof (executeQuery_issued dbPool wall query w) as Hsent.
    destruct (Pooled.executeQuery dbPool wall query w) as [[[result|err]|reason] w1];
      simpl in Hsent.
    + destruct (IH (results ++ [title +:+ LF +:+ Pooled.formatResult result]) w1)
        as (n & Hn & _).
      exists (S n). split; [|lia]. rewrite Hn, Hsent, <- app_assoc. done.
    + exists 1%nat. split; [|lia]. simpl. by rewrite Hsent.
    + exists 1%nat. split; [|lia]. simpl. by rewrite Hsent.
Qed.

(** X18: describe_table of the monolithic server writes the caller's
    table and schema names into its statements as they come, between single
    quotes: the first statement sent is a fixed text around the two names.
    When the database refuses that statement the handler stops there: the
    reply is the error, the two later statements are not sent, and the
    refusal is counted twice. *)
Theorem describe_table_interpolates_and_stops `{Unicode} :
  ∃ a b c : string,
    ∀ (dbPool : Pool) (wall : nat → Z) (request : CallToolRequest) (w : World),
      let q1 := a +:+ getStringParam request "table_name" "" +:+ b +:+
                getStringParam request "schema" "public" +:+ c in
      let run := PooledTools.handleDescribeTable dbPool wall request w in
      (∃ n rest, (n ≤ 2)%nat ∧ length rest = n ∧
         issued run.2 = issued w ++ Queried q1 :: rest) ∧
      (∀ err,
         Query dbPool (issued w) q1 = QueryFailed err →
         failure_counted 2 err w run ∧
         issued run.2 = issued w ++ [Queried q1]).
Proof.
  do 3 eexists. intros dbPool wall request w q1 run. split.
  - unfold run, PooledTools.handleDescribeTable. cbv zeta.
    rewrite time_Now_bind, defer_issued by apply updateMetrics_issued.
    rewrite bind_issued by (intros [results|err] w'; [done | apply handleError_issued]).
    match goal with
    | |- context [PooledTools.describe_sections dbPool wall ?sections [] (tick w)] =>
        destruct (describe_sections_issued dbPool wall sections [] (tick w))
          as (n & Hn & Hle)
    end.
    rewrite Hn. specialize (Hle ltac:(done)).
    destruct n as [|n]; [lia|].
    cbn [zip zip_with fmap list_fmap snd take].
    eexists _, (take n _). split; [|split; [reflexivity|]].
    2:{ unfold q1. change (issued (tick w)) with (issued w). reflexivity. }
    rewrite length_take. cbn [length]. lia.
  - intros err Hq1.
    unfold run, PooledTools.handleDescribeTable. cbv zeta.
    rewrite time_Now_bind. unfold defer.
    cbn [zip zip_with PooledTools.describe_sections]. unfold bind.
    rewrite (executeQuery_failed dbPool wall _ err (tick w)) by exact Hq1.
    repeat split.
Qed.

Lemma describe_table_interpolation_sample :
  match issued (PooledTools.handleDescribeTable failing_pool sample_wall
                  quoted_name_request fresh).2 with
  | [Queried sql] => Contains sql "WHERE table_name = 'x' OR '1'='1' AND table_schema = 'public'"
  | _ => false
  end = true.
Proof. vm_compute. reflexivity. Qed.

(** ** Required parameters *)

Lemma timed_write_issued_any `{Unicode} (dbPool : Pool) (wall : nat → Z) (query : string)
    (returnID : bool) (w : World) :
  issued ((do start <- Pooled.time_Now wall ;;
           defer (Pooled.updateMetrics wall start)
             (do r <- Pooled.executeWriteQuery dbPool wall query returnID ;;
              Pooled.write_reply r)) w).2 =
    issued w ++ [Executed query].
Proof.
  rewrite time_Now_bind, defer_issued by apply updateMetrics_issued.
  rewrite bind_issued by (intros; apply write_reply_issued).
  by rewrite executeWriteQuery_issued.
Qed.

(** X19: the monolithic server does not look whether a mutating tool was
    given its statement or its object name: outside read-only mode a
    write_query, create_table, alter_table or create_index request without
    "query" sends the empty statement to the database, drop_index without
    names sends "DROP INDEX ", and analyze_table without a table name sends
    "ANALYZE <schema>.".  The [Handlers] methods refuse each of these
    requests with an error before anything is sent. *)
Theorem monolithic_server_sends_incomplete_statements `{Unicode}
    (config : Config) (dbPool : Pool) (wall : nat → Z)
    (request : CallToolRequest) (w : World) :
  ReadOnly config = false →
  (getStringParam request "query" "" = "" →
   issued (Pooled.handleWriteQuery config dbPool wall request w).2 =
     issued w ++ [Executed ""] ∧
   issued (Pooled.handleCreateTable config dbPool wall request w).2 =
     issued w ++ [Executed ""] ∧
   issued (Pooled.handleAlterTable config dbPool wall request w).2 =
     issued w ++ [Executed ""] ∧
   issued (Pooled.handleCreateIndex config dbPool wall request w).2 =
     issued w ++ [Executed ""] ∧
   rejected_without_database w (Handlers.HandleWriteQuery config dbPool wall request w) ∧
   rejected_without_database w (Handlers.HandleCreateTable config dbPool wall request w) ∧
   rejected_without_database w (Handlers.HandleAlterTable config dbPool wall request w) ∧
   rejected_without_database w (Handlers.HandleCreateIndex config dbPool wall request w)) ∧
  (getStringParam request "index_name" "" = "" →
   getStringParam request "schema" "" = "" →
   issued (Pooled.handleDropIndex config dbPool wall request w).2 =
     issued w ++ [Executed "DROP INDEX "] ∧
   rejected_without_database w (Handlers.HandleDropIndex config dbPool wall request w)) ∧
  (getStringParam request "table_name" "" = "" →
   issued (Pooled.handleAnalyzeTable config dbPool wall request w).2 =
     issued w ++ [Executed ("ANALYZE " +:+ getStringParam request "schema" "public" +:+ ".")] ∧
   rejected_without_database w (Handlers.HandleAnalyzeTable config dbPool wall request w)).
Proof.
  intros Hmode. split; [|split].
  - intros Hquery.
    unfold Pooled.handleCreateTable, Pooled.handleAlterTable, Pooled.handleCreateIndex,
      Pooled.handleDDL, Pooled.handleWriteQuery,
      Handlers.HandleCreateTable, Handlers.HandleAlterTable, Handlers.HandleCreateIndex,
      Handlers.HandleDDL, Handlers.HandleWriteQuery.
    cbv zeta. rewrite Hmode, Hquery. cbn [String.eqb].
    rewrite !timed_write_issued_any.
    repeat split; apply timed_error_is_rejection.
  - intros Hindex Hschema.
    unfold Pooled.handleDropIndex, Handlers.HandleDropIndex.
    cbv zeta. rewrite Hmode, Hindex, Hschema. cbn [String.eqb negb].
    rewrite timed_write_issued_any.
    split; [reflexivity | apply timed_error_is_rejection].
  - intros Htable.
    unfold Pooled.handleAnalyzeTable, Handlers.HandleAnalyzeTable.
    cbv zeta. rewrite Hmode, Htable. cbn [String.eqb].
    rewrite timed_write_issued_any.
    split; [reflexivity | apply timed_error_is_rejection].
Qed.

Lemma incomplete_statements_witness :
  issued (Pooled.handleCreateTable (sample_config false) sample_pool sample_wall
            empty_request fresh).2 = [Executed ""] ∧
  issued (Pooled.handleDropIndex (sample_config false) sample_pool sample_wall
            empty_request fresh).2 = [Executed "DROP INDEX "] ∧
  issued (Pooled.handleAnalyzeTable (sample_config false) sample_pool sample_wall
            empty_request fresh).2 = [Executed "ANALYZE public."] ∧
  rejected_without_database fresh
    (Handlers.HandleAnalyzeTable (sample_config false) sample_pool sample_wall
       empty_request fresh).
Proof.
  pose proof (monolithic_server_sends_incomplete_statements (sample_config false) sample_pool
                sample_wall empty_request fresh eq_refl) as (Hquery & Hdrop & Hanalyze).
  split; [|split; [|split]].
  - exact (proj1 (proj2 (Hquery eq_refl))).
  - exact (proj1 (Hdrop eq_refl eq_refl)).
  - exact (proj1 (Hanalyze eq_refl)).
  - exact (proj2 (Hanalyze eq_refl)).
Defined.

(** ** Registration *)

(** The handlers are attached under the names [createMCPServer] lists. *)
Lemma tool_table_names `{Unicode} config dbPool Query_args wall json_result json_stats :
  (PooledTools.tool_table config dbPool Query_args wall json_result json_stats).*1 =
    Pooled.createMCPServer config ∧
  (HandlersTools.tool_table config dbPool Query_args wall json_result json_stats).*1 =
    Handlers.createMCPServer config.
Proof.
  unfold PooledTools.tool_table, HandlersTools.tool_table,
    Pooled.createMCPServer, Handlers.createMCPServer.
  by destruct (ReadOnly config).
Qed.

(** ** A read_query request that is answered *)



